(** * Trading bot: indicator library, level clustering, engulfing patterns
      and the trade-plan synthesizer, embedded from the JavaScript sources.

    Numbers.  A JavaScript number is modelled by an exact rational [Q]
    (compared with [==]); rounding of IEEE-754 doubles, [NaN] and the
    infinities are outside that model, so the theorems that rest on a
    quotient state the condition that keeps its divisor non-zero (a
    positive period, positive prices).  [null] is [None].  Where the
    rounding of doubles decides a result, the numeric functions are
    embedded a second time, on binary64 numbers (module [Binary64]),
    and evaluated there.

    Exceptions.  Code that can throw is written in the error monad [M];
    [try { .. } catch (error) { .. }] is [try_catch]. *)

From Stdlib Require Import List String ZArith QArith Qabs Qround Qminmax.
From Stdlib Require Import Bool Lia Lqa.
From Stdlib Require Import Decimal DecimalString.
From Stdlib Require Import Sorting.Sorted Sorting.Permutation.
From Stdlib Require Import SpecFloat.
Import ListNotations.

Set Implicit Arguments.

(* ------------------------------------------------------------------ *)
(** ** JavaScript preliminaries *)

Module Js.

(** A thrown [Error] object: its constructor name and its [message]. *)
Record Error : Type := mkError { name : string; message : string }.

Inductive M (A : Type) : Type :=
| Ok (a : A)
| Throw (e : Error).
Arguments Ok {A} a.
Arguments Throw {A} e.

Definition ret {A} (a : A) : M A := Ok a.

Definition bind {A B} (m : M A) (k : A -> M B) : M B :=
  match m with
  | Ok a => k a
  | Throw e => Throw e
  end.

(** [try { body } catch (error) { handler error }] *)
Definition try_catch {A} (body : M A) (handler : Error -> M A) : M A :=
  match body with
  | Ok a => Ok a
  | Throw e => handler e
  end.

(** Reading property [prop] of an object that may be [undefined]:
    [o.prop] throws a [TypeError] when [o] is [undefined]. *)
Definition TypeError (prop : string) : Error :=
  mkError "TypeError"
    ("Cannot read properties of undefined (reading '" ++ prop ++ "')").

Definition read {O A} (o : option O) (prop : string) (get : O -> A) : M A :=
  match o with
  | Some obj => Ok (get obj)
  | None => Throw (TypeError prop)
  end.

(** [new Array(n)] with a negative length. *)
Definition RangeError : Error := mkError "RangeError" "Invalid array length".

(** [s.includes(sub)] on strings. *)
Definition includes (s sub : string) : bool :=
  match String.index 0 sub s with
  | Some _ => true
  | None => false
  end.

(** [a === b] on strings. *)
Definition streq (a b : string) : bool := String.eqb a b.

(** [a < b], [a > b] and [a === b] on numbers. *)
Definition ltb (a b : Q) : bool := negb (Qle_bool b a).
Definition gtb (a b : Q) : bool := ltb b a.
Definition eqb (a b : Q) : bool := Qeq_bool a b.

(** [arr.reduce((sum, x) => sum + x, 0)] *)
Definition sum (l : list Q) : Q := fold_left Qplus l 0.

(** [arr.slice(a, b)] for [0 <= a]. *)
Definition slice {A} (a b : nat) (l : list A) : list A :=
  firstn (b - a) (skipn a l).

(** A [nat] used as a number. *)
Definition num (n : nat) : Q := inject_Z (Z.of_nat n).

(** [Math.round]: the nearest integer, ties towards [+Infinity]. *)
Definition Math_round (x : Q) : Q := inject_Z (Qfloor (x + (1 # 2))).

(** [Math.abs] *)
Definition Math_abs (x : Q) : Q := Qabs x.

(** [Math.min(...l)] and [Math.max(...l)] of a non-empty list (of an
    empty one they are the infinities, which the model does not have). *)
Definition Math_min (l : list Q) : Q :=
  match l with
  | [] => 0
  | x :: l' => fold_left Qmin l' x
  end.

Definition Math_max (l : list Q) : Q :=
  match l with
  | [] => 0
  | x :: l' => fold_left Qmax l' x
  end.

(** Decimal digits of an integer. *)
Definition showZ (z : Z) : string := NilZero.string_of_int (Z.to_int z).

(** [x.toFixed(2)], for [|x| < 1e21]: the nearest multiple of 0.01,
    ties to the larger one, sign first. *)
Definition toFixed2 (x : Q) : string :=
  let n := Qfloor (Qabs x * 100 + (1 # 2)) in
  let frac := (n mod 100)%Z in
  ((if ltb x 0 then "-" else "") ++ showZ (n / 100) ++ "." ++
   (if (frac <? 10)%Z then "0" else "") ++ showZ frac)%string.

(** Truthiness of a value that is a number or [null]:
    [null] and [0] are falsy. *)
Definition truthy (v : option Q) : bool :=
  match v with
  | Some x => negb (eqb x 0)
  | None => false
  end.

End Js.

Notation "x <- c1 ;; c2" := (Js.bind c1 (fun x => c2))
  (at level 61, c1 at next level, right associativity).

(* ------------------------------------------------------------------ *)
(** ** Indicator library (utils/dataProcessing.js and the Binance module) *)

Module Indicators.
Import Js.

(** An indicator value: a number, or [null] when history is short. *)
Definition IndicatorValue := option Q.

(** [calculateMovingAverages(data, period)]: the loop pushes one value
    per index [i] of [data]. *)
Definition calculateMovingAverages (data : list Q) (period : nat)
  : list IndicatorValue :=
  map (fun i =>
         if (i <? period - 1)%nat then None
         else Some (sum (slice (i + 1 - period) (i + 1) data) / num period))
      (seq 0 (List.length data)).

(** The [for] loop of [calculateEMA]: [last] is [ema[ema.length - 1]]. *)
Fixpoint emaLoop (multiplier last : Q) (rest : list Q) : list Q :=
  match rest with
  | [] => []
  | p :: rest' =>
      let e := (p - last) * multiplier + last in
      e :: emaLoop multiplier e rest'
  end.

(** [calculateEMA(prices, period)].  [Array(period - 1)] throws a
    [RangeError] for period 0. *)
Definition calculateEMA (prices : list Q) (period : nat)
  : M (list IndicatorValue) :=
  let multiplier := 2 / (num period + 1) in
  let sma := sum (slice 0 period prices) / num period in
  let ema := sma :: emaLoop multiplier sma (skipn period prices) in
  if (period =? 0)%nat then Throw RangeError
  else Ok (repeat None (period - 1) ++ map Some ema).

(** [deltas[i-1] = prices[i] - prices[i-1]] *)
Fixpoint deltasOf (prices : list Q) : list Q :=
  match prices with
  | p0 :: ((p1 :: _) as rest) => (p1 - p0) :: deltasOf rest
  | _ => []
  end.

Definition gainOf (d : Q) : Q := if gtb d 0 then d else 0.
Definition lossOf (d : Q) : Q := if ltb d 0 then Math_abs d else 0.

(** The value pushed for a pair of averages. *)
Definition rsiValue (avgGain avgLoss : Q) : Q :=
  if eqb avgLoss 0 then 100
  else let rs := avgGain / avgLoss in 100 - (100 / (1 + rs)).

(** Wilder smoothing step. *)
Definition smooth (period : nat) (avg current : Q) : Q :=
  ((avg * (num period - 1)) + current) / num period.

(** The second loop of [calculateRSI], over [gains[i-1]], [losses[i-1]]
    for [i = period + 1 .. prices.length - 1]. *)
Fixpoint rsiLoop (period : nat) (avgGain avgLoss : Q) (gl : list (Q * Q))
  : list IndicatorValue :=
  match gl with
  | [] => []
  | (currentGain, currentLoss) :: gl' =>
      let avgGain' := smooth period avgGain currentGain in
      let avgLoss' := smooth period avgLoss currentLoss in
      Some (rsiValue avgGain' avgLoss') :: rsiLoop period avgGain' avgLoss' gl'
  end.

(** [calculateRSI(prices, period = 14)] *)
Definition calculateRSI (prices : list Q) (period : nat)
  : list IndicatorValue :=
  if (List.length prices <? period + 1)%nat then repeat None (List.length prices)
  else
    let deltas := deltasOf prices in
    let gains := map gainOf deltas in
    let losses := map lossOf deltas in
    let avgGain := sum (slice 0 period gains) / num period in
    let avgLoss := sum (slice 0 period losses) / num period in
    None :: Some (rsiValue avgGain avgLoss)
         :: rsiLoop period avgGain avgLoss (skipn period (combine gains losses)).

End Indicators.

(* ------------------------------------------------------------------ *)
(** ** Level detector: clustering of extrema (Binance module) *)

Module Levels.
Import Js.

(** An extremum as [findLocalExtrema] produces it. *)
Record Level : Type := mkLevel { value : Q; index : nat }.

(** [[...levels].sort((a, b) => a.value - b.value)]: a stable sort,
    ascending by [value]. *)
Fixpoint insert (a : Level) (l : list Level) : list Level :=
  match l with
  | [] => [a]
  | b :: l' => if Qle_bool (value a) (value b) then a :: l else b :: insert a l'
  end.

Fixpoint sort (l : list Level) : list Level :=
  match l with
  | [] => []
  | a :: l' => insert a (sort l')
  end.

(** [currentCluster.reduce((sum, level) => sum + level.value, 0)
      / currentCluster.length] *)
Definition avgValue (cluster : list Level) : Q :=
  fold_left (fun sum level => sum + value level) cluster 0
    / num (List.length cluster).

(** [currentCluster[currentCluster.length - 1]]; the cluster is never
    empty inside the loop. *)
Definition lastLevel (currentCluster : list Level) (dflt : Level) : Level :=
  List.last currentCluster dflt.

(** The [for] loop of [clusterLevels], with its two mutable variables. *)
Fixpoint clusterLoop (threshold : Q) (clusters : list Q)
         (currentCluster : list Level) (rest : list Level)
  : list Q * list Level :=
  match rest with
  | [] => (clusters, currentCluster)
  | currentLevel :: rest' =>
      let last := lastLevel currentCluster currentLevel in
      if ltb ((value currentLevel - value last) / value last) threshold
      then clusterLoop threshold clusters (currentCluster ++ [currentLevel]) rest'
      else clusterLoop threshold (clusters ++ [avgValue currentCluster])
                       [currentLevel] rest'
  end.

(** [clusterLevels(levels, threshold = 0.01)] *)
Definition clusterLevels (levels : list Level) (threshold : Q) : list Q :=
  match sort levels with
  | [] => []
  | first :: rest =>
      let '(clusters, currentCluster) :=
        clusterLoop threshold [] [first] rest in
      if (0 <? List.length currentCluster)%nat
      then clusters ++ [avgValue currentCluster]
      else clusters
  end.

Definition defaultThreshold : Q := 1 # 100.

End Levels.

(* ------------------------------------------------------------------ *)
(** ** Pattern detector: engulfing candles (technical analysis module) *)

Module Patterns.
Import Js.

Record Candle : Type := mkCandle {
  open : Q; high : Q; low : Q; close : Q; volume : Q
}.

(** [klines[i]], then a property read on the result. *)
Definition at_index (klines : list Candle) (i : nat) (prop : string)
  : M Candle :=
  read (nth_error klines i) prop (fun c => c).

Definition isBullishEngulfing (current previous : Candle) : bool :=
  gtb (close current) (open current) &&
  ltb (close previous) (open previous) &&
  ltb (open current) (close previous) &&
  gtb (close current) (open previous).

Definition isBearishEngulfing (current previous : Candle) : bool :=
  ltb (close current) (open current) &&
  gtb (close previous) (open previous) &&
  gtb (open current) (close previous) &&
  ltb (close current) (open previous).

(** The loop body for the values [counters] of the counter [i].  Both
    candles are read first; the loop bound keeps both indices in range. *)
Fixpoint engulfingLoop (klines : list Candle) (counters : list nat)
         (bullish bearish : bool) : M (bool * bool) :=
  match counters with
  | [] => Ok (bullish, bearish)
  | i :: counters' =>
      current <- at_index klines (List.length klines - i) "close" ;;
      previous <- at_index klines (List.length klines - i - 1) "close" ;;
      let bullish' := if isBullishEngulfing current previous then true else bullish in
      let bearish' := if isBearishEngulfing current previous then true else bearish in
      engulfingLoop klines counters' bullish' bearish'
  end.

(** [detectEngulfingPatterns(klines)]:
    [for (let i = 1; i < Math.min(5, klines.length); i++)] *)
Definition detectEngulfingPatterns (klines : list Candle) : M (bool * bool) :=
  engulfingLoop klines (seq 1 (Nat.min 5 (List.length klines) - 1)) false false.

End Patterns.

(* ------------------------------------------------------------------ *)
(** ** Inputs of the aggregator: the three analysis records.
    Every nested object may be missing ([undefined]); reading a property
    of a missing object throws. *)

Module TrendStrength.
Record t : Type := mk { direction : string; strength : string }.
End TrendStrength.

Module Sma.
Record t : Type := mk { sma20 : option Q; sma50 : option Q; sma200 : option Q }.
End Sma.

Module MovingAverages.
Record t : Type := mk {
  maTrend : string;
  aboveSma20 : bool; aboveSma50 : bool; aboveSma200 : bool;
  sma : option Sma.t
}.
End MovingAverages.

Module Rsi.
Record t : Type := mk { value : option Q }.
End Rsi.

Module Macd.
Record t : Type := mk {
  macdLine : option Q; signalLine : option Q; histogram : option Q
}.
End Macd.

Module Momentum.
Record t : Type := mk {
  overallMomentum : string; rsi : option Rsi.t; macd : option Macd.t
}.
End Momentum.

Module Oscillators.
Record t : Type := mk { consensus : string }.
End Oscillators.

Module Pattern.
Record t : Type := mk { detected : bool }.
End Pattern.

Module PricePatterns.
Record t : Type := mk {
  patternSignal : string;
  doubleTop : option Pattern.t;
  doubleBottom : option Pattern.t;
  headAndShoulders : option Pattern.t;
  inverseHeadAndShoulders : option Pattern.t
}.
End PricePatterns.

Module MarketStructure.
Record t : Type := mk { structure : string }.
End MarketStructure.

Module LevelLists.
Record t : Type := mk { support : list Q; resistance : list Q }.
End LevelLists.

Module SupportResistance.
Record t : Type := mk {
  levels : option LevelLists.t;
  currentPrice : Q;
  nearestSupport : option Q;
  nearestResistance : option Q
}.
End SupportResistance.

Module Volatility.
Record t : Type := mk { level : string; daily : Q }.
End Volatility.

Module TechnicalAnalysis.
Record t : Type := mk {
  trendStrength : option TrendStrength.t;
  supportResistance : option SupportResistance.t;
  volatility : option Volatility.t;
  momentum : option Momentum.t;
  movingAverages : option MovingAverages.t;
  oscillators : option Oscillators.t;
  patterns : option PricePatterns.t;
  marketStructure : option MarketStructure.t
}.
End TechnicalAnalysis.

Module OverallSentiment.
Record t : Type := mk { classification : string; score : Q }.
End OverallSentiment.

Module Social.
Record t : Type := mk { sentiment : string; volume : string }.
End Social.

Module News.
Record t : Type := mk { sentiment : string; headlines : list string }.
End News.

Module FearGreedIndex.
Record t : Type := mk { value : Q; classification : string }.
End FearGreedIndex.

Module SentimentAnalysis.
Record t : Type := mk {
  social : option Social.t;
  news : option News.t;
  fearGreedIndex : option FearGreedIndex.t;
  overallSentiment : option OverallSentiment.t
}.
End SentimentAnalysis.

Module Volumes.
Record t : Type := mk { last24h : Q }.
End Volumes.

Module VolumeTrends.
Record t : Type := mk { classification : string; volumes : option Volumes.t }.
End VolumeTrends.

Module BuySellRatio.
Record t : Type := mk { ratio : Q; pressureClassification : string }.
End BuySellRatio.

Module VolumeAtPrice.
Record t : Type := mk { bidAskRatio : Q; volumeWallClassification : string }.
End VolumeAtPrice.

Module VolumeAnalysis.
Record t : Type := mk {
  volumeTrends : option VolumeTrends.t;
  buySellRatio : option BuySellRatio.t;
  volumeAtPrice : option VolumeAtPrice.t
}.
End VolumeAnalysis.

(** ** Outputs of the aggregator *)

Module Entry.
Record t : Type := mk {
  price : Q; type : string; allocation : Q; reason : string
}.
End Entry.

Module TakeProfit.
Record t : Type := mk {
  price : Q; allocation : Q; percentageGain : Q; reason : string
}.
End TakeProfit.

Module StopLoss.
Record t : Type := mk { price : Q; percentageLoss : Q; reason : string }.
End StopLoss.

Module Leverage.
Record t : Type := mk { recommended : Q; riskLevel : string; reason : string }.
End Leverage.

(** The nested summary objects, flattened. *)
Module TechnicalSummary.
Record t : Type := mk {
  trend_direction : string; trend_strength : string;
  movingAverages_trend : string;
  movingAverages_sma20 : option Q;
  movingAverages_sma50 : option Q;
  movingAverages_sma200 : option Q;
  momentum_overall : string;
  momentum_rsi : option Q;
  momentum_macd_line : option Q;
  momentum_macd_signal : option Q;
  momentum_macd_histogram : option Q;
  supportResistance_nearestSupport : option Q;
  supportResistance_nearestResistance : option Q;
  volatility_level : string; volatility_daily : Q
}.
End TechnicalSummary.

Module SentimentSummary.
Record t : Type := mk {
  overall_classification : string; overall_score : Q;
  social_sentiment : string; social_volume : string;
  news_sentiment : string; news_headlines : list string;
  fearGreedIndex_value : Q; fearGreedIndex_classification : string
}.
End SentimentSummary.

Module VolumeSummary.
Record t : Type := mk {
  trends_classification : string; trends_last24h : Q;
  buySellRatio_ratio : Q; buySellRatio_pressure : string;
  volumeAtPrice_classification : string; volumeAtPrice_bidAskRatio : Q
}.
End VolumeSummary.

(** The object [generateTradeRecommendation] returns: the short neutral
    object, or the full plan. *)
Module Recommendation.
Record neutral : Type := mkNeutral {
  n_symbol : string; n_recommendation : string; n_confidence : string;
  n_reason : string; n_timestamp : Z
}.

Record plan : Type := mkPlan {
  symbol : string; recommendation : string; confidence : string;
  entries : list Entry.t;
  takeProfitTargets : list TakeProfit.t;
  stopLoss : option StopLoss.t;
  leverage : Leverage.t;
  reasoning : list string;
  analysisTimestamp : Z;
  technicalSummary : TechnicalSummary.t;
  sentimentSummary : SentimentSummary.t;
  volumeSummary : VolumeSummary.t
}.

Inductive t : Type :=
| Neutral (n : neutral)
| Plan (p : plan).

(** The keys [entries], [takeProfitTargets], [stopLoss], [leverage] of
    the returned object; [None] when the object has no such key. *)
Definition get_entries (r : t) : option (list Entry.t) :=
  match r with Neutral _ => None | Plan p => Some (entries p) end.
Definition get_takeProfitTargets (r : t) : option (list TakeProfit.t) :=
  match r with Neutral _ => None | Plan p => Some (takeProfitTargets p) end.
Definition get_stopLoss (r : t) : option (option StopLoss.t) :=
  match r with Neutral _ => None | Plan p => Some (stopLoss p) end.
Definition get_leverage (r : t) : option Leverage.t :=
  match r with Neutral _ => None | Plan p => Some (leverage p) end.
End Recommendation.

(* ------------------------------------------------------------------ *)
(** ** Signal aggregator and plan synthesizer (recommendation module) *)

Module Trade.
Import Js.
Local Open Scope string_scope.

Definition TA : Type := option TechnicalAnalysis.t.
Definition SA : Type := option SentimentAnalysis.t.
Definition VA : Type := option VolumeAnalysis.t.

(** Property paths [a.b] and [a.b.c] of the source. *)
Definition trendStrength (ta : TA) :=
  read ta "trendStrength" TechnicalAnalysis.trendStrength.
Definition movingAverages (ta : TA) :=
  read ta "movingAverages" TechnicalAnalysis.movingAverages.
Definition momentum (ta : TA) :=
  read ta "momentum" TechnicalAnalysis.momentum.
Definition oscillators (ta : TA) :=
  read ta "oscillators" TechnicalAnalysis.oscillators.
Definition patterns (ta : TA) :=
  read ta "patterns" TechnicalAnalysis.patterns.
Definition marketStructure (ta : TA) :=
  read ta "marketStructure" TechnicalAnalysis.marketStructure.
Definition supportResistance (ta : TA) :=
  read ta "supportResistance" TechnicalAnalysis.supportResistance.
Definition volatility (ta : TA) :=
  read ta "volatility" TechnicalAnalysis.volatility.
Definition overallSentiment (sa : SA) :=
  read sa "overallSentiment" SentimentAnalysis.overallSentiment.
Definition social (sa : SA) := read sa "social" SentimentAnalysis.social.
Definition news (sa : SA) := read sa "news" SentimentAnalysis.news.
Definition fearGreedIndex (sa : SA) :=
  read sa "fearGreedIndex" SentimentAnalysis.fearGreedIndex.
Definition volumeTrends (va : VA) :=
  read va "volumeTrends" VolumeAnalysis.volumeTrends.
Definition buySellRatio (va : VA) :=
  read va "buySellRatio" VolumeAnalysis.buySellRatio.
Definition volumeAtPrice (va : VA) :=
  read va "volumeAtPrice" VolumeAnalysis.volumeAtPrice.

Definition trend_direction (ta : TA) : M string :=
  o <- trendStrength ta ;; read o "direction" TrendStrength.direction.
Definition trend_strength (ta : TA) : M string :=
  o <- trendStrength ta ;; read o "strength" TrendStrength.strength.
Definition maTrend (ta : TA) : M string :=
  o <- movingAverages ta ;; read o "maTrend" MovingAverages.maTrend.
Definition overallMomentum (ta : TA) : M string :=
  o <- momentum ta ;; read o "overallMomentum" Momentum.overallMomentum.
Definition consensus (ta : TA) : M string :=
  o <- oscillators ta ;; read o "consensus" Oscillators.consensus.
Definition patternSignal (ta : TA) : M string :=
  o <- patterns ta ;; read o "patternSignal" PricePatterns.patternSignal.
Definition structure (ta : TA) : M string :=
  o <- marketStructure ta ;; read o "structure" MarketStructure.structure.
Definition currentPrice (ta : TA) : M Q :=
  o <- supportResistance ta ;;
  read o "currentPrice" SupportResistance.currentPrice.
Definition nearestSupport (ta : TA) : M (option Q) :=
  o <- supportResistance ta ;;
  read o "nearestSupport" SupportResistance.nearestSupport.
Definition nearestResistance (ta : TA) : M (option Q) :=
  o <- supportResistance ta ;;
  read o "nearestResistance" SupportResistance.nearestResistance.
Definition levels_support (ta : TA) : M (list Q) :=
  o <- supportResistance ta ;;
  l <- read o "levels" SupportResistance.levels ;;
  read l "support" LevelLists.support.
Definition levels_resistance (ta : TA) : M (list Q) :=
  o <- supportResistance ta ;;
  l <- read o "levels" SupportResistance.levels ;;
  read l "resistance" LevelLists.resistance.
Definition overall_classification (sa : SA) : M string :=
  o <- overallSentiment sa ;;
  read o "classification" OverallSentiment.classification.
Definition social_sentiment (sa : SA) : M string :=
  o <- social sa ;; read o "sentiment" Social.sentiment.
Definition news_sentiment (sa : SA) : M string :=
  o <- news sa ;; read o "sentiment" News.sentiment.
Definition fearGreed_classification (sa : SA) : M string :=
  o <- fearGreedIndex sa ;;
  read o "classification" FearGreedIndex.classification.
Definition volumeTrends_classification (va : VA) : M string :=
  o <- volumeTrends va ;; read o "classification" VolumeTrends.classification.
Definition pressureClassification (va : VA) : M string :=
  o <- buySellRatio va ;;
  read o "pressureClassification" BuySellRatio.pressureClassification.
Definition volumeWallClassification (va : VA) : M string :=
  o <- volumeAtPrice va ;;
  read o "volumeWallClassification" VolumeAtPrice.volumeWallClassification.

(** [if (cond) count++] *)
Definition incrIf (cond : bool) (count : Z) : Z :=
  if cond then (count + 1)%Z else count.

(** The counting part of [determineTradeDirection]: the values of
    [totalBullish] and [totalBearish]. *)
Definition directionVotes (ta : TA) (sa : SA) (va : VA) : M (Z * Z) :=
  let technicalBullishCount := 0%Z in
  let technicalBearishCount := 0%Z in
  (* Trend analysis *)
  direction <- trend_direction ta ;;
  let technicalBullishCount := incrIf (streq direction "bullish") technicalBullishCount in
  let technicalBearishCount := incrIf (streq direction "bearish") technicalBearishCount in
  (* Moving averages *)
  ma <- maTrend ta ;;
  let technicalBullishCount := incrIf (includes ma "bullish") technicalBullishCount in
  let technicalBearishCount := incrIf (includes ma "bearish") technicalBearishCount in
  (* Momentum *)
  mom <- overallMomentum ta ;;
  let technicalBullishCount := incrIf (includes mom "bullish") technicalBullishCount in
  let technicalBearishCount := incrIf (includes mom "bearish") technicalBearishCount in
  (* Oscillators *)
  osc <- consensus ta ;;
  let technicalBullishCount := incrIf (streq osc "bullish") technicalBullishCount in
  let technicalBearishCount := incrIf (streq osc "bearish") technicalBearishCount in
  (* Price patterns *)
  pat <- patternSignal ta ;;
  let technicalBullishCount := incrIf (streq pat "bullish") technicalBullishCount in
  let technicalBearishCount := incrIf (streq pat "bearish") technicalBearishCount in
  (* Market structure *)
  str <- structure ta ;;
  let technicalBullishCount := incrIf (streq str "uptrend") technicalBullishCount in
  let technicalBearishCount := incrIf (streq str "downtrend") technicalBearishCount in
  let sentimentBullishCount := 0%Z in
  let sentimentBearishCount := 0%Z in
  (* Overall sentiment *)
  ov <- overall_classification sa ;;
  let sentimentBullishCount := incrIf (includes ov "bullish") sentimentBullishCount in
  let sentimentBearishCount := incrIf (includes ov "bearish") sentimentBearishCount in
  (* Social sentiment *)
  soc <- social_sentiment sa ;;
  let sentimentBullishCount := incrIf (includes soc "bullish") sentimentBullishCount in
  let sentimentBearishCount := incrIf (includes soc "bearish") sentimentBearishCount in
  (* News sentiment *)
  nws <- news_sentiment sa ;;
  let sentimentBullishCount := incrIf (includes nws "bullish") sentimentBullishCount in
  let sentimentBearishCount := incrIf (includes nws "bearish") sentimentBearishCount in
  (* Fear & Greed Index *)
  fg <- fearGreed_classification sa ;;
  let sentimentBullishCount := incrIf (streq fg "extreme greed") sentimentBullishCount in
  let sentimentBearishCount := incrIf (streq fg "extreme fear") sentimentBearishCount in
  let volumeBullishCount := 0%Z in
  let volumeBearishCount := 0%Z in
  (* Volume trends *)
  vt <- volumeTrends_classification va ;;
  let volumeBullishCount := incrIf (streq vt "increasing") volumeBullishCount in
  let volumeBearishCount := incrIf (streq vt "decreasing") volumeBearishCount in
  (* Buy/sell ratio *)
  pr <- pressureClassification va ;;
  let volumeBullishCount := incrIf (streq pr "buying") volumeBullishCount in
  let volumeBearishCount := incrIf (streq pr "selling") volumeBearishCount in
  (* Volume at price *)
  wall <- volumeWallClassification va ;;
  let volumeBullishCount := incrIf (streq wall "strong support") volumeBullishCount in
  let volumeBearishCount := incrIf (streq wall "strong resistance") volumeBearishCount in
  let totalBullish := (technicalBullishCount + sentimentBullishCount + volumeBullishCount)%Z in
  let totalBearish := (technicalBearishCount + sentimentBearishCount + volumeBearishCount)%Z in
  ret (totalBullish, totalBearish).

(** The final [if] of [determineTradeDirection]. *)
Definition resolveDirection (totalBullish totalBearish : Z) : string :=
  if (totalBullish >? totalBearish)%Z && (totalBullish - totalBearish >=? 3)%Z
  then "long"
  else if (totalBearish >? totalBullish)%Z && (totalBearish - totalBullish >=? 3)%Z
  then "short"
  else "neutral".

Definition determineTradeDirection (ta : TA) (sa : SA) (va : VA) : M string :=
  votes <- directionVotes ta sa va ;;
  ret (resolveDirection (fst votes) (snd votes)).

(** [direction === 'long' ? a : b] *)
Definition forLong (direction a b : string) : string :=
  if streq direction "long" then a else b.

(** The accumulation part of [calculateConfidence]: [confidenceScore].
    Each field is read once, before the tests that use it: a read the
    source skips by short-circuit is of an object already read, so it
    cannot be the one that throws. *)
Definition confidenceScore (ta : TA) (sa : SA) (va : VA) (direction : string)
  : M Z :=
  let confidenceScore := 0%Z in
  (* trend strength *)
  strength <- trend_strength ta ;;
  trendDir <- trend_direction ta ;;
  let confidenceScore :=
    if streq strength "strong" &&
       streq trendDir (forLong direction "bullish" "bearish")
    then (confidenceScore + 2)%Z
    else if streq strength "moderate" &&
            streq trendDir (forLong direction "bullish" "bearish")
    then (confidenceScore + 1)%Z
    else confidenceScore in
  (* momentum *)
  let momentumDirection := forLong direction "bullish" "bearish" in
  mom <- overallMomentum ta ;;
  let confidenceScore :=
    if includes mom "strongly" && includes mom momentumDirection
    then (confidenceScore + 2)%Z
    else if streq mom momentumDirection then (confidenceScore + 1)%Z
    else confidenceScore in
  (* moving averages *)
  let maDirection := forLong direction "bullish" "bearish" in
  ma <- maTrend ta ;;
  let confidenceScore :=
    if includes ma "strongly" && includes ma maDirection
    then (confidenceScore + 2)%Z
    else if streq ma maDirection then (confidenceScore + 1)%Z
    else confidenceScore in
  (* sentiment *)
  let sentimentDirection := forLong direction "bullish" "bearish" in
  ov <- overall_classification sa ;;
  let confidenceScore :=
    if includes ov "very" && includes ov sentimentDirection
    then (confidenceScore + 2)%Z
    else if streq ov sentimentDirection then (confidenceScore + 1)%Z
    else confidenceScore in
  (* volume *)
  pr <- pressureClassification va ;;
  let confidenceScore :=
    if streq pr (forLong direction "buying" "selling")
    then (confidenceScore + 1)%Z else confidenceScore in
  wall <- volumeWallClassification va ;;
  let confidenceScore :=
    if streq wall (forLong direction "strong support" "strong resistance")
    then (confidenceScore + 1)%Z else confidenceScore in
  ret confidenceScore.

(** The final [if] of [calculateConfidence]. *)
Definition confidenceLevel (confidenceScore : Z) : string :=
  if (confidenceScore >=? 7)%Z then "very high"
  else if (confidenceScore >=? 5)%Z then "high"
  else if (confidenceScore >=? 3)%Z then "moderate"
  else "low".

Definition calculateConfidence (ta : TA) (sa : SA) (va : VA)
           (direction : string) : M string :=
  score <- confidenceScore ta sa va direction ;;
  ret (confidenceLevel score).

(** [arr.push(x)] and [if (cond) arr.push(x)] *)
Definition push {A} (arr : list A) (x : A) : list A := (arr ++ [x])%list.

Definition pushIf {A} (cond : bool) (arr : list A) (x : A) : list A :=
  if cond then push arr x else arr.

(** [arr[i]] for an index that the source has checked to be in range. *)
Definition item (arr : list Q) (i : nat) : Q := nth i arr 0.

(** The number held by a truthy value. *)
Definition numberOf (v : option Q) : Q :=
  match v with Some x => x | None => 0 end.

Definition determineEntryPoints (ta : TA) (direction : string)
  : M (list Entry.t) :=
  currentPrice <- currentPrice ta ;;
  let entries := [] in
  if streq direction "long" then
    let entries :=
      push entries
        (Entry.mk currentPrice "market" (4 # 10) "Immediate market entry") in
    nearest <- nearestSupport ta ;;
    let supportPrice := numberOf nearest in
    let entries :=
      pushIf (truthy nearest) entries
        (Entry.mk supportPrice "limit" (3 # 10) "Entry at nearest support level") in
    supports <- levels_support ta ;;
    let lowerSupport := item supports 1 in
    let entries :=
      pushIf (2 <=? List.length supports)%nat entries
        (Entry.mk lowerSupport "limit" (3 # 10) "Entry at secondary support level") in
    ret entries
  else if streq direction "short" then
    let entries :=
      push entries
        (Entry.mk currentPrice "market" (4 # 10) "Immediate market entry") in
    nearest <- nearestResistance ta ;;
    let resistancePrice := numberOf nearest in
    let entries :=
      pushIf (truthy nearest) entries
        (Entry.mk resistancePrice "limit" (3 # 10) "Entry at nearest resistance level") in
    resistances <- levels_resistance ta ;;
    let higherResistance := item resistances 1 in
    let entries :=
      pushIf (2 <=? List.length resistances)%nat entries
        (Entry.mk higherResistance "limit" (3 # 10) "Entry at secondary resistance level") in
    ret entries
  else ret entries.

Definition determineTakeProfitTargets (ta : TA) (direction : string)
  : M (list TakeProfit.t) :=
  currentPrice <- currentPrice ta ;;
  let takeProfitTargets := [] in
  if streq direction "long" then
    resistances <- levels_resistance ta ;;
    if (0 <? List.length resistances)%nat then
      let takeProfitTargets :=
        push takeProfitTargets
          (TakeProfit.mk (item resistances 0) (3 # 10)
             (((item resistances 0 - currentPrice) / currentPrice) * 100)
             "First take profit at nearest resistance") in
      let takeProfitTargets :=
        pushIf (1 <? List.length resistances)%nat takeProfitTargets
          (TakeProfit.mk (item resistances 1) (3 # 10)
             (((item resistances 1 - currentPrice) / currentPrice) * 100)
             "Second take profit at higher resistance") in
      if (2 <? List.length resistances)%nat then
        ret (push takeProfitTargets
               (TakeProfit.mk (item resistances 2) (4 # 10)
                  (((item resistances 2 - currentPrice) / currentPrice) * 100)
                  "Final take profit at major resistance"))
      else
        let projectedTarget := currentPrice * (11 # 10) in
        ret (push takeProfitTargets
               (TakeProfit.mk projectedTarget (4 # 10) 10
                  "Final take profit at projected target"))
    else
      let takeProfitTargets :=
        push takeProfitTargets
          (TakeProfit.mk (currentPrice * (103 # 100)) (3 # 10) 3
             "First take profit at 3% gain") in
      let takeProfitTargets :=
        push takeProfitTargets
          (TakeProfit.mk (currentPrice * (105 # 100)) (3 # 10) 5
             "Second take profit at 5% gain") in
      ret (push takeProfitTargets
             (TakeProfit.mk (currentPrice * (11 # 10)) (4 # 10) 10
                "Final take profit at 10% gain"))
  else if streq direction "short" then
    supports <- levels_support ta ;;
    if (0 <? List.length supports)%nat then
      let takeProfitTargets :=
        push takeProfitTargets
          (TakeProfit.mk (item supports 0) (3 # 10)
             (((currentPrice - item supports 0) / currentPrice) * 100)
             "First take profit at nearest support") in
      let takeProfitTargets :=
        pushIf (1 <? List.length supports)%nat takeProfitTargets
          (TakeProfit.mk (item supports 1) (3 # 10)
             (((currentPrice - item supports 1) / currentPrice) * 100)
             "Second take profit at lower support") in
      if (2 <? List.length supports)%nat then
        ret (push takeProfitTargets
               (TakeProfit.mk (item supports 2) (4 # 10)
                  (((currentPrice - item supports 2) / currentPrice) * 100)
                  "Final take profit at major support"))
      else
        let projectedTarget := currentPrice * (9 # 10) in
        ret (push takeProfitTargets
               (TakeProfit.mk projectedTarget (4 # 10) 10
                  "Final take profit at projected target"))
    else
      let takeProfitTargets :=
        push takeProfitTargets
          (TakeProfit.mk (currentPrice * (97 # 100)) (3 # 10) 3
             "First take profit at 3% gain") in
      let takeProfitTargets :=
        push takeProfitTargets
          (TakeProfit.mk (currentPrice * (95 # 100)) (3 # 10) 5
             "Second take profit at 5% gain") in
      ret (push takeProfitTargets
             (TakeProfit.mk (currentPrice * (9 # 10)) (4 # 10) 10
                "Final take profit at 10% gain"))
  else ret takeProfitTargets.

(** Returns [undefined] ([None]) when the direction is neither "long"
    nor "short". *)
Definition determineStopLoss (ta : TA) (direction : string)
           (entries : list Entry.t) : M (option StopLoss.t) :=
  currentPrice <- currentPrice ta ;;
  if streq direction "long" then
    nearest <- nearestSupport ta ;;
    if truthy nearest then
      let supportPrice := numberOf nearest in
      let stopPrice := supportPrice * (98 # 100) in
      ret (Some (StopLoss.mk stopPrice
                   (((currentPrice - stopPrice) / currentPrice) * 100)
                   "Stop loss placed below nearest support level"))
    else
      let lowestEntry := Math_min (map Entry.price entries) in
      let stopPrice := lowestEntry * (95 # 100) in
      ret (Some (StopLoss.mk stopPrice
                   (((currentPrice - stopPrice) / currentPrice) * 100)
                   "Stop loss placed 5% below lowest entry point"))
  else if streq direction "short" then
    nearest <- nearestResistance ta ;;
    if truthy nearest then
      let resistancePrice := numberOf nearest in
      let stopPrice := resistancePrice * (102 # 100) in
      ret (Some (StopLoss.mk stopPrice
                   (((stopPrice - currentPrice) / currentPrice) * 100)
                   "Stop loss placed above nearest resistance level"))
    else
      let highestEntry := Math_max (map Entry.price entries) in
      let stopPrice := highestEntry * (105 # 100) in
      ret (Some (StopLoss.mk stopPrice
                   (((stopPrice - currentPrice) / currentPrice) * 100)
                   "Stop loss placed 5% above highest entry point"))
  else ret None.

Definition calculateLeverage (confidence : string)
           (volatility : option Volatility.t) : M Leverage.t :=
  let baseLeverage : Q :=
    if streq confidence "very high" then 5
    else if streq confidence "high" then 3
    else if streq confidence "moderate" then 2
    else 1 in
  level <- read volatility "level" Volatility.level ;;
  let volatilityMultiplier : Q :=
    if streq level "low" then 15 # 10
    else if streq level "high" then 5 # 10
    else 1 in
  let finalLeverage := Math_round (baseLeverage * volatilityMultiplier) in
  let riskLevel :=
    if Qle_bool 4 finalLeverage then "high"
    else if Qle_bool finalLeverage 2 then "low"
    else "moderate" in
  ret (Leverage.mk finalLeverage riskLevel
         ("Leverage based on " ++ confidence ++ " confidence and " ++
          level ++ " volatility")).

(** [a && b] where evaluating [b] may throw. *)
Definition andM (a : bool) (b : M bool) : M bool :=
  if a then b else ret false.

Definition detected (o : option Pattern.t) : M bool :=
  read o "detected" Pattern.detected.

Definition generateReasoning (ta : TA) (sa : SA) (va : VA)
           (direction : string) : M (list string) :=
  let reasons := [] in
  (* technical analysis reasons *)
  reasons <-
    (if streq direction "long" then
       trendDir <- trend_direction ta ;;
       reasons <-
         (if streq trendDir "bullish" then
            strength <- trend_strength ta ;;
            ret (push reasons ("Market is in a " ++ strength ++ " bullish trend"))
          else ret reasons) ;;
       ma <- maTrend ta ;;
       reasons <-
         (if includes ma "bullish" then
            o <- movingAverages ta ;;
            a20 <- read o "aboveSma20" MovingAverages.aboveSma20 ;;
            a50 <- read o "aboveSma50" MovingAverages.aboveSma50 ;;
            a200 <- read o "aboveSma200" MovingAverages.aboveSma200 ;;
            ret (push reasons
                   ("Price is trading above key moving averages (" ++
                    (if a20 then "above SMA20" else "") ++ " " ++
                    (if a50 then "above SMA50" else "") ++ " " ++
                    (if a200 then "above SMA200" else "") ++ ")"))
          else ret reasons) ;;
       mom <- overallMomentum ta ;;
       let reasons :=
         pushIf (includes mom "bullish") reasons
           ("Momentum indicators are showing " ++ mom ++ " signals") in
       osc <- consensus ta ;;
       let reasons :=
         pushIf (streq osc "bullish") reasons
           "Oscillators are in bullish territory" in
       pats <- patterns ta ;;
       db <- read pats "doubleBottom" PricePatterns.doubleBottom ;;
       dbDetected <- detected db ;;
       let reasons :=
         pushIf dbDetected reasons
           "Double bottom pattern detected, indicating potential reversal" in
       ihs <- read pats "inverseHeadAndShoulders"
                PricePatterns.inverseHeadAndShoulders ;;
       ihsDetected <- detected ihs ;;
       let reasons :=
         pushIf ihsDetected reasons
           "Inverse head and shoulders pattern detected, indicating potential reversal" in
       str <- structure ta ;;
       ret (pushIf (streq str "uptrend") reasons
              "Market structure shows higher highs and higher lows, confirming uptrend")
     else if streq direction "short" then
       trendDir <- trend_direction ta ;;
       reasons <-
         (if streq trendDir "bearish" then
            strength <- trend_strength ta ;;
            ret (push reasons ("Market is in a " ++ strength ++ " bearish trend"))
          else ret reasons) ;;
       ma <- maTrend ta ;;
       reasons <-
         (if includes ma "bearish" then
            o <- movingAverages ta ;;
            a20 <- read o "aboveSma20" MovingAverages.aboveSma20 ;;
            a50 <- read o "aboveSma50" MovingAverages.aboveSma50 ;;
            a200 <- read o "aboveSma200" MovingAverages.aboveSma200 ;;
            ret (push reasons
                   ("Price is trading below key moving averages (" ++
                    (if negb a20 then "below SMA20" else "") ++ " " ++
                    (if negb a50 then "below SMA50" else "") ++ " " ++
                    (if negb a200 then "below SMA200" else "") ++ ")"))
          else ret reasons) ;;
       mom <- overallMomentum ta ;;
       let reasons :=
         pushIf (includes mom "bearish") reasons
           ("Momentum indicators are showing " ++ mom ++ " signals") in
       osc <- consensus ta ;;
       let reasons :=
         pushIf (streq osc "bearish") reasons
           "Oscillators are in bearish territory" in
       pats <- patterns ta ;;
       dt <- read pats "doubleTop" PricePatterns.doubleTop ;;
       dtDetected <- detected dt ;;
       let reasons :=
         pushIf dtDetected reasons
           "Double top pattern detected, indicating potential reversal" in
       hs <- read pats "headAndShoulders" PricePatterns.headAndShoulders ;;
       hsDetected <- detected hs ;;
       let reasons :=
         pushIf hsDetected reasons
           "Head and shoulders pattern detected, indicating potential reversal" in
       str <- structure ta ;;
       ret (pushIf (streq str "downtrend") reasons
              "Market structure shows lower highs and lower lows, confirming downtrend")
     else ret reasons) ;;
  (* sentiment analysis reasons *)
  ov <- overall_classification sa ;;
  let reasons :=
    pushIf (includes ov (forLong direction "bullish" "bearish")) reasons
      ("Overall market sentiment is " ++ ov) in
  soc <- social_sentiment sa ;;
  reasons <-
    (if includes soc (forLong direction "bullish" "bearish") then
       o <- social sa ;;
       vol <- read o "volume" Social.volume ;;
       ret (push reasons
              ("Social media sentiment is " ++ soc ++ " with " ++ vol ++ " volume"))
     else ret reasons) ;;
  nws <- news_sentiment sa ;;
  let reasons :=
    pushIf (includes nws (forLong direction "bullish" "bearish")) reasons
      ("News sentiment is " ++ nws) in
  isFear <- andM (streq direction "long")
              (fg <- fearGreed_classification sa ;; ret (streq fg "extreme fear")) ;;
  reasons <-
    (if isFear then
       ret (push reasons
              "Market is in extreme fear, potential contrarian buy signal")
     else
       isGreed <- andM (streq direction "short")
                    (fg <- fearGreed_classification sa ;;
                     ret (streq fg "extreme greed")) ;;
       ret (pushIf isGreed reasons
              "Market is in extreme greed, potential contrarian sell signal")) ;;
  (* volume analysis reasons *)
  vt <- volumeTrends_classification va ;;
  let reasons :=
    pushIf (streq vt (forLong direction "increasing" "decreasing")) reasons
      ("Volume is " ++ vt ++ ", supporting the " ++ direction ++ " position") in
  pr <- pressureClassification va ;;
  reasons <-
    (if streq pr (forLong direction "buying" "selling") then
       o <- buySellRatio va ;;
       ratio <- read o "ratio" BuySellRatio.ratio ;;
       ret (push reasons
              (forLong direction "Buying" "Selling" ++
               " pressure is dominant with a " ++ toFixed2 ratio ++
               " buy/sell ratio"))
     else ret reasons) ;;
  isSupport <- andM (streq direction "long")
                 (wall <- volumeWallClassification va ;;
                  ret (streq wall "strong support")) ;;
  reasons <-
    (if isSupport then
       ret (push reasons "Strong volume support detected below current price")
     else
       isResistance <- andM (streq direction "short")
                         (wall <- volumeWallClassification va ;;
                          ret (streq wall "strong resistance")) ;;
       ret (pushIf isResistance reasons
              "Strong volume resistance detected above current price")) ;;
  (* risk warnings *)
  if streq direction "long" then
    nearest <- nearestSupport ta ;;
    ret (push reasons
           ("Key risk: Stop loss placed at " ++
            (if truthy nearest then "support level" else "5% below entry")))
  else
    nearest <- nearestResistance ta ;;
    ret (push reasons
           ("Key risk: Stop loss placed at " ++
            (if truthy nearest then "resistance level" else "5% above entry"))).

Definition summarizeTechnicalAnalysis (ta : TA) : M TechnicalSummary.t :=
  direction <- trend_direction ta ;;
  strength <- trend_strength ta ;;
  trend <- maTrend ta ;;
  ma <- movingAverages ta ;;
  sma <- read ma "sma" MovingAverages.sma ;;
  sma20 <- read sma "sma20" Sma.sma20 ;;
  sma50 <- read sma "sma50" Sma.sma50 ;;
  sma200 <- read sma "sma200" Sma.sma200 ;;
  overall <- overallMomentum ta ;;
  mo <- momentum ta ;;
  rsiObj <- read mo "rsi" Momentum.rsi ;;
  rsi <- read rsiObj "value" Rsi.value ;;
  macd <- read mo "macd" Momentum.macd ;;
  line <- read macd "macdLine" Macd.macdLine ;;
  signal <- read macd "signalLine" Macd.signalLine ;;
  histogram <- read macd "histogram" Macd.histogram ;;
  nearestS <- nearestSupport ta ;;
  nearestR <- nearestResistance ta ;;
  vol <- volatility ta ;;
  level <- read vol "level" Volatility.level ;;
  daily <- read vol "daily" Volatility.daily ;;
  ret (TechnicalSummary.mk direction strength trend sma20 sma50 sma200
         overall rsi line signal histogram nearestS nearestR level daily).

Definition summarizeSentimentAnalysis (sa : SA) : M SentimentSummary.t :=
  classification <- overall_classification sa ;;
  ov <- overallSentiment sa ;;
  score <- read ov "score" OverallSentiment.score ;;
  sentiment <- social_sentiment sa ;;
  so <- social sa ;;
  volume <- read so "volume" Social.volume ;;
  newsSentiment <- news_sentiment sa ;;
  nw <- news sa ;;
  headlines <- read nw "headlines" News.headlines ;;
  fg <- fearGreedIndex sa ;;
  value <- read fg "value" FearGreedIndex.value ;;
  fgClass <- fearGreed_classification sa ;;
  ret (SentimentSummary.mk classification score sentiment volume
         newsSentiment headlines value fgClass).

Definition summarizeVolumeAnalysis (va : VA) : M VolumeSummary.t :=
  classification <- volumeTrends_classification va ;;
  vt <- volumeTrends va ;;
  volumes <- read vt "volumes" VolumeTrends.volumes ;;
  last24h <- read volumes "last24h" Volumes.last24h ;;
  bs <- buySellRatio va ;;
  ratio <- read bs "ratio" BuySellRatio.ratio ;;
  pressure <- pressureClassification va ;;
  wall <- volumeWallClassification va ;;
  vp <- volumeAtPrice va ;;
  bidAskRatio <- read vp "bidAskRatio" VolumeAtPrice.bidAskRatio ;;
  ret (VolumeSummary.mk classification last24h ratio pressure wall bidAskRatio).

(** The [try] block of [generateTradeRecommendation]; [now] is the value
    of [Date.now()]. *)
Definition tryBlock (now : Z) (symbol : string) (ta : TA) (sa : SA) (va : VA)
  : M Recommendation.t :=
  direction <- determineTradeDirection ta sa va ;;
  if streq direction "neutral" then
    ret (Recommendation.Neutral
           (Recommendation.mkNeutral symbol "neutral" "low"
              "Conflicting signals or lack of clear direction in the market"
              now))
  else
    confidence <- calculateConfidence ta sa va direction ;;
    entries <- determineEntryPoints ta direction ;;
    takeProfitTargets <- determineTakeProfitTargets ta direction ;;
    stopLoss <- determineStopLoss ta direction entries ;;
    vol <- volatility ta ;;
    leverage <- calculateLeverage confidence vol ;;
    reasoning <- generateReasoning ta sa va direction ;;
    technicalSummary <- summarizeTechnicalAnalysis ta ;;
    sentimentSummary <- summarizeSentimentAnalysis sa ;;
    volumeSummary <- summarizeVolumeAnalysis va ;;
    ret (Recommendation.Plan
           (Recommendation.mkPlan symbol direction confidence entries
              takeProfitTargets stopLoss leverage reasoning now
              technicalSummary sentimentSummary volumeSummary)).

(** The [catch] block. *)
Definition catchBlock (now : Z) (symbol : string) (error : Error)
  : M Recommendation.t :=
  ret (Recommendation.Neutral
         (Recommendation.mkNeutral symbol "neutral" "low"
            ("Error generating recommendation: " ++ message error) now)).

Definition generateTradeRecommendation (now : Z) (symbol : string)
           (ta : TA) (sa : SA) (va : VA) : M Recommendation.t :=
  try_catch (tryBlock now symbol ta sa va) (catchBlock now symbol).

End Trade.

(* ------------------------------------------------------------------ *)
(** ** Values that are a number, [null] or [undefined] *)

Module JsValue.
Import Js.

Inductive t : Type :=
| Num (q : Q)
| Null
| Undefined.

(** [ToNumber]: [null] is 0, [undefined] is [NaN] ([None]). *)
Definition toNumber (v : t) : option Q :=
  match v with
  | Num q => Some q
  | Null => Some 0
  | Undefined => None
  end.

(** [a < b] and [a > b]: false as soon as an operand is [NaN]. *)
Definition vlt (a b : t) : bool :=
  match toNumber a, toNumber b with
  | Some x, Some y => ltb x y
  | _, _ => false
  end.

Definition vgt (a b : t) : bool := vlt b a.

(** [arr[arr.length - 1]] on an array of numbers and [null]s:
    [undefined] when the array is empty. *)
Definition lastElement (arr : list (option Q)) : t :=
  match List.last (map Some arr) None with
  | None => Undefined
  | Some None => Null
  | Some (Some q) => Num q
  end.

(** [arr.slice(-n)]: the last [n] elements, all of them when there are
    fewer; [slice(-0)] is [slice(0)], the whole array. *)
Definition sliceLast {A} (n : nat) (l : list A) : list A :=
  if (n =? 0)%nat then l else skipn (List.length l - n) l.

(** The number a [null] counts as in arithmetic. *)
Definition nullAsZero (v : option Q) : Q :=
  match v with Some x => x | None => 0 end.

End JsValue.

(* ------------------------------------------------------------------ *)
(** ** Binance module: MACD, local extrema, support and resistance,
    indicators *)

(** The last values of the indicator arrays, as [calculateIndicators]
    stores them: a number, [null], or [undefined] for an empty array. *)
Module SmaLast.
Record t : Type := mk { sma20 : JsValue.t; sma50 : JsValue.t; sma200 : JsValue.t }.
End SmaLast.

Module MacdLast.
Record t : Type := mk {
  macdLine : JsValue.t; signalLine : JsValue.t; histogram : JsValue.t
}.
End MacdLast.

Module IndicatorSet.
Record t : Type := mk {
  sma : SmaLast.t;
  rsi : JsValue.t;
  macd : MacdLast.t;
  supportResistance : LevelLists.t
}.
End IndicatorSet.

Module Binance.
Import Js JsValue Indicators Levels Patterns.

Module MACD.
Record t : Type := mk {
  macdLine : list IndicatorValue;
  signalLine : list IndicatorValue;
  histogram : list IndicatorValue
}.
End MACD.

(** [arr.filter(value => value !== null)] *)
Fixpoint nonNull (arr : list IndicatorValue) : list Q :=
  match arr with
  | [] => []
  | Some x :: arr' => x :: nonNull arr'
  | None :: arr' => nonNull arr'
  end.

(** [calculateMACD(prices, fastPeriod = 12, slowPeriod = 26,
    signalPeriod = 9)].  In the first loop both indices are in range, and
    a [null] of the fast average counts as 0 in the subtraction;
    [Array(macdLine.length - signalLine.length)] throws when the signal
    line is the longer one. *)
Definition calculateMACD (prices : list Q) (fastPeriod slowPeriod signalPeriod : nat)
  : M MACD.t :=
  fastEMA <- calculateEMA prices fastPeriod ;;
  slowEMA <- calculateEMA prices slowPeriod ;;
  let macdLine :=
    map (fun i =>
           if (i <? slowPeriod - 1)%nat then None
           else Some (nullAsZero (nth i fastEMA None)
                      - nullAsZero (nth i slowEMA None)))
        (seq 0 (List.length prices)) in
  let validMacdValues := nonNull macdLine in
  signalLine <- calculateEMA validMacdValues signalPeriod ;;
  if (List.length macdLine <? List.length signalLine)%nat then Throw RangeError
  else
    let paddedSignalLine :=
      (repeat None (List.length macdLine - List.length signalLine) ++ signalLine)%list in
    let histogram :=
      map (fun i =>
             match nth i macdLine None, nth i paddedSignalLine None with
             | Some m, Some s => Some (m - s)
             | _, _ => None
             end)
          (seq 0 (List.length macdLine)) in
    Ok (MACD.mk macdLine paddedSignalLine histogram).

(** [findLocalExtrema(data, findMaxima, windowSize = 5)]: the loop runs
    over [i = windowSize .. data.length - windowSize - 1]. *)
Definition findLocalExtrema (data : list Q) (findMaxima : bool) (windowSize : nat)
  : list Level :=
  flat_map
    (fun i =>
       let window := slice (i - windowSize) (i + windowSize + 1) data in
       let centerValue := nth i data 0 in
       if findMaxima then
         if eqb centerValue (Math_max window) then [mkLevel centerValue i] else []
       else
         if eqb centerValue (Math_min window) then [mkLevel centerValue i] else [])
    (seq windowSize (List.length data - windowSize - windowSize)).

(** [identifySupportResistance(klines)] *)
Definition identifySupportResistance (klines : list Candle) : LevelLists.t :=
  let highs := map high klines in
  let lows := map low klines in
  let resistanceLevels := findLocalExtrema highs true 5 in
  let supportLevels := findLocalExtrema lows false 5 in
  let clusteredResistance := clusterLevels resistanceLevels defaultThreshold in
  let clusteredSupport := clusterLevels supportLevels defaultThreshold in
  LevelLists.mk (slice 0 5 clusteredSupport) (slice 0 5 clusteredResistance).

(** [calculateIndicators(data)], as a function of [data.klines['1d']],
    for the fields [sma], [rsi], [macd] and [supportResistance] of its
    result.  (The hourly closes are extracted but not used.  The fields
    [bollingerBands] and [volatility] go through [Math.sqrt] and are not
    part of the record; computing them does not throw.) *)
Definition calculateIndicators (dailyKlines : list Candle) : M IndicatorSet.t :=
  let dailyCloses := map close dailyKlines in
  let sma20 := calculateMovingAverages dailyCloses 20 in
  let sma50 := calculateMovingAverages dailyCloses 50 in
  let sma200 := calculateMovingAverages dailyCloses 200 in
  let rsi := calculateRSI dailyCloses 14 in
  macd <- calculateMACD dailyCloses 12 26 9 ;;
  let supportResistance := identifySupportResistance dailyKlines in
  ret (IndicatorSet.mk
         (SmaLast.mk (lastElement sma20) (lastElement sma50) (lastElement sma200))
         (lastElement rsi)
         (MacdLast.mk (lastElement (MACD.macdLine macd))
                      (lastElement (MACD.signalLine macd))
                      (lastElement (MACD.histogram macd)))
         supportResistance).

End Binance.

(* ------------------------------------------------------------------ *)
(** ** utils/dataProcessing.js: normalisation and arbitrage *)

Module DataProcessing.
Import Js Patterns.
Local Open Scope string_scope.

(** The data of one exchange, as far as [normalizeData] reads it:
    [data.symbol] and [data.klines['1d']]. *)
Module ExchangeData.
Record t : Type := mk { symbol : string; daily : list Candle }.
End ExchangeData.

Module Prices.
Record t : Type := mk { binance : Q; bibit : Q; kucoin : Q; average : Q }.
End Prices.

Module PerExchange.
Record t : Type := mk { binance : Q; bibit : Q; kucoin : Q }.
End PerExchange.

Module NormalizedVolumes.
Record t : Type := mk {
  binance : Q; bibit : Q; kucoin : Q; total : Q;
  distribution : PerExchange.t
}.
End NormalizedVolumes.

Module Normalized.
Record t : Type := mk {
  symbol : string;
  prices : Prices.t;
  deviations : PerExchange.t;
  volumes : NormalizedVolumes.t;
  timestamp : Z
}.
End Normalized.

(** [klines[klines.length - 1].close]: the element is [undefined] for an
    empty array, and reading [close] of it throws. *)
Definition lastClose (klines : list Candle) : M Q :=
  read (nth_error klines (List.length klines - 1)) "close" close.

(** [klines.reduce((sum, k) => sum + k.volume, 0)] *)
Definition totalVolumeOf (klines : list Candle) : Q :=
  fold_left (fun sum k => sum + volume k) klines 0.

(** [normalizeData(binanceData, bibitData, kucoinData)]; [now] is the
    value of [Date.now()]. *)
Definition normalizeData (now : Z)
           (binanceData bibitData kucoinData : ExchangeData.t)
  : M Normalized.t :=
  binancePrice <- lastClose (ExchangeData.daily binanceData) ;;
  bibitPrice <- lastClose (ExchangeData.daily bibitData) ;;
  kucoinPrice <- lastClose (ExchangeData.daily kucoinData) ;;
  let averagePrice := (binancePrice + bibitPrice + kucoinPrice) / 3 in
  let binanceDeviation := (binancePrice - averagePrice) / averagePrice * 100 in
  let bibitDeviation := (bibitPrice - averagePrice) / averagePrice * 100 in
  let kucoinDeviation := (kucoinPrice - averagePrice) / averagePrice * 100 in
  let binanceVolume := totalVolumeOf (ExchangeData.daily binanceData) in
  let bibitVolume := totalVolumeOf (ExchangeData.daily bibitData) in
  let kucoinVolume := totalVolumeOf (ExchangeData.daily kucoinData) in
  let totalVolume := binanceVolume + bibitVolume + kucoinVolume in
  ret (Normalized.mk
         (ExchangeData.symbol binanceData)
         (Prices.mk binancePrice bibitPrice kucoinPrice averagePrice)
         (PerExchange.mk binanceDeviation bibitDeviation kucoinDeviation)
         (NormalizedVolumes.mk binanceVolume bibitVolume kucoinVolume totalVolume
            (PerExchange.mk ((binanceVolume / totalVolume) * 100)
                            ((bibitVolume / totalVolume) * 100)
                            ((kucoinVolume / totalVolume) * 100)))
         now).

Module Opportunity.
Record t : Type := mk {
  from : string; to : string; priceDifference : Q; potentialProfit : Q
}.
End Opportunity.

Module Arbitrage.
Record t : Type := mk { found : bool; opportunities : list Opportunity.t }.
End Arbitrage.

(** One of the three blocks of [detectArbitrageOpportunities]:
    [difference] is the relative difference in percent from exchange [a]
    to exchange [b]. *)
Definition pushOpportunity (opportunities : list Opportunity.t)
           (difference : Q) (a b : string) : list Opportunity.t :=
  let threshold := 5 # 10 in
  if gtb (Math_abs difference) threshold then
    (opportunities ++
       [Opportunity.mk (if gtb difference 0 then a else b)
                       (if gtb difference 0 then b else a)
                       (Math_abs difference)
                       (Math_abs difference - (2 # 10))])%list
  else opportunities.

(** [opportunities.sort((a, b) => b.potentialProfit - a.potentialProfit)]:
    a stable sort, descending by [potentialProfit]. *)
Fixpoint insertByProfit (a : Opportunity.t) (l : list Opportunity.t)
  : list Opportunity.t :=
  match l with
  | [] => [a]
  | b :: l' =>
      if Qle_bool (Opportunity.potentialProfit b) (Opportunity.potentialProfit a)
      then a :: l
      else b :: insertByProfit a l'
  end.

Fixpoint sortByProfit (l : list Opportunity.t) : list Opportunity.t :=
  match l with
  | [] => []
  | a :: l' => insertByProfit a (sortByProfit l')
  end.

(** [detectArbitrageOpportunities(normalizedData)] *)
Definition detectArbitrageOpportunities (normalizedData : Normalized.t)
  : Arbitrage.t :=
  let prices := Normalized.prices normalizedData in
  let opportunities := [] in
  let binanceToBibit :=
    ((Prices.bibit prices - Prices.binance prices) / Prices.binance prices) * 100 in
  let opportunities :=
    pushOpportunity opportunities binanceToBibit "binance" "bibit" in
  let binanceToKucoin :=
    ((Prices.kucoin prices - Prices.binance prices) / Prices.binance prices) * 100 in
  let opportunities :=
    pushOpportunity opportunities binanceToKucoin "binance" "kucoin" in
  let bibitToKucoin :=
    ((Prices.kucoin prices - Prices.bibit prices) / Prices.bibit prices) * 100 in
  let opportunities :=
    pushOpportunity opportunities bibitToKucoin "bibit" "kucoin" in
  Arbitrage.mk (0 <? List.length opportunities)%nat (sortByProfit opportunities).

End DataProcessing.

(* ------------------------------------------------------------------ *)
(** ** Technical analysis of the market data *)

Module Technical.
Import Js JsValue Patterns.
Local Open Scope string_scope.

(** The market data of an exchange, as far as the analyses below read it:
    [data.klines['1d']] and [data.indicators]. *)
Module MarketData.
Record t : Type := mk { daily : list Candle; indicators : IndicatorSet.t }.
End MarketData.

(** [data.klines['1d'][data.klines['1d'].length - 1].close] *)
Definition currentPriceOf (data : MarketData.t) : M Q :=
  read (nth_error (MarketData.daily data) (List.length (MarketData.daily data) - 1))
       "close" close.

(** [analyzeSupportsAndResistances(data)], for the fields [levels],
    [currentPrice], [nearestSupport] and [nearestResistance] of its
    result (the two distances are derived from these and are not part of
    the record). *)
Definition analyzeSupportsAndResistances (data : MarketData.t)
  : M SupportResistance.t :=
  let levels := IndicatorSet.supportResistance (MarketData.indicators data) in
  currentPrice <- currentPriceOf data ;;
  let supports := filter (fun level => ltb level currentPrice) (LevelLists.support levels) in
  let resistances :=
    filter (fun level => gtb level currentPrice) (LevelLists.resistance levels) in
  let nearestSupport :=
    if (0 <? List.length supports)%nat then Some (Math_max supports) else None in
  let nearestResistance :=
    if (0 <? List.length resistances)%nat then Some (Math_min resistances) else None in
  ret (SupportResistance.mk (Some levels) currentPrice nearestSupport nearestResistance).

Module MomentumAnalysis.
Record t : Type := mk {
  rsiValue : JsValue.t; rsiCondition : string;
  macd : MacdLast.t; macdCondition : string;
  overallMomentum : string
}.
End MomentumAnalysis.

(** [analyzeMomentum(data)] *)
Definition analyzeMomentum (data : MarketData.t) : MomentumAnalysis.t :=
  let rsi := IndicatorSet.rsi (MarketData.indicators data) in
  let macd := IndicatorSet.macd (MarketData.indicators data) in
  let rsiCondition :=
    if vgt rsi (Num 70) then "overbought"
    else if vlt rsi (Num 30) then "oversold"
    else "neutral" in
  let macdCondition :=
    if vgt (MacdLast.macdLine macd) (MacdLast.signalLine macd) &&
       vgt (MacdLast.histogram macd) (Num 0)
    then "bullish"
    else if vlt (MacdLast.macdLine macd) (MacdLast.signalLine macd) &&
            vlt (MacdLast.histogram macd) (Num 0)
    then "bearish"
    else "neutral" in
  let overallMomentum :=
    if streq rsiCondition "overbought" && streq macdCondition "bearish"
    then "strongly bearish"
    else if streq rsiCondition "oversold" && streq macdCondition "bullish"
    then "strongly bullish"
    else if streq rsiCondition "overbought" || streq macdCondition "bearish"
    then "bearish"
    else if streq rsiCondition "oversold" || streq macdCondition "bullish"
    then "bullish"
    else "neutral" in
  MomentumAnalysis.mk rsi rsiCondition macd macdCondition overallMomentum.

Module MovingAverageAnalysis.
Record t : Type := mk {
  currentPrice : Q;
  sma : SmaLast.t;
  aboveSma20 : bool; aboveSma50 : bool; aboveSma200 : bool;
  goldenCross : bool; deathCross : bool;
  maTrend : string
}.
End MovingAverageAnalysis.

(** [analyzeMovingAverages(data)] *)
Definition analyzeMovingAverages (data : MarketData.t)
  : M MovingAverageAnalysis.t :=
  let sma := IndicatorSet.sma (MarketData.indicators data) in
  currentPrice <- currentPriceOf data ;;
  let aboveSma20 := vgt (Num currentPrice) (SmaLast.sma20 sma) in
  let aboveSma50 := vgt (Num currentPrice) (SmaLast.sma50 sma) in
  let aboveSma200 := vgt (Num currentPrice) (SmaLast.sma200 sma) in
  let goldenCross := vgt (SmaLast.sma50 sma) (SmaLast.sma200 sma) in
  let deathCross := vlt (SmaLast.sma50 sma) (SmaLast.sma200 sma) in
  let maTrend :=
    if aboveSma20 && aboveSma50 && aboveSma200 then "strongly bullish"
    else if negb aboveSma20 && negb aboveSma50 && negb aboveSma200
    then "strongly bearish"
    else if aboveSma20 && aboveSma50 then "bullish"
    else if negb aboveSma20 && negb aboveSma50 then "bearish"
    else "neutral" in
  ret (MovingAverageAnalysis.mk currentPrice sma aboveSma20 aboveSma50 aboveSma200
         goldenCross deathCross maTrend).

(** The loop shared by [checkHigherHighsLows] and [checkLowerHighsLows],
    for one of the two lists: the values at the indices
    [i = 1 .. length - 2] that satisfy [beyond] against both
    neighbours. *)
Definition localTurns (beyond : Q -> Q -> bool) (values : list Q) : list Q :=
  flat_map
    (fun i =>
       if beyond (nth i values 0) (nth (i - 1) values 0) &&
          beyond (nth i values 0) (nth (i + 1) values 0)
       then [nth i values 0] else [])
    (seq 1 (List.length values - 2)).

(** [checkHigherHighsLows(klines)]: the pair [higherHighs], [higherLows]. *)
Definition checkHigherHighsLows (klines : list Candle) : bool * bool :=
  let recentKlines := sliceLast 10 klines in
  let localHighs := localTurns gtb (map high recentKlines) in
  let localLows := localTurns ltb (map low recentKlines) in
  if (List.length localHighs <? 2)%nat || (List.length localLows <? 2)%nat
  then (false, false)
  else (gtb (List.last localHighs 0) (nth 0 localHighs 0),
        gtb (List.last localLows 0) (nth 0 localLows 0)).

(** [checkLowerHighsLows(klines)]: the pair [lowerHighs], [lowerLows]. *)
Definition checkLowerHighsLows (klines : list Candle) : bool * bool :=
  let recentKlines := sliceLast 10 klines in
  let localHighs := localTurns gtb (map high recentKlines) in
  let localLows := localTurns ltb (map low recentKlines) in
  if (List.length localHighs <? 2)%nat || (List.length localLows <? 2)%nat
  then (false, false)
  else (ltb (List.last localHighs 0) (nth 0 localHighs 0),
        ltb (List.last localLows 0) (nth 0 localLows 0)).

(** [analyzeMarketStructure(data)]: the field [structure]. *)
Definition analyzeMarketStructure (data : MarketData.t) : MarketStructure.t :=
  let dailyKlines := MarketData.daily data in
  let higherHighsLows := checkHigherHighsLows dailyKlines in
  let lowerHighsLows := checkLowerHighsLows dailyKlines in
  MarketStructure.mk
    (if fst higherHighsLows && snd higherHighsLows then "uptrend"
     else if fst lowerHighsLows && snd lowerHighsLows then "downtrend"
     else "ranging").

Module Regression.
Record t : Type := mk { slope : Q; intercept : Q; rSquared : Q }.
End Regression.

(** [calculateLinearRegression(values)]; [Math.pow(d, 2)] is [d * d]. *)
Definition calculateLinearRegression (values : list Q) : Regression.t :=
  let n := List.length values in
  let x := map num (seq 0 n) in
  let meanX := sum x / num n in
  let meanY := sum values / num n in
  let numerator :=
    fold_left (fun numerator i =>
                 numerator + (nth i x 0 - meanX) * (nth i values 0 - meanY))
              (seq 0 n) 0 in
  let denominator :=
    fold_left (fun denominator i =>
                 denominator + (nth i x 0 - meanX) * (nth i x 0 - meanX))
              (seq 0 n) 0 in
  let slope := numerator / denominator in
  let intercept := meanY - slope * meanX in
  let totalSumOfSquares :=
    fold_left (fun total i =>
                 total + (nth i values 0 - meanY) * (nth i values 0 - meanY))
              (seq 0 n) 0 in
  let residualSumOfSquares :=
    fold_left (fun residual i =>
                 residual
                 + (nth i values 0 - (intercept + slope * nth i x 0))
                   * (nth i values 0 - (intercept + slope * nth i x 0)))
              (seq 0 n) 0 in
  let rSquared := 1 - (residualSumOfSquares / totalSumOfSquares) in
  Regression.mk slope intercept rSquared.

(** [calculateSimplifiedADX(klines)]: the movements are taken for
    [i = 1 .. length - 1]. *)
Definition calculateSimplifiedADX (klines : list Candle) : Q :=
  let closes := map close klines in
  let movements :=
    map (fun i =>
           Math_abs (nth i closes 0 - nth (i - 1) closes 0)
           / nth (i - 1) closes 0 * 100)
        (seq 1 (List.length klines - 1)) in
  sum movements / num (List.length movements) * 10.

Module TrendAnalysis.
Record t : Type := mk {
  direction : string; strength : string; adx : Q; regression : Regression.t
}.
End TrendAnalysis.

(** [analyzeTrendStrength(data)]; 0.001 is taken as an exact decimal.
    The strength comes from a sequence of [if]s without [else]. *)
Definition analyzeTrendStrength (data : MarketData.t) : TrendAnalysis.t :=
  let dailyKlines := MarketData.daily data in
  let closes := map close dailyKlines in
  let recentCloses := sliceLast 30 closes in
  let regression := calculateLinearRegression recentCloses in
  let adx := calculateSimplifiedADX (sliceLast 30 dailyKlines) in
  let trendDirection :=
    if gtb (Regression.slope regression) (1 # 1000) then "bullish"
    else if ltb (Regression.slope regression) (- (1 # 1000)) then "bearish"
    else "neutral" in
  let trendStrength := "weak" in
  let trendStrength := if gtb adx 25 then "moderate" else trendStrength in
  let trendStrength := if gtb adx 50 then "strong" else trendStrength in
  let trendStrength := if gtb adx 75 then "very strong" else trendStrength in
  TrendAnalysis.mk trendDirection trendStrength adx regression.

Module Spikes.
Record t : Type := mk { recent : bool; count : nat; percentage : Q }.
End Spikes.

(** [detectVolumeSpikes(klines)] *)
Definition detectVolumeSpikes (klines : list Candle) : Spikes.t :=
  let volumes := map volume klines in
  let avgVolume := sum volumes / num (List.length volumes) in
  let recentSpike :=
    existsb (fun vol => gtb vol (avgVolume * 2)) (sliceLast 3 volumes) in
  let spikeCount :=
    List.length (filter (fun vol => gtb vol (avgVolume * 2)) volumes) in
  Spikes.mk recentSpike spikeCount
            ((num spikeCount / num (List.length volumes)) * 100).

Module Stochastic.
Record t : Type := mk { k : JsValue.t; d : JsValue.t }.
End Stochastic.

(** [arr[arr.length - 1]] on an array of numbers. *)
Definition lastNumber (arr : list Q) : JsValue.t :=
  match arr with
  | [] => Undefined
  | _ :: _ => Num (List.last arr 0)
  end.

(** The value pushed by the first loop of [calculateStochastic] at
    index [i] of the recent candles. *)
Definition percentK (recentKlines : list Candle) (kPeriod i : nat) : Q :=
  let currentClose := nth i (map close recentKlines) 0 in
  let periodKlines := slice (i + 1 - kPeriod) (i + 1) recentKlines in
  let lowestLow := Math_min (map low periodKlines) in
  let highestHigh := Math_max (map high periodKlines) in
  ((currentClose - lowestLow) / (highestHigh - lowestLow)) * 100.

(** [calculateStochastic(klines, kPeriod = 14, dPeriod = 3)], for
    periods of at least 1; the loops run over
    [i = kPeriod - 1 .. recentKlines.length - 1] and
    [i = dPeriod - 1 .. kValues.length - 1]. *)
Definition calculateStochastic (klines : list Candle) (kPeriod dPeriod : nat)
  : Stochastic.t :=
  if (List.length klines <? kPeriod)%nat then Stochastic.mk Null Null
  else
    let recentKlines := sliceLast (kPeriod + dPeriod) klines in
    let kValues :=
      map (percentK recentKlines kPeriod)
          (seq (kPeriod - 1) (List.length recentKlines - (kPeriod - 1))) in
    let dValues :=
      map (fun i =>
             let periodKValues := slice (i + 1 - dPeriod) (i + 1) kValues in
             sum periodKValues / num dPeriod)
          (seq (dPeriod - 1) (List.length kValues - (dPeriod - 1))) in
    Stochastic.mk (lastNumber kValues) (lastNumber dValues).

(** [calculateCCI(klines, period = 20)], for a period of at least 1;
    0.015 is taken as an exact decimal. *)
Definition calculateCCI (klines : list Candle) (period : nat) : JsValue.t :=
  if (List.length klines <? period)%nat then Null
  else
    let recentKlines := sliceLast period klines in
    let typicalPrices := map (fun k => (high k + low k + close k) / 3) recentKlines in
    let smaTypicalPrice := sum typicalPrices / num period in
    let meanDeviation :=
      fold_left (fun sum tp => sum + Math_abs (tp - smaTypicalPrice))
                typicalPrices 0 / num period in
    let currentTypicalPrice := List.last typicalPrices 0 in
    Num ((currentTypicalPrice - smaTypicalPrice) / ((15 # 1000) * meanDeviation)).

Module OscillatorAnalysis.
Record t : Type := mk {
  rsiValue : JsValue.t; rsiCondition : string;
  stochastic : Stochastic.t; stochasticCondition : string;
  cci : JsValue.t; cciCondition : string;
  consensus : string
}.
End OscillatorAnalysis.

(** [if (cond) count++] *)
Definition countIf (cond : bool) (count : nat) : nat :=
  if cond then S count else count.

(** [analyzeOscillators(data)] *)
Definition analyzeOscillators (data : MarketData.t) : OscillatorAnalysis.t :=
  let rsi := IndicatorSet.rsi (MarketData.indicators data) in
  let stochastic := calculateStochastic (MarketData.daily data) 14 3 in
  let cci := calculateCCI (MarketData.daily data) 20 in
  let stochasticCondition :=
    if vgt (Stochastic.k stochastic) (Num 80) && vgt (Stochastic.d stochastic) (Num 80)
    then "overbought"
    else if vlt (Stochastic.k stochastic) (Num 20) &&
            vlt (Stochastic.d stochastic) (Num 20)
    then "oversold"
    else "neutral" in
  let cciCondition :=
    if vgt cci (Num 100) then "overbought"
    else if vlt cci (Num (- (100))) then "oversold"
    else "neutral" in
  let bullishCount := 0%nat in
  let bearishCount := 0%nat in
  let bullishCount := countIf (vlt rsi (Num 30)) bullishCount in
  let bearishCount := countIf (vgt rsi (Num 70)) bearishCount in
  let bullishCount := countIf (streq stochasticCondition "oversold") bullishCount in
  let bearishCount := countIf (streq stochasticCondition "overbought") bearishCount in
  let bullishCount := countIf (streq cciCondition "oversold") bullishCount in
  let bearishCount := countIf (streq cciCondition "overbought") bearishCount in
  let oscillatorConsensus :=
    if (bearishCount <? bullishCount)%nat then "bullish"
    else if (bullishCount <? bearishCount)%nat then "bearish"
    else "neutral" in
  OscillatorAnalysis.mk
    rsi
    (if vgt rsi (Num 70) then "overbought"
     else if vlt rsi (Num 30) then "oversold" else "neutral")
    stochastic stochasticCondition cci cciCondition oscillatorConsensus.

Module Peak.
Record t : Type := mk { index : nat; value : Q }.
End Peak.

(** The first loop of [detectDoubleTop] and [detectDoubleBottom], over
    [i = 2 .. length - 3]: the values that are [beyond] their four
    neighbours. *)
Definition localPeaks (beyond : Q -> Q -> bool) (values : list Q) : list Peak.t :=
  flat_map
    (fun i =>
       let v := nth i values 0 in
       if beyond v (nth (i - 1) values 0) && beyond v (nth (i - 2) values 0) &&
          beyond v (nth (i + 1) values 0) && beyond v (nth (i + 2) values 0)
       then [Peak.mk i v] else [])
    (seq 2 (List.length values - 4)).

(** [Math.abs(a - b)] on indices. *)
Definition indexDistance (a b : nat) : nat := ((a - b) + (b - a))%nat.

(** The inner loop of the pair search, over the peaks after [first]:
    [move] is the drop (or rise) between the two peaks relative to the
    first one.  0.02 and 0.03 are taken as exact decimals. *)
Fixpoint scanSecond (move : Peak.t -> Peak.t -> Q) (first : Peak.t)
         (later : list Peak.t) : option (Peak.t * Peak.t * Q) :=
  match later with
  | [] => None
  | second :: rest =>
      let diff := Math_abs (Peak.value first - Peak.value second) / Peak.value first in
      if ltb diff (2 # 100) &&
         (5 <? indexDistance (Peak.index first) (Peak.index second))%nat
      then
        if gtb (move first second) (3 # 100)
        then Some (first, second, move first second)
        else scanSecond move first rest
      else scanSecond move first rest
  end.

(** The outer loop: the first pair found is returned. *)
Fixpoint scanFirst (move : Peak.t -> Peak.t -> Q) (peaks : list Peak.t)
  : option (Peak.t * Peak.t * Q) :=
  match peaks with
  | [] => None
  | first :: rest =>
      match scanSecond move first rest with
      | Some found => Some found
      | None => scanFirst move rest
      end
  end.

(** [detectDoubleTop(klines)]: the two peaks and the drop percentage
    when detected, [None] for [{ detected: false }]. *)
Definition detectDoubleTop (klines : list Candle) : option (Peak.t * Peak.t * Q) :=
  let closes := map close klines in
  let highs := map high klines in
  let localMaxima := localPeaks gtb highs in
  if (List.length localMaxima <? 2)%nat then None
  else
    scanFirst
      (fun first second =>
         let minBetween :=
           Math_min (slice (Peak.index first) (Peak.index second) closes) in
         (Peak.value first - minBetween) / Peak.value first)
      localMaxima.

(** [detectDoubleBottom(klines)] *)
Definition detectDoubleBottom (klines : list Candle) : option (Peak.t * Peak.t * Q) :=
  let closes := map close klines in
  let lows := map low klines in
  let localMinima := localPeaks ltb lows in
  if (List.length localMinima <? 2)%nat then None
  else
    scanFirst
      (fun first second =>
         let maxBetween :=
           Math_max (slice (Peak.index first) (Peak.index second) closes) in
         (maxBetween - Peak.value first) / Peak.value first)
      localMinima.

(** [detectHeadAndShoulders(klines)] and
    [detectInverseHeadAndShoulders(klines)]: the field [detected]. *)
Definition detectHeadAndShoulders (klines : list Candle) : bool := false.
Definition detectInverseHeadAndShoulders (klines : list Candle) : bool := false.

(** The field [detected] of a pattern result. *)
Definition detectedIn {A} (result : option A) : bool :=
  match result with Some _ => true | None => false end.

(** [analyzePricePatterns(data)], for the fields the recommendation
    reads. *)
Definition analyzePricePatterns (data : MarketData.t) : M PricePatterns.t :=
  let dailyKlines := sliceLast 30 (MarketData.daily data) in
  let doubleTop := detectDoubleTop dailyKlines in
  let doubleBottom := detectDoubleBottom dailyKlines in
  let headAndShoulders := detectHeadAndShoulders dailyKlines in
  let inverseHeadAndShoulders := detectInverseHeadAndShoulders dailyKlines in
  engulfingPatterns <- detectEngulfingPatterns dailyKlines ;;
  let patternSignal :=
    if detectedIn doubleBottom || inverseHeadAndShoulders || fst engulfingPatterns
    then "bullish"
    else if detectedIn doubleTop || headAndShoulders || snd engulfingPatterns
    then "bearish"
    else "neutral" in
  ret (PricePatterns.mk patternSignal
         (Some (Pattern.mk (detectedIn doubleTop)))
         (Some (Pattern.mk (detectedIn doubleBottom)))
         (Some (Pattern.mk headAndShoulders))
         (Some (Pattern.mk inverseHeadAndShoulders))).

End Technical.

(* ------------------------------------------------------------------ *)
(** ** Volume analysis *)

Module Volume.
Import Js JsValue Patterns.
Local Open Scope string_scope.

Module Order.
Record t : Type := mk { price : Q; quantity : Q }.
End Order.

(** The processed order book, as far as [analyzeVolumeAtPrice] reads it. *)
Module OrderBook.
Record t : Type := mk {
  bids : list Order.t; asks : list Order.t; bidSum : Q; askSum : Q
}.
End OrderBook.

(** [data.recentTrades], as far as [analyzeBuySellRatio] reads it. *)
Module RecentTrades.
Record t : Type := mk { buyVolume : Q; sellVolume : Q; buySellRatio : Q }.
End RecentTrades.

(** The data of an exchange, as far as the volume analyses read it:
    [data.klines['1h']], [data.klines['1d']], [data.recentTrades]
    (absent when falsy) and [data.orderBook]. *)
Module VolumeData.
Record t : Type := mk {
  hourly : list Candle;
  daily : list Candle;
  recentTrades : option RecentTrades.t;
  orderBook : OrderBook.t
}.
End VolumeData.

(** [klines.slice(-24).reduce((sum, k) => sum + k.volume, 0)] *)
Definition last24hVolume (hourlyKlines : list Candle) : Q :=
  fold_left (fun sum k => sum + volume k) (sliceLast 24 hourlyKlines) 0.

Module Distribution.
Record t : Type := mk {
  binanceVolume : Q; bibitVolume : Q; kucoinVolume : Q; totalVolume : Q;
  binancePercentage : Q; bibitPercentage : Q; kucoinPercentage : Q;
  dominantExchange : string;
  dominantPercentage : Q;
  concentrationClassification : string
}.
End Distribution.

(** [analyzeVolumeDistribution(binanceData, bibitData, kucoinData)] *)
Definition analyzeVolumeDistribution (binanceData bibitData kucoinData : VolumeData.t)
  : Distribution.t :=
  let binanceVolume := last24hVolume (VolumeData.hourly binanceData) in
  let bibitVolume := last24hVolume (VolumeData.hourly bibitData) in
  let kucoinVolume := last24hVolume (VolumeData.hourly kucoinData) in
  let totalVolume := binanceVolume + bibitVolume + kucoinVolume in
  let binancePercentage := (binanceVolume / totalVolume) * 100 in
  let bibitPercentage := (bibitVolume / totalVolume) * 100 in
  let kucoinPercentage := (kucoinVolume / totalVolume) * 100 in
  let dominantExchange := "binance" in
  let dominantPercentage := binancePercentage in
  let '(dominantExchange, dominantPercentage) :=
    if gtb bibitPercentage dominantPercentage
    then ("bibit", bibitPercentage)
    else (dominantExchange, dominantPercentage) in
  let '(dominantExchange, dominantPercentage) :=
    if gtb kucoinPercentage dominantPercentage
    then ("kucoin", kucoinPercentage)
    else (dominantExchange, dominantPercentage) in
  let volumeConcentration := dominantPercentage in
  let concentrationClassification :=
    if gtb volumeConcentration 70 then "high"
    else if ltb volumeConcentration 40 then "low"
    else "moderate" in
  Distribution.mk binanceVolume bibitVolume kucoinVolume totalVolume
    binancePercentage bibitPercentage kucoinPercentage
    dominantExchange dominantPercentage concentrationClassification.

(** The classification shared by the two branches of
    [analyzeBuySellRatio]; 1.2 and 0.8 are taken as exact decimals. *)
Definition pressureOf (ratio : Q) : string :=
  if gtb ratio (12 # 10) then "buying"
  else if ltb ratio (8 # 10) then "selling"
  else "neutral".

Module BuySell.
Record t : Type := mk {
  buyVolume : Q; sellVolume : Q; ratio : Q; pressureClassification : string;
  approximated : bool
}.
End BuySell.

(** The [for ... of] loop of the candle branch: a candle that closes
    above its open adds to the buy volume, any other to the sell volume. *)
Fixpoint splitVolume (klines : list Candle) (buyVolume sellVolume : Q) : Q * Q :=
  match klines with
  | [] => (buyVolume, sellVolume)
  | kline :: rest =>
      if gtb (close kline) (open kline)
      then splitVolume rest (buyVolume + volume kline) sellVolume
      else splitVolume rest buyVolume (sellVolume + volume kline)
  end.

(** [analyzeBuySellRatio(data)]; [approximated] records the presence of
    the [note] field.  [sellVolume || 1] is 1 when the sell volume is 0. *)
Definition analyzeBuySellRatio (data : VolumeData.t) : BuySell.t :=
  match VolumeData.recentTrades data with
  | Some recentTrades =>
      let ratio := RecentTrades.buySellRatio recentTrades in
      BuySell.mk (RecentTrades.buyVolume recentTrades)
                 (RecentTrades.sellVolume recentTrades)
                 ratio (pressureOf ratio) false
  | None =>
      let hourlyKlines := sliceLast 24 (VolumeData.hourly data) in
      let '(buyVolume, sellVolume) := splitVolume hourlyKlines 0 0 in
      let ratio := buyVolume / (if eqb sellVolume 0 then 1 else sellVolume) in
      BuySell.mk buyVolume sellVolume ratio (pressureOf ratio) true
  end.

Module VolumeLevel.
Record t : Type := mk { price : Q; volume : Q }.
End VolumeLevel.

(** One of the two [for ... of] loops of [analyzeVolumeAtPrice]. *)
Fixpoint volumeLevels (volumeThreshold : Q) (orders : list Order.t)
         (cumulativeVolume : Q) (levels : list VolumeLevel.t)
  : list VolumeLevel.t :=
  match orders with
  | [] => levels
  | order :: rest =>
      let cumulativeVolume := cumulativeVolume + Order.quantity order in
      if gtb cumulativeVolume volumeThreshold
      then volumeLevels volumeThreshold rest 0
             (levels ++ [VolumeLevel.mk (Order.price order) cumulativeVolume])
      else volumeLevels volumeThreshold rest cumulativeVolume levels
  end.

Module AtPrice.
Record t : Type := mk {
  bidVolume : Q; askVolume : Q; bidAskRatio : Q;
  supportLevels : list VolumeLevel.t;
  resistanceLevels : list VolumeLevel.t;
  volumeWallClassification : string
}.
End AtPrice.

(** [analyzeVolumeAtPrice(data)]; 0.1, 1.5 and 0.67 are taken as exact
    decimals.  The threshold of both loops is a tenth of the bid volume. *)
Definition analyzeVolumeAtPrice (data : VolumeData.t) : AtPrice.t :=
  let orderBook := VolumeData.orderBook data in
  let totalBidVolume := OrderBook.bidSum orderBook in
  let totalAskVolume := OrderBook.askSum orderBook in
  let bidAskRatio := totalBidVolume / totalAskVolume in
  let volumeThreshold := totalBidVolume * (1 # 10) in
  let supportLevels := volumeLevels volumeThreshold (OrderBook.bids orderBook) 0 [] in
  let resistanceLevels := volumeLevels volumeThreshold (OrderBook.asks orderBook) 0 [] in
  let volumeWallClassification :=
    if gtb bidAskRatio (15 # 10) then "strong support"
    else if ltb bidAskRatio (67 # 100) then "strong resistance"
    else "balanced" in
  AtPrice.mk totalBidVolume totalAskVolume bidAskRatio
    (slice 0 3 supportLevels) (slice 0 3 resistanceLevels)
    volumeWallClassification.

End Volume.

(* ------------------------------------------------------------------ *)
(** ** Indicators of the other exchanges *)

Module Exchanges.
Import Js Indicators Patterns.

(** [calculateMomentum(prices, period = 14)] of the Bibit module. *)
Definition calculateMomentum (prices : list Q) (period : nat)
  : list IndicatorValue :=
  map (fun i =>
         if (i <? period)%nat then None
         else Some (nth i prices 0 / nth (i - period) prices 0))
      (seq 0 (List.length prices)).

(** The first loop of [calculateATR] from its second candle on:
    [previous] is [klines[i - 1]]. *)
Fixpoint trueRangesAfter (previous : Candle) (klines : list Candle) : list Q :=
  match klines with
  | [] => []
  | k :: rest =>
      let highLow := high k - low k in
      let highPrevClose := Math_abs (high k - close previous) in
      let lowPrevClose := Math_abs (low k - close previous) in
      Math_max [highLow; highPrevClose; lowPrevClose] :: trueRangesAfter k rest
  end.

(** The true ranges: for the first candle, [high - low]. *)
Definition trueRangesOf (klines : list Candle) : list Q :=
  match klines with
  | [] => []
  | k :: rest => (high k - low k) :: trueRangesAfter k rest
  end.

(** [calculateATR(klines, period = 14)] of the KuCoin module. *)
Definition calculateATR (klines : list Candle) (period : nat)
  : list IndicatorValue :=
  let trueRanges := trueRangesOf klines in
  map (fun i =>
         if (i <? period - 1)%nat then None
         else
           let slice := slice (i + 1 - period) (i + 1) trueRanges in
           Some (sum slice / num period))
      (seq 0 (List.length trueRanges)).

End Exchanges.

(* ------------------------------------------------------------------ *)
(** ** Sentiment analysis *)

Module Sentiment.
Import Js.
Local Open Scope string_scope.

(** [s.endsWith(suffix)] *)
Definition endsWith (s suffix : string) : bool :=
  if (String.length suffix <=? String.length s)%nat
  then String.eqb (substring (String.length s - String.length suffix)
                             (String.length suffix) s)
                  suffix
  else false.

Definition quoteCurrencies : list string :=
  ["USDT"; "USD"; "BUSD"; "USDC"; "BTC"; "ETH"].

(** The [for ... of] loop of [extractBaseCurrency]: the value returned
    from inside the loop, if any. *)
Fixpoint extractLoop (quotes : list string) (symbol : string) : option string :=
  match quotes with
  | [] => None
  | quote :: rest =>
      if endsWith symbol quote
      then Some (substring 0 (String.length symbol - String.length quote) symbol)
      else extractLoop rest symbol
  end.

(** [extractBaseCurrency(symbol)] *)
Definition extractBaseCurrency (symbol : string) : string :=
  match extractLoop quoteCurrencies symbol with
  | Some base => base
  | None => substring 0 3 symbol
  end.

(** [parseFloat(x.toFixed(2))]: the nearest multiple of 0.01, ties away
    from zero. *)
Definition roundTo2 (x : Q) : Q :=
  let n := inject_Z (Qfloor (Qabs x * 100 + (1 # 2))) / 100 in
  if ltb x 0 then - n else n.

(** The sentiment data, as far as [calculateOverallSentiment] reads it:
    [social.score], [news.score], [fearGreedIndex.value] and
    [fundingRates.average]. *)
Module SentimentData.
Record t : Type := mk {
  socialScore : Q; newsScore : Q; fearGreedValue : Q; fundingAverage : Q
}.
End SentimentData.

(** The weighted score of [calculateOverallSentiment]; the weights are
    taken as exact decimals. *)
Definition weightedScoreOf (sentimentData : SentimentData.t) : Q :=
  let fearGreedScore := (SentimentData.fearGreedValue sentimentData - 50) / 50 in
  (SentimentData.socialScore sentimentData * (3 # 10)) +
  (SentimentData.newsScore sentimentData * (2 # 10)) +
  (fearGreedScore * (3 # 10)) +
  (SentimentData.fundingAverage sentimentData * 100 * (2 # 10)).

(** A sequence of [if]s without [else]: a later test that holds
    overrides the classification. *)
Definition classifyScore (weightedScore : Q) : string :=
  let classification := "neutral" in
  let classification :=
    if gtb weightedScore (2 # 10) then "bullish" else classification in
  let classification :=
    if gtb weightedScore (5 # 10) then "very bullish" else classification in
  let classification :=
    if ltb weightedScore (- (2 # 10)) then "bearish" else classification in
  let classification :=
    if ltb weightedScore (- (5 # 10)) then "very bearish" else classification in
  classification.

(** [calculateOverallSentiment(sentimentData)] *)
Definition calculateOverallSentiment (sentimentData : SentimentData.t)
  : OverallSentiment.t :=
  let weightedScore := weightedScoreOf sentimentData in
  OverallSentiment.mk (classifyScore weightedScore) (roundTo2 weightedScore).

End Sentiment.

(* ------------------------------------------------------------------ *)
(** ** The numeric functions on IEEE-754 doubles

    The modules above compute with exact rationals.  This module embeds
    the same source functions on the numbers JavaScript really computes
    with: binary64 floating-point numbers, in the Standard Library's
    specification of IEEE-754 arithmetic ([SpecFloat]) with 53 bits of
    precision, rounding to nearest, ties to even.  It serves to evaluate
    the functions where rounding decides the result. *)

Module Binary64.
Import Js.

Definition prec : Z := 53.
Definition emax : Z := 1024.

Definition number : Type := spec_float.

(** [a + b], [a - b], [a * b], [a / b] and [Math.abs(a)]. *)
Definition add : number -> number -> number := SFadd prec emax.
Definition sub : number -> number -> number := SFsub prec emax.
Definition mul : number -> number -> number := SFmul prec emax.
Definition div : number -> number -> number := SFdiv prec emax.
Definition abs : number -> number := SFabs.

(** [a < b], [a > b] and [a === b]: false as soon as an operand is
    [NaN]; [0 === -0] holds. *)
Definition ltb : number -> number -> bool := SFltb.
Definition gtb (a b : number) : bool := SFltb b a.
Definition eqb : number -> number -> bool := SFeqb.

(** The double of an integer (exact below 2^53). *)
Definition ofZ (z : Z) : number := binary_normalize prec emax z 0 false.

(** The double that a decimal literal of rational value [q] denotes:
    the quotient of numerator and denominator, rounded once. *)
Definition decimal (q : Q) : number :=
  match Qnum q with
  | Z0 => S754_zero false
  | Zpos n => div (S754_finite false n 0) (S754_finite false (Qden q) 0)
  | Zneg n => div (S754_finite true n 0) (S754_finite false (Qden q) 0)
  end.

(** The rational number that a finite double is. *)
Definition valueOf (x : number) : Q :=
  match x with
  | S754_finite s m e =>
      (if s then - inject_Z (Zpos m) else inject_Z (Zpos m)) * Qpower 2 e
  | _ => 0
  end.

Definition zero : number := S754_zero false.
Definition one : number := ofZ 1.
Definition two : number := ofZ 2.
Definition hundred : number := ofZ 100.

(** A [nat] used as a number: lengths, counts and periods. *)
Definition num (n : nat) : number := ofZ (Z.of_nat n).

(** [arr.reduce((sum, x) => sum + x, 0)] *)
Definition sum (l : list number) : number := fold_left add l zero.

(** [calculateMovingAverages(data, period)] *)
Definition calculateMovingAverages (data : list number) (period : nat)
  : list (option number) :=
  map (fun i =>
         if (i <? period - 1)%nat then None
         else Some (div (sum (slice (i + 1 - period) (i + 1) data))
                        (num period)))
      (seq 0 (List.length data)).

(** The [for] loop of [calculateEMA]. *)
Fixpoint emaLoop (multiplier last : number) (rest : list number)
  : list number :=
  match rest with
  | [] => []
  | p :: rest' =>
      let e := add (mul (sub p last) multiplier) last in
      e :: emaLoop multiplier e rest'
  end.

(** [calculateEMA(prices, period)] *)
Definition calculateEMA (prices : list number) (period : nat)
  : M (list (option number)) :=
  let multiplier := div two (add (num period) one) in
  let sma := div (sum (slice 0 period prices)) (num period) in
  let ema := sma :: emaLoop multiplier sma (skipn period prices) in
  if (period =? 0)%nat then Throw RangeError
  else Ok (repeat None (period - 1) ++ map Some ema).

(** [deltas[i-1] = prices[i] - prices[i-1]] *)
Fixpoint deltasOf (prices : list number) : list number :=
  match prices with
  | p0 :: ((p1 :: _) as rest) => sub p1 p0 :: deltasOf rest
  | _ => []
  end.

Definition gainOf (d : number) : number := if gtb d zero then d else zero.
Definition lossOf (d : number) : number := if ltb d zero then abs d else zero.

Definition rsiValue (avgGain avgLoss : number) : number :=
  if eqb avgLoss zero then hundred
  else let rs := div avgGain avgLoss in
       sub hundred (div hundred (add one rs)).

Definition smooth (period : nat) (avg current : number) : number :=
  div (add (mul avg (sub (num period) one)) current) (num period).

Fixpoint rsiLoop (period : nat) (avgGain avgLoss : number)
         (gl : list (number * number)) : list (option number) :=
  match gl with
  | [] => []
  | (currentGain, currentLoss) :: gl' =>
      let avgGain' := smooth period avgGain currentGain in
      let avgLoss' := smooth period avgLoss currentLoss in
      Some (rsiValue avgGain' avgLoss') :: rsiLoop period avgGain' avgLoss' gl'
  end.

(** [calculateRSI(prices, period = 14)] *)
Definition calculateRSI (prices : list number) (period : nat)
  : list (option number) :=
  if (List.length prices <? period + 1)%nat then repeat None (List.length prices)
  else
    let deltas := deltasOf prices in
    let gains := map gainOf deltas in
    let losses := map lossOf deltas in
    let avgGain := div (sum (slice 0 period gains)) (num period) in
    let avgLoss := div (sum (slice 0 period losses)) (num period) in
    None :: Some (rsiValue avgGain avgLoss)
         :: rsiLoop period avgGain avgLoss (skipn period (combine gains losses)).

Record Level : Type := mkLevel { value : number; index : nat }.

(** [[...levels].sort((a, b) => a.value - b.value)]: [a] goes behind
    [b] when the comparator is positive. *)
Fixpoint insert (a : Level) (l : list Level) : list Level :=
  match l with
  | [] => [a]
  | b :: l' =>
      if gtb (sub (value a) (value b)) zero then b :: insert a l' else a :: l
  end.

Fixpoint sort (l : list Level) : list Level :=
  match l with
  | [] => []
  | a :: l' => insert a (sort l')
  end.

Definition avgValue (cluster : list Level) : number :=
  div (fold_left (fun sum level => add sum (value level)) cluster zero)
      (num (List.length cluster)).

Fixpoint clusterLoop (threshold : number) (clusters : list number)
         (currentCluster : list Level) (rest : list Level)
  : list number * list Level :=
  match rest with
  | [] => (clusters, currentCluster)
  | currentLevel :: rest' =>
      let last := List.last currentCluster currentLevel in
      if ltb (div (sub (value currentLevel) (value last)) (value last)) threshold
      then clusterLoop threshold clusters (currentCluster ++ [currentLevel]) rest'
      else clusterLoop threshold (clusters ++ [avgValue currentCluster])
                       [currentLevel] rest'
  end.

(** [clusterLevels(levels, threshold = 0.01)] *)
Definition clusterLevels (levels : list Level) (threshold : number)
  : list number :=
  match sort levels with
  | [] => []
  | first :: rest =>
      let '(clusters, currentCluster) :=
        clusterLoop threshold [] [first] rest in
      if (0 <? List.length currentCluster)%nat
      then clusters ++ [avgValue currentCluster]
      else clusters
  end.

Record Candle : Type := mkCandle {
  open : number; high : number; low : number; close : number; volume : number
}.

Record Spikes : Type := mkSpikes {
  recent : bool; count : nat; percentage : number
}.

(** [detectVolumeSpikes(klines)] *)
Definition detectVolumeSpikes (klines : list Candle) : Spikes :=
  let volumes := map volume klines in
  let avgVolume := div (sum volumes) (num (List.length volumes)) in
  let recentSpike :=
    existsb (fun vol => gtb vol (mul avgVolume two))
            (JsValue.sliceLast 3 volumes) in
  let spikeCount :=
    List.length (filter (fun vol => gtb vol (mul avgVolume two)) volumes) in
  mkSpikes recentSpike spikeCount
           (mul (div (num spikeCount) (num (List.length volumes))) hundred).

Record BuySell : Type := mkBuySell {
  buyVolume : number; sellVolume : number; ratio : number;
  pressureClassification : string
}.

(** The [for ... of] loop of the candle branch of [analyzeBuySellRatio]. *)
Fixpoint splitVolume (klines : list Candle) (buyVolume sellVolume : number)
  : number * number :=
  match klines with
  | [] => (buyVolume, sellVolume)
  | kline :: rest =>
      if gtb (close kline) (open kline)
      then splitVolume rest (add buyVolume (volume kline)) sellVolume
      else splitVolume rest buyVolume (add sellVolume (volume kline))
  end.

(** [analyzeBuySellRatio(data)] when [data.recentTrades] is absent, on
    the hourly candles [data.klines['1h']].  [sellVolume || 1] is 1 when
    the sell volume is 0 or [NaN]. *)
Definition analyzeBuySellRatio (hourly : list Candle) : BuySell :=
  let hourlyKlines := JsValue.sliceLast 24 hourly in
  let '(buyVolume, sellVolume) := splitVolume hourlyKlines zero zero in
  let ratio :=
    div buyVolume
        (match sellVolume with
         | S754_zero _ | S754_nan => one
         | _ => sellVolume
         end) in
  mkBuySell buyVolume sellVolume ratio
    (if gtb ratio (decimal (12 # 10)) then "buying"
     else if ltb ratio (decimal (8 # 10)) then "selling"
     else "neutral").

End Binary64.

(* ================================================================== *)
(** * Properties *)

Import Js Indicators Levels Patterns Trade.

(** ** Vocabulary of the statements *)

(** Two indicator values agree: both absent, or equal numbers. *)
Definition sameValue (a b : IndicatorValue) : Prop :=
  match a, b with
  | None, None => True
  | Some x, Some y => x == y
  | _, _ => False
  end.

(** No negative price delta. *)
Definition noLosses (deltas : list Q) : Prop := Forall (fun d => 0 <= d) deltas.

(** The deltas that reach the value at index [j >= 1] of the output of
    [calculateRSI]: all of them, from the start of the series. *)
Definition rsiHistory (prices : list Q) (period j : nat) : list Q :=
  firstn (period + j - 1) (deltasOf prices).

(** The last [period] of those deltas: the RSI window. *)
Definition rsiWindow (prices : list Q) (period j : nat) : list Q :=
  slice (j - 1) (period + j - 1) (deltasOf prices).

(** Wilder smoothing of an average over further samples. *)
Definition wilder (period : nat) (avg0 : Q) (xs : list Q) : Q :=
  fold_left (smooth period) xs avg0.

(** C6 as stated, for one series and period: every defined value lies in
    [0,100] and is 100 exactly when its window has no losses. *)
Definition rsiClaim (prices : list Q) (period : nat) : Prop :=
  forall j v, nth_error (calculateRSI prices period) j = Some (Some v) ->
    (0 <= v /\ v <= 100) /\
    (v == 100 <-> noLosses (rsiWindow prices period j)).

(** Ascending by value. *)
Definition levelLe (a b : Level) : Prop := value a <= value b.

(** Two output levels, the lower one first, are not within [threshold]
    of each other: the gap relative to the lower level is at least
    [threshold]. *)
Definition apart (threshold a b : Q) : Prop :=
  0 < a /\ threshold <= (b - a) / a.

(** A bullish engulfing pair: the current candle is bullish, the previous
    one bearish, and the current body strictly contains the previous one. *)
Definition bullishEngulfing (current previous : Candle) : Prop :=
  open current < close current /\
  close previous < open previous /\
  open current < close previous /\
  open previous < close current.

(** The symmetric bearish pair. *)
Definition bearishEngulfing (current previous : Candle) : Prop :=
  close current < open current /\
  open previous < close previous /\
  close previous < open current /\
  close current < open previous.

(** Some pair among the last [pairs] candle pairs satisfies [P]; the
    [i]-th pair from the end is [klines[n-i]] with [klines[n-i-1]]. *)
Definition somePairAmongLast (pairs : nat) (P : Candle -> Candle -> Prop)
           (klines : list Candle) : Prop :=
  exists i current previous,
    (1 <= i <= pairs)%nat /\ (i < List.length klines)%nat /\
    nth_error klines (List.length klines - i) = Some current /\
    nth_error klines (List.length klines - i - 1) = Some previous /\
    P current previous.

(** The test of the loop body of [detectEngulfingPatterns] at counter [i]. *)
Definition pairTest (klines : list Candle) (test : Candle -> Candle -> bool)
           (i : nat) : bool :=
  match nth_error klines (List.length klines - i),
        nth_error klines (List.length klines - i - 1) with
  | Some current, Some previous => test current previous
  | _, _ => false
  end.

(** [detectEngulfingPatterns] reports exactly the engulfing pairs among
    the last [pairs] candle pairs. *)
Definition engulfingClaim (pairs : nat) (klines : list Candle) : Prop :=
  exists bullish bearish,
    detectEngulfingPatterns klines = Ok (bullish, bearish) /\
    (bullish = true <-> somePairAmongLast pairs bullishEngulfing klines) /\
    (bearish = true <-> somePairAmongLast pairs bearishEngulfing klines).

(** The neutral object returned when no direction is resolved. *)
Definition noTrade (now : Z) (symbol : string) : Recommendation.t :=
  Recommendation.Neutral
    (Recommendation.mkNeutral symbol "neutral" "low"
       "Conflicting signals or lack of clear direction in the market" now).

(** The fixed neutral fallback carrying the message of a caught error. *)
Definition fallback (now : Z) (symbol : string) (error : Error)
  : Recommendation.t :=
  Recommendation.Neutral
    (Recommendation.mkNeutral symbol "neutral" "low"
       ("Error generating recommendation: " ++ message error) now).

(** The returned object has none of the keys of a trade plan. *)
Definition hasNoPlan (r : Recommendation.t) : Prop :=
  Recommendation.get_entries r = None /\
  Recommendation.get_takeProfitTargets r = None /\
  Recommendation.get_stopLoss r = None /\
  Recommendation.get_leverage r = None.

(** Sample analyses: five bullish votes (oscillators, pattern signal,
    market structure, social and news sentiment), one bearish vote
    (extreme fear), no support or resistance level. *)
Definition sampleTechnical : TA :=
  Some (TechnicalAnalysis.mk
    (Some (TrendStrength.mk "neutral" "weak"))
    (Some (SupportResistance.mk (Some (LevelLists.mk [] [])) 100 None None))
    (Some (Volatility.mk "medium" 5))
    (Some (Momentum.mk "neutral" (Some (Rsi.mk (Some 50)))
             (Some (Macd.mk None None None))))
    (Some (MovingAverages.mk "neutral" true false false
             (Some (Sma.mk None None None))))
    (Some (Oscillators.mk "bullish"))
    (Some (PricePatterns.mk "bullish"
             (Some (Pattern.mk false)) (Some (Pattern.mk false))
             (Some (Pattern.mk false)) (Some (Pattern.mk false))))
    (Some (MarketStructure.mk "uptrend"))).

Definition sampleSentiment : SA :=
  Some (SentimentAnalysis.mk
    (Some (Social.mk "bullish" "high"))
    (Some (News.mk "very bullish" []))
    (Some (FearGreedIndex.mk 20 "extreme fear"))
    (Some (OverallSentiment.mk "neutral" 0))).

Definition sampleVolume : VA :=
  Some (VolumeAnalysis.mk
    (Some (VolumeTrends.mk "stable" (Some (Volumes.mk 1))))
    (Some (BuySellRatio.mk (1234 # 1000) "neutral"))
    (Some (VolumeAtPrice.mk 1 "balanced"))).


(** The allocation fractions sum to 1.0 within 1e-6. *)
Definition sumsToOne (allocations : list Q) : Prop :=
  Qabs (sum allocations - 1) <= 1 # 1000000.

(** C2 as stated, for one input and direction. *)
Definition allocationClaim (ta : TA) (direction : string) : Prop :=
  (forall entries, determineEntryPoints ta direction = Ok entries ->
     sumsToOne (map Entry.allocation entries)) /\
  (forall targets, determineTakeProfitTargets ta direction = Ok targets ->
     sumsToOne (map TakeProfit.allocation targets)).

(** The nearest level and the level list that supply the limit entries:
    supports for "long", resistances otherwise. *)
Definition entryNearest (ta : TA) (direction : string) : M (option Q) :=
  if streq direction "long" then nearestSupport ta else nearestResistance ta.

Definition entryLevels (ta : TA) (direction : string) : M (list Q) :=
  if streq direction "long" then levels_support ta else levels_resistance ta.

(** The level list that supplies the take-profit ladder: resistances for
    "long", supports otherwise. *)
Definition targetLevels (ta : TA) (direction : string) : M (list Q) :=
  if streq direction "long" then levels_resistance ta else levels_support ta.

(** Every number of an indicator array is zero. *)
Definition zeroWhereDefined (arr : list IndicatorValue) : Prop :=
  Forall (fun v => match v with Some x => x == 0 | None => True end) arr.


(** Index [i] is a local extremum of [data] for windows of
    [windowSize] values on each side: the whole window lies inside the
    series and no value of it is beyond the one at [i]. *)
Definition localExtremum (data : list Q) (findMaxima : bool)
           (windowSize i : nat) : Prop :=
  (windowSize <= i)%nat /\ (i + windowSize < List.length data)%nat /\
  forall j, (i - windowSize <= j <= i + windowSize)%nat ->
    if findMaxima then nth j data 0 <= nth i data 0
    else nth i data 0 <= nth j data 0.

Definition byIndex (a b : Level) : Prop := (index a < index b)%nat.

(** Twelve candles with lows at 9 and highs at 10, but for one high of 12. *)
Definition flatWithPeak : list Candle :=
  map (fun h => mkCandle 10 h 9 10 1)
      [10; 10; 10; 10; 10; 12; 10; 10; 10; 10; 10; 10].

(** The price of an exchange named as in the arbitrage report. *)
Definition priceOf (prices : DataProcessing.Prices.t) (exchange : string) : Q :=
  if streq exchange "binance" then DataProcessing.Prices.binance prices
  else if streq exchange "bibit" then DataProcessing.Prices.bibit prices
  else DataProcessing.Prices.kucoin prices.

(** Descending by potential profit. *)
Definition byProfit (a b : DataProcessing.Opportunity.t) : Prop :=
  DataProcessing.Opportunity.potentialProfit b
    <= DataProcessing.Opportunity.potentialProfit a.

(** The price [b] differs from the price [a] by at most 0.5% of [a]. *)
Definition withinHalfPercent (a b : Q) : Prop :=
  Qabs (b - a) <= a * (5 # 1000).

(** The market entry that opens every plan. *)
Definition marketEntry (price : Q) : Entry.t :=
  Entry.mk price "market" (4 # 10) "Immediate market entry".

(** A limit entry with three tenths of the position. *)
Definition limitEntry (e : Entry.t) : Prop :=
  Entry.type e = "limit"%string /\ Entry.allocation e = 3 # 10.

(** A market of one daily candle closing at 100, with supports at 90 and
    95 and a resistance at 110; the support and resistance record its
    analysis gives; and a technical analysis holding that record only. *)
Definition sampleMarket : Technical.MarketData.t :=
  Technical.MarketData.mk
    [mkCandle 99 101 98 100 10]
    (IndicatorSet.mk (SmaLast.mk JsValue.Null JsValue.Null JsValue.Null)
       JsValue.Null
       (MacdLast.mk JsValue.Null JsValue.Null JsValue.Null)
       (LevelLists.mk [90; 95] [110])).

Definition sampleLevels : SupportResistance.t :=
  SupportResistance.mk (Some (LevelLists.mk [90; 95] [110])) 100 (Some 95) (Some 110).

Definition sampleAnalysed : TechnicalAnalysis.t :=
  TechnicalAnalysis.mk None (Some sampleLevels) None None None None None None.

(** A last indicator value that is [null] while the history has fewer
    than [threshold] candles, and a number from then on. *)
Definition definedFrom (threshold candles : nat) (v : JsValue.t) : Prop :=
  if (candles <? threshold)%nat then v = JsValue.Null
  else exists q, v = JsValue.Num q.

(** A series that never falls, or never rises, from one value to the
    next. *)
Definition monotone (values : list Q) : Prop :=
  (forall i, (i + 1 < List.length values)%nat ->
             nth i values 0 <= nth (i + 1) values 0) \/
  (forall i, (i + 1 < List.length values)%nat ->
             nth (i + 1) values 0 <= nth i values 0).

(** The price of a take-profit target agrees with its percentage gain:
    it lies that many percent above the current price for "long", below
    it for "short". *)
Definition gainMatchesPrice (direction : string) (currentPrice : Q)
           (target : TakeProfit.t) : Prop :=
  if streq direction "long"
  then TakeProfit.price target
       == currentPrice * (1 + TakeProfit.percentageGain target / 100)
  else TakeProfit.price target
       == currentPrice * (1 - TakeProfit.percentageGain target / 100).

(** The same for the stop loss, on the other side of the price. *)
Definition lossMatchesPrice (direction : string) (currentPrice : Q)
           (stop : StopLoss.t) : Prop :=
  if streq direction "long"
  then StopLoss.price stop
       == currentPrice * (1 - StopLoss.percentageLoss stop / 100)
  else StopLoss.price stop
       == currentPrice * (1 + StopLoss.percentageLoss stop / 100).

(** The points [a + b * i] for [i = 0 .. n - 1]. *)
Definition lineThrough (a b : Q) (n : nat) : list Q :=
  map (fun i => a + b * num i) (seq 0 n).

(** A candle with a proper range that contains its close. *)
Definition properCandle (k : Candle) : Prop :=
  low k < high k /\ low k <= close k /\ close k <= high k.

(** The value at index [i] is a strict local peak of the series: it
    has two neighbours on either side and lies strictly above each of
    the four (for a top), strictly below each of them (for a bottom). *)
Definition strictPeak (top : bool) (values : list Q) (i : nat) : Prop :=
  (2 <= i)%nat /\ (i + 2 < List.length values)%nat /\
  forall j, (j = i - 2 \/ j = i - 1 \/ j = i + 1 \/ j = i + 2)%nat ->
    if top then nth j values 0 < nth i values 0
    else nth i values 0 < nth j values 0.

(** The move of the close at index [k] away from the level [v] of the
    first peak: the fall below it for a top, the rise above it for a
    bottom. *)
Definition moveFrom (top : bool) (v : Q) (closes : list Q) (k : nat) : Q :=
  if top then v - nth k closes 0 else nth k closes 0 - v.

(** A double top (or bottom) at the indices [i] and [j]: two strict
    local peaks more than five candles apart, the second within 2% of
    the first, and between them (from [i] on, before [j]) a close that
    moved more than 3% of the first peak away from it. *)
Definition doublePeak (top : bool) (values closes : list Q) (i j : nat)
  : Prop :=
  strictPeak top values i /\ strictPeak top values j /\ (i + 5 < j)%nat /\
  Qabs (nth i values 0 - nth j values 0) < (2 # 100) * nth i values 0 /\
  exists k, (i <= k < j)%nat /\
            (3 # 100) * nth i values 0 < moveFrom top (nth i values 0) closes k.

(** What a detected double top or bottom reports: the two peaks of a
    double top (or bottom) with their values, and as its move the
    largest move of a close between them, relative to the first peak. *)
Definition reportedDouble (top : bool) (values closes : list Q)
           (found : Technical.Peak.t * Technical.Peak.t * Q) : Prop :=
  let '(first, second, move) := found in
  let i := Technical.Peak.index first in
  let j := Technical.Peak.index second in
  doublePeak top values closes i j /\
  Technical.Peak.value first = nth i values 0 /\
  Technical.Peak.value second = nth j values 0 /\
  3 # 100 < move /\
  exists k, (i <= k < j)%nat /\
    (forall k', (i <= k' < j)%nat ->
       moveFrom top (nth i values 0) closes k'
         <= moveFrom top (nth i values 0) closes k) /\
    move * nth i values 0 == moveFrom top (nth i values 0) closes k.

(** The comparison of the first loop of [detectDoubleTop] (for a top)
    and of [detectDoubleBottom], the move that their pair search
    computes, and the test a pair of peaks has to pass in it. *)
Definition beyondOf (top : bool) : Q -> Q -> bool := if top then gtb else ltb.

Definition moveOf (top : bool) (closes : list Q)
           (first second : Technical.Peak.t) : Q :=
  if top
  then (Technical.Peak.value first
        - Math_min (slice (Technical.Peak.index first)
                          (Technical.Peak.index second) closes))
       / Technical.Peak.value first
  else (Math_max (slice (Technical.Peak.index first)
                        (Technical.Peak.index second) closes)
        - Technical.Peak.value first)
       / Technical.Peak.value first.

Definition pairPasses (move : Technical.Peak.t -> Technical.Peak.t -> Q)
           (first second : Technical.Peak.t) : bool :=
  ltb (Math_abs (Technical.Peak.value first - Technical.Peak.value second)
       / Technical.Peak.value first) (2 # 100) &&
  (5 <? Technical.indexDistance (Technical.Peak.index first)
                                (Technical.Peak.index second))%nat &&
  gtb (move first second) (3 # 100).

Definition byPeakIndex (a b : Technical.Peak.t) : Prop :=
  (Technical.Peak.index a < Technical.Peak.index b)%nat.

(** Twelve daily candles that open and close at 9, with lows at 8 and
    highs at 10 but for the highs of 12 at the indices 2 and 9. *)
Definition doubleTopMarket : Technical.MarketData.t :=
  Technical.MarketData.mk
    (map (fun h => mkCandle 9 h 8 9 1)
         [10; 10; 12; 10; 10; 10; 10; 10; 10; 12; 10; 10])
    (IndicatorSet.mk (SmaLast.mk JsValue.Null JsValue.Null JsValue.Null)
       JsValue.Null
       (MacdLast.mk JsValue.Null JsValue.Null JsValue.Null)
       (LevelLists.mk [] [])).

(** The arithmetic mean of the values of a cluster: their sum divided
    by their number. *)
Definition meanOf (cluster : list Level) : Q :=
  fold_right Qplus 0 (map value cluster)
    / inject_Z (Z.of_nat (List.length cluster)).

(** Each member of a cluster is within [threshold] of the member before
    it, relative to that member. *)
Fixpoint chained (threshold : Q) (cluster : list Level) : Prop :=
  match cluster with
  | a :: ((b :: _) as rest) =>
      (value b - value a) / value a < threshold /\ chained threshold rest
  | _ => True
  end.







(** [d] is a double nearest to the rational [q]: a valid binary64
    number that is at least as close to [q] as the doubles next to it. *)
Definition nearestDouble (q : Q) (d : Binary64.number) : Prop :=
  valid_binary Binary64.prec Binary64.emax d = true /\
  Qabs (Binary64.valueOf d - q)
    <= Qabs (Binary64.valueOf (SFpred Binary64.prec Binary64.emax d) - q) /\
  Qabs (Binary64.valueOf d - q)
    <= Qabs (Binary64.valueOf (SFsucc Binary64.prec Binary64.emax d) - q).

(** The doubles 0.1 and 10, and four extrema with the values 0.1, 0.1,
    0.1 and 0.101. *)
Definition tenth : Binary64.number := Binary64.decimal (1 # 10).
Definition ten : Binary64.number := Binary64.ofZ 10.

Definition nearbyExtrema : list Binary64.Level :=
  [Binary64.mkLevel tenth 5; Binary64.mkLevel tenth 9;
   Binary64.mkLevel tenth 14;
   Binary64.mkLevel (Binary64.decimal (101 # 1000)) 20].

(** C8 as stated, on the doubles the program computes with: on the
    constant series of [n] copies of [c], every number in the simple and
    in the exponential moving average equals [c]. *)
Definition constantSeriesClaim (c : Binary64.number) (n period : nat) : Prop :=
  (forall i v,
      nth_error (Binary64.calculateMovingAverages (repeat c n) period) i
        = Some (Some v) ->
      Binary64.eqb v c = true) /\
  (forall out i v,
      Binary64.calculateEMA (repeat c n) period = Ok out ->
      nth_error out i = Some (Some v) ->
      Binary64.eqb v c = true).

(** C5 as stated, on the doubles the program computes with: any two
    output levels, the lower one first, are apart. *)
Definition clusterGapClaim (levels : list Binary64.Level)
           (threshold : Binary64.number) : Prop :=
  forall i j a b, (i < j)%nat ->
    nth_error (Binary64.clusterLevels levels threshold) i = Some a ->
    nth_error (Binary64.clusterLevels levels threshold) j = Some b ->
    apart (Binary64.valueOf threshold) (Binary64.valueOf a)
          (Binary64.valueOf b).

(** Six candles at a price of 1 with the volumes 0.7, 0.7, 0.7, 0, 0
    and 0. *)
Definition threeOfSix : list Binary64.Candle :=
  map (Binary64.mkCandle Binary64.one Binary64.one Binary64.one Binary64.one)
      [Binary64.decimal (7 # 10); Binary64.decimal (7 # 10);
       Binary64.decimal (7 # 10); Binary64.zero; Binary64.zero; Binary64.zero].

(** A green candle (from 1 to 2) of volume 1 and a red one (from 2 to 1)
    of volume 49. *)
Definition greenAndRed : list Binary64.Candle :=
  [Binary64.mkCandle Binary64.one Binary64.two Binary64.one Binary64.two
                     Binary64.one;
   Binary64.mkCandle Binary64.two Binary64.two Binary64.one Binary64.one
                     (Binary64.ofZ 49)].

(** The integer prices 3, 2, 3, 4, .., 56 as doubles: one loss, then
    gains of 1 only. *)
Definition oneEarlyLoss : list Binary64.number :=
  map (fun i => Binary64.ofZ (Z.of_nat i)) (3 :: seq 2 55)%nat.

(** The double 0.9999999999999999, the greatest one below 1. *)
Definition justBelowOne : Binary64.number :=
  Binary64.decimal (9999999999999999 # 10000000000000000).

(** ** Lists and sums *)

Section ListFacts.
Context {A : Type}.

Lemma nth_error_map_seq (f : nat -> A) (n i : nat) :
  (i < n)%nat -> nth_error (map f (seq 0 n)) i = Some (f i).
Proof.
  intros Hi.
  rewrite nth_error_map.
  rewrite (nth_error_nth' (seq 0 n) 0%nat) by (rewrite length_seq; exact Hi).
  rewrite seq_nth by exact Hi.
  reflexivity.
Qed.

Lemma nth_error_repeat_lt (a : A) (n i : nat) :
  (i < n)%nat -> nth_error (repeat a n) i = Some a.
Proof.
  revert i; induction n as [|n IH]; intros [|i] Hi; simpl; try lia; auto.
  apply IH; lia.
Qed.

Lemma skipn_repeat (a : A) (n k : nat) :
  skipn k (repeat a n) = repeat a (n - k).
Proof.
  revert k; induction n as [|n IH]; intros [|k]; simpl; auto.
Qed.

Lemma firstn_repeat (a : A) (n k : nat) :
  (k <= n)%nat -> firstn k (repeat a n) = repeat a k.
Proof.
  revert k; induction n as [|n IH]; intros [|k] Hk; simpl; try lia; auto.
  f_equal; apply IH; lia.
Qed.

Lemma slice_repeat (a : A) (n lo hi : nat) :
  (lo <= hi)%nat -> (hi <= n)%nat ->
  slice lo hi (repeat a n) = repeat a (hi - lo).
Proof.
  intros H1 H2. unfold slice.
  rewrite skipn_repeat. apply firstn_repeat. lia.
Qed.
End ListFacts.

Lemma num_S (n : nat) : num (S n) == num n + 1.
Proof.
  unfold num. rewrite Nat2Z.inj_succ, <- Z.add_1_r, inject_Z_plus. reflexivity.
Qed.

Lemma num_pos (n : nat) : (1 <= n)%nat -> 0 < num n.
Proof.
  intros H. unfold num.
  change 0 with (inject_Z 0). rewrite <- Zlt_Qlt. lia.
Qed.

Lemma num_nonneg (n : nat) : 0 <= num n.
Proof.
  unfold num. change 0 with (inject_Z 0). rewrite <- Zle_Qle. lia.
Qed.

Lemma fold_plus_repeat (c : Q) (k : nat) (a : Q) :
  fold_left Qplus (repeat c k) a == a + num k * c.
Proof.
  revert a; induction k as [|k IH]; intros a.
  - simpl. unfold num. simpl. ring.
  - simpl repeat. simpl fold_left. rewrite IH, num_S. ring.
Qed.

Lemma sum_repeat (c : Q) (k : nat) : sum (repeat c k) == num k * c.
Proof.
  unfold sum. rewrite fold_plus_repeat. ring.
Qed.

Lemma mean_repeat (c : Q) (k : nat) :
  (1 <= k)%nat -> sum (repeat c k) / num k == c.
Proof.
  intros Hk. rewrite sum_repeat.
  pose proof (num_pos Hk) as Hpos.
  field. intros E. rewrite E in Hpos. apply (Qlt_irrefl 0), Hpos.
Qed.

(** ** Moving averages *)

Lemma sma_at (data : list Q) (period i : nat) :
  (i < List.length data)%nat ->
  nth_error (calculateMovingAverages data period) i =
  Some (if (i <? period - 1)%nat then None
        else Some (sum (slice (i + 1 - period) (i + 1) data) / num period)).
Proof.
  intros Hi. unfold calculateMovingAverages.
  rewrite nth_error_map_seq by exact Hi. reflexivity.
Qed.

Lemma emaLoop_constant (multiplier c : Q) (m : nat) (last : Q) :
  last == c -> Forall (fun e => e == c) (emaLoop multiplier last (repeat c m)).
Proof.
  revert last; induction m as [|m IH]; intros last Hlast; simpl.
  - constructor.
  - assert (E : (c - last) * multiplier + last == c) by (rewrite Hlast; ring).
    constructor; [exact E|]. apply IH. exact E.
Qed.

(** C7.  When the period exceeds the length of the series, the simple
    moving average, the exponential moving average and the RSI hold
    [null] at every index of the input, and none of them throws:
    [calculateMovingAverages] and [calculateRSI] are total, and
    [calculateEMA] returns normally. *)
Theorem short_history_is_undefined (prices : list Q) (period : nat) :
  (List.length prices < period)%nat ->
  (forall i, (i < List.length prices)%nat ->
     nth_error (calculateMovingAverages prices period) i = Some None) /\
  (exists out, calculateEMA prices period = Ok out /\
     forall i, (i < List.length prices)%nat -> nth_error out i = Some None) /\
  (forall i, (i < List.length prices)%nat ->
     nth_error (calculateRSI prices period) i = Some None).
Proof.
  intros Hshort. repeat split.
  - intros i Hi. rewrite sma_at by exact Hi.
    destruct (Nat.ltb_spec i (period - 1)) as [_|Hge]; [reflexivity | lia].
  - unfold calculateEMA.
    destruct (Nat.eqb_spec period 0) as [E|_]; [lia|].
    eexists; split; [reflexivity|].
    intros i Hi. rewrite nth_error_app1 by (rewrite repeat_length; lia).
    apply nth_error_repeat_lt. lia.
  - intros i Hi. unfold calculateRSI.
    destruct (Nat.ltb_spec (List.length prices) (period + 1)) as [_|Hge]; [|lia].
    apply nth_error_repeat_lt. exact Hi.
Qed.

Lemma short_history_is_undefined_witness :
  (List.length [10; 11] < 3)%nat /\
  nth_error (calculateMovingAverages [10; 11] 3) 1 = Some None.
Proof.
  split; [simpl; lia|].
  apply (proj1 (@short_history_is_undefined [10; 11] 3%nat ltac:(simpl; lia)) 1%nat).
  simpl; lia.
Defined.

Lemma sma_constant_at (c : Q) (n period i : nat) :
  (1 <= period)%nat -> (period - 1 <= i)%nat -> (i < n)%nat ->
  exists v, nth_error (calculateMovingAverages (repeat c n) period) i = Some (Some v)
            /\ v == c.
Proof.
  intros Hp Hlo Hhi.
  rewrite sma_at by (rewrite repeat_length; exact Hhi).
  destruct (Nat.ltb_spec i (period - 1)) as [Hlt|_]; [lia|].
  eexists; split; [reflexivity|].
  rewrite slice_repeat by lia.
  replace (i + 1 - (i + 1 - period))%nat with period by lia.
  apply mean_repeat; exact Hp.
Qed.

Lemma ema_constant_values (c : Q) (n period : nat) :
  (1 <= period)%nat -> (period <= n)%nat ->
  Forall (fun e => e == c)
    (sum (slice 0 period (repeat c n)) / num period
       :: emaLoop (2 / (num period + 1))
            (sum (slice 0 period (repeat c n)) / num period)
            (skipn period (repeat c n))).
Proof.
  intros Hp Hn.
  assert (Hseed : sum (slice 0 period (repeat c n)) / num period == c).
  { rewrite slice_repeat by lia. rewrite Nat.sub_0_r. apply mean_repeat; exact Hp. }
  constructor; [exact Hseed|].
  rewrite skipn_repeat. apply emaLoop_constant. exact Hseed.
Qed.

Lemma emaLoop_length (multiplier last : Q) (rest : list Q) :
  List.length (emaLoop multiplier last rest) = List.length rest.
Proof.
  revert last; induction rest as [|p rest IH]; intros last; simpl; auto.
Qed.

(** C8, amended.  On a constant series [c, .., c] of length [n] and for
    a period [1 <= period <= n], the simple and the exponential moving
    average are [null] below index [period - 1] and numbers from there
    on, which in exact arithmetic equal [c]; and the simple moving
    average of [10,10,10,10,10] with period 3 is
    [null, null, 10, 10, 10], in exact arithmetic and on doubles. *)
Theorem constant_series_averages (c : Q) (n period : nat) :
  (1 <= period)%nat -> (period <= n)%nat ->
  (forall i, (i < n)%nat ->
     if (i <? period - 1)%nat
     then nth_error (calculateMovingAverages (repeat c n) period) i = Some None
     else exists v,
         nth_error (calculateMovingAverages (repeat c n) period) i = Some (Some v)
         /\ v == c) /\
  (exists out, calculateEMA (repeat c n) period = Ok out /\
     List.length out = n /\
     forall i, (i < n)%nat ->
       if (i <? period - 1)%nat
       then nth_error out i = Some None
       else exists v, nth_error out i = Some (Some v) /\ v == c) /\
  Forall2 sameValue (calculateMovingAverages [10; 10; 10; 10; 10] 3)
          [None; None; Some 10; Some 10; Some 10] /\
  Binary64.calculateMovingAverages [ten; ten; ten; ten; ten] 3
    = [None; None; Some ten; Some ten; Some ten].
Proof.
  intros Hp Hn. split; [|split; [|split]].
  - intros i Hi. destruct (Nat.ltb_spec i (period - 1)) as [Hlt|Hge].
    + rewrite sma_at by (rewrite repeat_length; exact Hi).
      destruct (Nat.ltb_spec i (period - 1)); [reflexivity | lia].
    + apply sma_constant_at; assumption.
  - unfold calculateEMA.
    destruct (Nat.eqb_spec period 0) as [E|_]; [lia|].
    eexists; split; [reflexivity|].
    pose proof (ema_constant_values c Hp Hn) as Hall.
    set (sma := sum (slice 0 period (repeat c n)) / num period) in *.
    set (ema := sma :: emaLoop (2 / (num period + 1)) sma (skipn period (repeat c n))) in *.
    assert (Hlen : List.length ema = (n - period + 1)%nat).
    { unfold ema. simpl. rewrite emaLoop_length, length_skipn, repeat_length. lia. }
    split.
    + rewrite length_app, repeat_length, length_map, Hlen. lia.
    + intros i Hi. destruct (Nat.ltb_spec i (period - 1)) as [Hlt|Hge].
      * rewrite nth_error_app1 by (rewrite repeat_length; exact Hlt).
        apply nth_error_repeat_lt. exact Hlt.
      * rewrite nth_error_app2 by (rewrite repeat_length; exact Hge).
        rewrite repeat_length, nth_error_map.
        destruct (nth_error ema (i - (period - 1))) as [v|] eqn:Hv.
        -- exists v. split; [reflexivity|].
           rewrite Forall_forall in Hall. apply Hall.
           eapply nth_error_In; exact Hv.
        -- apply nth_error_None in Hv. lia.
  - vm_compute. repeat constructor.
  - vm_compute. reflexivity.
Qed.

Lemma constant_series_averages_witness :
  exists v, nth_error (calculateMovingAverages (repeat 7 4) 2) 3 = Some (Some v)
            /\ v == 7.
Proof.
  exact (proj1 (@constant_series_averages 7 4%nat 2%nat
                  ltac:(lia) ltac:(lia)) 3%nat ltac:(lia)).
Defined.

(** The decimal literals used below denote the nearest doubles; 0.1 is
    the double 0x1.999999999999ap-4. *)
Lemma decimal_literals :
  Forall (fun q => nearestDouble q (Binary64.decimal q))
         [1 # 10; 101 # 1000; 1 # 100; 7 # 10; 12 # 10; 8 # 10; 875 # 10;
          9999999999999999 # 10000000000000000] /\
  tenth = S754_finite false 0x1999999999999a (-56).
Proof.
  split; [|vm_compute; reflexivity].
  repeat (constructor; [repeat split; vm_compute; congruence|]).
  constructor.
Qed.

(** C8 as stated fails on doubles: the sum 0.1 + 0.1 + 0.1 is rounded to
    0.30000000000000004, so the simple moving average of five values 0.1
    with period 3 holds 0.10000000000000002 at index 2, which is not
    0.1; the seed of the exponential moving average is the same
    number. *)
Lemma constant_series_counterexample : ~ constantSeriesClaim tenth 5 3.
Proof.
  intros [Hsma _].
  assert (Hv : nth_error (Binary64.calculateMovingAverages (repeat tenth 5) 3) 2
               = Some (Some (S754_finite false 7205759403792795 (-56))))
    by (vm_compute; reflexivity).
  apply Hsma in Hv. vm_compute in Hv. discriminate.
Qed.

(** The exponential moving average of the same series starts from that
    seed and is 0.1 afterwards. *)
Lemma ema_seed_of_tenths :
  Binary64.calculateEMA (repeat tenth 5) 3
  = Ok [None; None; Some (S754_finite false 7205759403792795 (-56));
        Some tenth; Some tenth].
Proof. vm_compute. reflexivity. Qed.

(** ** Relative strength index *)

Lemma gainOf_nonneg (d : Q) : 0 <= gainOf d.
Proof.
  unfold gainOf, gtb, ltb.
  destruct (Qle_bool d 0) eqn:E; simpl; [lra|].
  destruct (Qlt_le_dec 0 d) as [H|H]; [lra|].
  apply Qle_bool_iff in H. congruence.
Qed.

Lemma lossOf_nonneg (d : Q) : 0 <= lossOf d.
Proof.
  unfold lossOf, ltb, Math_abs.
  destruct (Qle_bool 0 d); simpl; [lra | apply Qabs_nonneg].
Qed.

Lemma lossOf_zero_iff (d : Q) : lossOf d == 0 <-> 0 <= d.
Proof.
  unfold lossOf, ltb, Math_abs.
  destruct (Qle_bool 0 d) eqn:E; simpl.
  - apply Qle_bool_iff in E. split; intros _; [exact E | reflexivity].
  - assert (Hneg : d < 0).
    { destruct (Qlt_le_dec d 0) as [H|H]; [exact H|].
      apply Qle_bool_iff in H. congruence. }
    rewrite Qabs_neg by lra. split; intros H; lra.
Qed.

Lemma fold_plus_shift (l : list Q) (a : Q) :
  fold_left Qplus l a == a + fold_left Qplus l 0.
Proof.
  revert a; induction l as [|x l IH]; intros a; simpl.
  - ring.
  - rewrite IH, (IH (0 + x)). ring.
Qed.

Lemma sum_cons (x : Q) (l : list Q) : sum (x :: l) == x + sum l.
Proof.
  unfold sum. simpl. rewrite fold_plus_shift. ring.
Qed.

Lemma sum_nonneg (l : list Q) : Forall (fun x => 0 <= x) l -> 0 <= sum l.
Proof.
  induction 1 as [|x l Hx Hl IH].
  - unfold sum; simpl; lra.
  - rewrite sum_cons. lra.
Qed.

Lemma sum_zero_iff (l : list Q) :
  Forall (fun x => 0 <= x) l ->
  (sum l == 0 <-> Forall (fun x => x == 0) l).
Proof.
  induction 1 as [|x l Hx Hl IH].
  - split; intros _; [constructor | reflexivity].
  - rewrite sum_cons. pose proof (sum_nonneg Hl) as Hs. split.
    + intros E. constructor; [lra|]. apply IH. lra.
    + intros Hall. inversion Hall as [|? ? Hx0 Hl0]; subst.
      apply IH in Hl0. lra.
Qed.

Lemma div_zero_iff (x y : Q) : 0 < y -> (x / y == 0 <-> x == 0).
Proof.
  intros Hy. split; intros E.
  - assert (Hx : x == y * (x / y)).
    { symmetry. apply Qmult_div_r. intros Hy0. rewrite Hy0 in Hy.
      apply (Qlt_irrefl 0), Hy. }
    rewrite Hx, E. ring.
  - rewrite E. unfold Qdiv. ring.
Qed.

Lemma div_nonneg (x y : Q) : 0 <= x -> 0 < y -> 0 <= x / y.
Proof.
  intros Hx Hy. apply Qle_shift_div_l; [exact Hy | lra].
Qed.

Lemma rsiValue_bounds (avgGain avgLoss : Q) :
  0 <= avgGain -> 0 <= avgLoss ->
  (0 <= rsiValue avgGain avgLoss /\ rsiValue avgGain avgLoss <= 100) /\
  (rsiValue avgGain avgLoss == 100 <-> avgLoss == 0).
Proof.
  intros Hg Hl. unfold rsiValue, eqb.
  destruct (Qeq_bool avgLoss 0) eqn:E.
  - apply Qeq_bool_eq in E. repeat split; try lra.
  - apply Qeq_bool_neq in E.
    assert (Hpos : 0 < avgLoss) by lra.
    pose proof (div_nonneg Hg Hpos) as Hrs.
    set (rs := avgGain / avgLoss) in *. cbv zeta.
    assert (Hd : 0 < 1 + rs) by lra.
    assert (Hlo : 0 < 100 / (1 + rs)).
    { apply Qlt_shift_div_l; [exact Hd | lra]. }
    assert (Hhi : 100 / (1 + rs) <= 100).
    { apply Qle_shift_div_r; [exact Hd | lra]. }
    repeat split; try lra; intros H; exfalso; lra.
Qed.

Section Wilder.
Variable period : nat.
Hypothesis period_pos : (1 <= period)%nat.

Let period_num_pos : 0 < num period := num_pos period_pos.

Lemma num_period_ge_1 : 1 <= num period.
Proof.
  unfold num. change 1 with (inject_Z 1). rewrite <- Zle_Qle. lia.
Qed.

Lemma smooth_nonneg (avg current : Q) :
  0 <= avg -> 0 <= current -> 0 <= smooth period avg current.
Proof.
  intros Ha Hc. unfold smooth. apply div_nonneg; [|exact period_num_pos].
  pose proof num_period_ge_1.
  assert (0 <= avg * (num period - 1)) by (apply Qmult_le_0_compat; lra).
  lra.
Qed.

Lemma smooth_zero (avg current : Q) :
  avg == 0 -> current == 0 -> smooth period avg current == 0.
Proof.
  intros Ha Hc. unfold smooth. apply div_zero_iff; [exact period_num_pos|].
  rewrite Ha, Hc. ring.
Qed.

Lemma smooth_zero_current (avg current : Q) :
  0 <= avg -> 0 <= current -> smooth period avg current == 0 -> current == 0.
Proof.
  intros Ha Hc E. unfold smooth in E.
  apply div_zero_iff in E; [|exact period_num_pos].
  pose proof num_period_ge_1.
  assert (0 <= avg * (num period - 1)) by (apply Qmult_le_0_compat; lra).
  lra.
Qed.

Lemma smooth_zero_avg (avg current : Q) :
  (2 <= period)%nat ->
  0 <= avg -> 0 <= current -> smooth period avg current == 0 -> avg == 0.
Proof.
  intros H2 Ha Hc E. unfold smooth in E.
  apply div_zero_iff in E; [|exact period_num_pos].
  assert (H1 : 1 <= num period - 1).
  { unfold num.
    assert (Hq : inject_Z 2 <= inject_Z (Z.of_nat period))
      by (rewrite <- Zle_Qle; lia).
    change (inject_Z 2) with 2 in Hq. lra. }
  assert (Hp : 0 <= avg * (num period - 1)) by (apply Qmult_le_0_compat; lra).
  assert (Hz : avg * (num period - 1) == 0) by lra.
  apply Qmult_integral in Hz. destruct Hz as [Hz|Hz]; [exact Hz | lra].
Qed.

Lemma wilder_nonneg (xs : list Q) (avg0 : Q) :
  0 <= avg0 -> Forall (fun x => 0 <= x) xs -> 0 <= wilder period avg0 xs.
Proof.
  intros Ha Hxs. revert avg0 Ha.
  induction Hxs as [|x xs Hx Hxs IH]; intros avg0 Ha; simpl; [exact Ha|].
  apply IH. apply smooth_nonneg; assumption.
Qed.

Lemma wilder_zero (xs : list Q) (avg0 : Q) :
  avg0 == 0 -> Forall (fun x => x == 0) xs -> wilder period avg0 xs == 0.
Proof.
  intros Ha Hxs. revert avg0 Ha.
  induction Hxs as [|x xs Hx Hxs IH]; intros avg0 Ha; simpl; [exact Ha|].
  apply IH. apply smooth_zero; assumption.
Qed.

Lemma wilder_zero_inv (xs : list Q) (avg0 : Q) :
  (2 <= period)%nat ->
  0 <= avg0 -> Forall (fun x => 0 <= x) xs ->
  wilder period avg0 xs == 0 ->
  avg0 == 0 /\ Forall (fun x => x == 0) xs.
Proof.
  intros H2 Ha Hxs. revert avg0 Ha.
  induction Hxs as [|x xs Hx Hxs IH]; intros avg0 Ha E; simpl in E.
  - split; [exact E | constructor].
  - destruct (IH _ (smooth_nonneg Ha Hx) E) as [Es Hall].
    split; [apply smooth_zero_avg with (current := x); assumption|].
    constructor; [|exact Hall].
    apply smooth_zero_current with (avg := avg0); assumption.
Qed.

End Wilder.

Lemma rsiLoop_length (period : nat) (gl : list (Q * Q)) (avgGain avgLoss : Q) :
  List.length (rsiLoop period avgGain avgLoss gl) = List.length gl.
Proof.
  revert avgGain avgLoss; induction gl as [|[g l] gl IH]; intros; simpl; auto.
Qed.

Lemma rsiLoop_nth (period : nat) (gl : list (Q * Q)) (avgGain avgLoss : Q) (m : nat) :
  (m < List.length gl)%nat ->
  nth_error (rsiLoop period avgGain avgLoss gl) m =
  Some (Some (rsiValue
                (wilder period avgGain (firstn (S m) (map fst gl)))
                (wilder period avgLoss (firstn (S m) (map snd gl))))).
Proof.
  revert avgGain avgLoss m.
  induction gl as [|[g l] gl IH]; intros avgGain avgLoss [|m] Hm;
    simpl in Hm; try lia.
  - reflexivity.
  - change (nth_error (rsiLoop period (smooth period avgGain g)
                         (smooth period avgLoss l) gl) m = 
            Some (Some (rsiValue
              (wilder period (smooth period avgGain g) (firstn (S m) (map fst gl)))
              (wilder period (smooth period avgLoss l) (firstn (S m) (map snd gl)))))).
    apply IH. lia.
Qed.

Lemma map_fst_combine {A B} (l1 : list A) (l2 : list B) :
  List.length l1 = List.length l2 -> map fst (combine l1 l2) = l1.
Proof.
  revert l2; induction l1 as [|a l1 IH]; intros [|b l2] H; simpl in *;
    try discriminate; auto.
  f_equal; apply IH; lia.
Qed.

Lemma map_snd_combine {A B} (l1 : list A) (l2 : list B) :
  List.length l1 = List.length l2 -> map snd (combine l1 l2) = l2.
Proof.
  revert l2; induction l1 as [|a l1 IH]; intros [|b l2] H; simpl in *;
    try discriminate; auto.
  f_equal; apply IH; lia.
Qed.

Lemma firstn_add {A} (l : list A) (a b : nat) :
  firstn (a + b) l = (firstn a l ++ firstn b (skipn a l))%list.
Proof.
  revert l; induction a as [|a IH]; intros l; simpl; [reflexivity|].
  destruct l as [|x l]; simpl.
  - rewrite firstn_nil. reflexivity.
  - f_equal. apply IH.
Qed.

Lemma Forall_firstn {A} (P : A -> Prop) (l : list A) (n : nat) :
  Forall P l -> Forall P (firstn n l).
Proof.
  intros H. rewrite Forall_forall in *. intros x Hx. apply H.
  rewrite <- (firstn_skipn n l). apply in_or_app; left; exact Hx.
Qed.

Lemma Forall_skipn {A} (P : A -> Prop) (l : list A) (n : nat) :
  Forall P l -> Forall P (skipn n l).
Proof.
  intros H. rewrite Forall_forall in *. intros x Hx. apply H.
  rewrite <- (firstn_skipn n l). apply in_or_app; right; exact Hx.
Qed.

Lemma gains_nonneg (deltas : list Q) :
  Forall (fun x => 0 <= x) (map gainOf deltas).
Proof.
  apply Forall_map, Forall_forall. intros d _. apply gainOf_nonneg.
Qed.

Lemma losses_nonneg (deltas : list Q) :
  Forall (fun x => 0 <= x) (map lossOf deltas).
Proof.
  apply Forall_map, Forall_forall. intros d _. apply lossOf_nonneg.
Qed.

Lemma losses_zero_iff (deltas : list Q) :
  Forall (fun x => x == 0) (map lossOf deltas) <-> noLosses deltas.
Proof.
  unfold noLosses. rewrite Forall_map. split; intros H;
    (eapply Forall_impl; [|exact H]); intros d Hd; apply lossOf_zero_iff; exact Hd.
Qed.

Lemma seed_zero_iff (period : nat) (xs : list Q) :
  (1 <= period)%nat -> Forall (fun x => 0 <= x) xs ->
  (sum xs / num period == 0 <-> Forall (fun x => x == 0) xs).
Proof.
  intros Hp Hxs. rewrite div_zero_iff by (apply num_pos; exact Hp).
  apply sum_zero_iff; exact Hxs.
Qed.

(** The value at index [j] of the output of [calculateRSI], when it is
    defined: [j >= 1], and the averages are the seed averages smoothed
    over the next [j - 1] gains and losses. *)
Lemma calculateRSI_value (prices : list Q) (period j : nat) (v : Q) :
  nth_error (calculateRSI prices period) j = Some (Some v) ->
  let gains := map gainOf (deltasOf prices) in
  let losses := map lossOf (deltasOf prices) in
  (1 <= j)%nat /\
  v = rsiValue
        (wilder period (sum (firstn period gains) / num period)
                (firstn (j - 1) (skipn period gains)))
        (wilder period (sum (firstn period losses) / num period)
                (firstn (j - 1) (skipn period losses))).
Proof.
  intros H gains losses. unfold calculateRSI in H.
  destruct (List.length prices <? period + 1)%nat.
  - apply nth_error_In, repeat_spec in H. discriminate.
  - fold gains losses in H. unfold slice in H.
    rewrite !Nat.sub_0_r in H. simpl skipn in H.
    destruct j as [|[|m]]; cbn [nth_error] in H.
    + discriminate.
    + split; [lia|]. injection H as <-. reflexivity.
    + split; [lia|].
      assert (Hlen : List.length gains = List.length losses)
        by (unfold gains, losses; rewrite !length_map; reflexivity).
      assert (Hm : (m < List.length (skipn period (combine gains losses)))%nat).
      { rewrite <- (rsiLoop_length period
                      (skipn period (combine gains losses))
                      (sum (firstn period gains) / num period)
                      (sum (firstn period losses) / num period)).
        apply nth_error_Some. rewrite H. discriminate. }
      rewrite rsiLoop_nth in H by exact Hm.
      rewrite <- !skipn_map in H.
      rewrite map_fst_combine, map_snd_combine in H by exact Hlen.
      injection H as <-. simpl Nat.sub. reflexivity.
Qed.

Lemma Forall_firstn_le {A} (P : A -> Prop) (l : list A) (a b : nat) :
  (b <= a)%nat -> Forall P (firstn a l) -> Forall P (firstn b l).
Proof.
  intros Hle H. replace b with (Nat.min b a) by lia.
  rewrite <- firstn_firstn. apply Forall_firstn. exact H.
Qed.

Lemma window_in_history (prices : list Q) (period j : nat) :
  noLosses (rsiHistory prices period j) -> noLosses (rsiWindow prices period j).
Proof.
  unfold noLosses, rsiHistory, rsiWindow, slice. intros H.
  rewrite firstn_skipn_comm. apply Forall_skipn.
  apply Forall_firstn_le with (a := (period + j - 1)%nat); [lia | exact H].
Qed.

(** C6, amended.  For a period of at least 1, every defined value of
    [calculateRSI] lies in [0,100], and it is 100 if no delta from the
    start of the series up to that value is negative.  In exact
    arithmetic it is 100 only if its window of the last [period] deltas
    has no loss; for a period of at least 2 it is 100 only if no delta
    from the start of the series is negative; and the first defined
    value is 100 exactly when the window of the first [period] deltas
    has no loss.  (On doubles the "only if" parts do not hold: see
    [rsi_rounds_to_100_despite_a_loss].) *)
Theorem rsi_bounds_and_saturation (prices : list Q) (period j : nat) (v : Q) :
  (1 <= period)%nat ->
  nth_error (calculateRSI prices period) j = Some (Some v) ->
  (0 <= v /\ v <= 100) /\
  (v == 100 -> noLosses (rsiWindow prices period j)) /\
  (noLosses (rsiHistory prices period j) -> v == 100) /\
  ((2 <= period)%nat -> v == 100 -> noLosses (rsiHistory prices period j)) /\
  (j = 1%nat -> (v == 100 <-> noLosses (rsiWindow prices period j))).
Proof.
  intros Hp Hv.
  destruct (calculateRSI_value _ _ _ Hv) as [Hj Hval]. cbv zeta in Hval.
  set (deltas := deltasOf prices) in *.
  set (gains := map gainOf deltas) in *.
  set (losses := map lossOf deltas) in *.
  set (avgGain0 := sum (firstn period gains) / num period) in *.
  set (avgLoss0 := sum (firstn period losses) / num period) in *.
  assert (Hg0 : 0 <= avgGain0).
  { apply div_nonneg; [|apply num_pos; exact Hp].
    apply sum_nonneg, Forall_firstn, gains_nonneg. }
  assert (Hl0 : 0 <= avgLoss0).
  { apply div_nonneg; [|apply num_pos; exact Hp].
    apply sum_nonneg, Forall_firstn, losses_nonneg. }
  assert (Hseed : avgLoss0 == 0 <-> Forall (fun x => x == 0) (firstn period losses)).
  { apply seed_zero_iff; [exact Hp|]. apply Forall_firstn, losses_nonneg. }
  set (gs := firstn (j - 1) (skipn period gains)) in *.
  set (ls := firstn (j - 1) (skipn period losses)) in *.
  assert (Hgs : Forall (fun x => 0 <= x) gs)
    by apply Forall_firstn, Forall_skipn, gains_nonneg.
  assert (Hls : Forall (fun x => 0 <= x) ls)
    by apply Forall_firstn, Forall_skipn, losses_nonneg.
  pose proof (wilder_nonneg Hp Hg0 Hgs) as HG.
  pose proof (wilder_nonneg Hp Hl0 Hls) as HL.
  destruct (rsiValue_bounds HG HL) as [Hb Hsat]. rewrite <- Hval in Hb, Hsat.
  assert (Hhist : noLosses (rsiHistory prices period j) <->
                  Forall (fun x => x == 0) (firstn period losses) /\
                  Forall (fun x => x == 0) ls).
  { unfold rsiHistory. fold deltas. rewrite <- losses_zero_iff.
    rewrite <- firstn_map. fold losses.
    replace (period + j - 1)%nat with (period + (j - 1))%nat by lia.
    rewrite firstn_add. fold ls. apply Forall_app. }
  assert (Hall : (2 <= period)%nat -> v == 100 ->
                 noLosses (rsiHistory prices period j)).
  { intros H2 E. apply Hsat in E.
    destruct (wilder_zero_inv Hp H2 Hl0 Hls E) as [E0 Hrest].
    apply Hhist. split; [apply Hseed; exact E0 | exact Hrest]. }
  assert (Hfirst : j = 1%nat ->
                   (v == 100 <-> noLosses (rsiWindow prices period j))).
  { intros Ej. revert Hsat. unfold ls. rewrite Ej. simpl firstn. simpl wilder.
    intros Hsat. rewrite Hsat.
    rewrite Hseed. unfold rsiWindow, slice. fold deltas.
    replace (period + 1 - 1 - (1 - 1))%nat with period by lia.
    simpl skipn. rewrite <- losses_zero_iff, <- firstn_map. reflexivity. }
  split; [exact Hb|]. split; [|split; [|split]].
  - intros E.
    destruct (Nat.eq_dec period 1) as [E1|N1];
      [|apply window_in_history, Hall; [lia | exact E]].
    destruct (Nat.eq_dec j 1) as [Ej|Nj]; [apply Hfirst; assumption|].
    apply Hsat in E. revert E. unfold ls.
    replace (j - 1)%nat with ((j - 2) + 1)%nat by lia.
    rewrite firstn_add, skipn_skipn.
    unfold wilder. rewrite fold_left_app.
    fold (wilder period avgLoss0 (firstn (j - 2) (skipn period losses))).
    set (a := wilder period avgLoss0 (firstn (j - 2) (skipn period losses))).
    assert (Ha : 0 <= a)
      by (apply wilder_nonneg;
          [exact Hp | exact Hl0 | apply Forall_firstn, Forall_skipn, losses_nonneg]).
    unfold rsiWindow, slice. fold deltas. rewrite <- losses_zero_iff.
    rewrite <- firstn_map, <- skipn_map. fold losses.
    replace (period + j - 1 - (j - 1))%nat with 1%nat by lia.
    replace (j - 2 + period)%nat with (j - 1)%nat by lia.
    destruct (skipn (j - 1) losses) as [|x rest] eqn:Hsk; simpl; intros E.
    + constructor.
    + constructor; [|constructor].
      apply smooth_zero_current with (period := period) (avg := a);
        [exact Hp | exact Ha | | exact E].
      assert (Hin : In x losses).
      { rewrite <- (firstn_skipn (j - 1) losses), Hsk.
        apply in_or_app; right; left; reflexivity. }
      pose proof (losses_nonneg deltas) as Hnn.
      rewrite Forall_forall in Hnn. apply Hnn. exact Hin.
  - intros Hno. apply Hsat. apply Hhist in Hno. destruct Hno as [H0 Hrest].
    apply wilder_zero; [exact Hp | apply Hseed; exact H0 | exact Hrest].
  - exact Hall.
  - exact Hfirst.
Qed.

Lemma rsi_bounds_and_saturation_witness :
  (0 <= (1200 # 16) /\ (1200 # 16) <= 100) /\
  ((1200 # 16) == 100 -> noLosses (rsiWindow [3; 2; 3; 4; 5] 2 2)) /\
  (noLosses (rsiHistory [3; 2; 3; 4; 5] 2 2) -> (1200 # 16) == 100) /\
  ((2 <= 2)%nat -> (1200 # 16) == 100 ->
   noLosses (rsiHistory [3; 2; 3; 4; 5] 2 2)) /\
  (2%nat = 1%nat ->
   ((1200 # 16) == 100 <-> noLosses (rsiWindow [3; 2; 3; 4; 5] 2 2))).
Proof.
  apply (@rsi_bounds_and_saturation [3; 2; 3; 4; 5] 2%nat 2%nat (1200 # 16)).
  - lia.
  - vm_compute. reflexivity.
Defined.

(** C6 as stated fails: in [3,2,3,4,5] with period 2 the last value is
    87.5 although the two deltas of its window are both gains; the loss
    of the first delta is never forgotten by the smoothing. *)
Lemma rsi_window_counterexample : ~ rsiClaim [3; 2; 3; 4; 5] 2.
Proof.
  intros H.
  destruct (H 3%nat (5600 # 64)) as [_ [_ Hno]]; [vm_compute; reflexivity|].
  assert (E : (5600 # 64) == 100).
  { apply Hno. unfold noLosses, rsiWindow, slice. simpl.
    repeat constructor; discriminate. }
  vm_compute in E. discriminate.
Qed.

(** The same series on doubles: the values are 50, 75 and 87.5, without
    any rounding. *)
Lemma rsi_window_on_doubles :
  Binary64.calculateRSI (map Binary64.ofZ [3; 2; 3; 4; 5]%Z) 2
  = [None; Some (Binary64.ofZ 50); Some (Binary64.ofZ 75);
     Some (Binary64.decimal (875 # 10))].
Proof. vm_compute. reflexivity. Qed.

(** On doubles [100 - 100 / (1 + rs)] is rounded to 100 as soon as the
    average loss is small enough against the average gain.  In
    [1, 0.9999999999999999, 3] with period 2 the first delta is a loss
    and the only defined value is 100; and in 3, 2, 3, 4, .., 56 with
    period 2 the loss of the first delta is halved by every smoothing
    step until the last value is 100. *)
Lemma rsi_rounds_to_100_despite_a_loss :
  Binary64.ltb (Binary64.sub justBelowOne Binary64.one) Binary64.zero = true /\
  Binary64.calculateRSI [Binary64.one; justBelowOne; Binary64.ofZ 3] 2
  = [None; Some Binary64.hundred] /\
  List.last (Binary64.calculateRSI oneEarlyLoss 2) None
  = Some Binary64.hundred.
Proof. repeat split; vm_compute; reflexivity. Qed.

(** ** Level clustering *)

Lemma insert_perm (a : Level) (l : list Level) :
  Permutation (Levels.insert a l) (a :: l).
Proof.
  induction l as [|b l IH]; simpl; [reflexivity|].
  destruct (Qle_bool (value a) (value b)); [reflexivity|].
  rewrite IH. apply perm_swap.
Qed.

Lemma sort_perm (l : list Level) : Permutation (Levels.sort l) l.
Proof.
  induction l as [|a l IH]; simpl; [reflexivity|].
  rewrite insert_perm, IH. reflexivity.
Qed.

Lemma insert_sorted (a : Level) (l : list Level) :
  StronglySorted levelLe l -> StronglySorted levelLe (Levels.insert a l).
Proof.
  induction 1 as [|b l Hl IH Hb]; simpl.
  - repeat constructor.
  - destruct (Qle_bool (value a) (value b)) eqn:E.
    + apply Qle_bool_iff in E.
      constructor; [constructor; assumption|].
      constructor; [exact E|].
      eapply Forall_impl; [|exact Hb]. unfold levelLe. intros c Hc. lra.
    + assert (Hlt : value b <= value a).
      { destruct (Qlt_le_dec (value b) (value a)) as [H|H]; [lra|].
        apply Qle_bool_iff in H. congruence. }
      constructor; [exact IH|].
      apply Forall_forall. intros c Hc.
      apply (Permutation_in _ (insert_perm a l)) in Hc.
      destruct Hc as [<-|Hc]; [exact Hlt|].
      rewrite Forall_forall in Hb. apply Hb. exact Hc.
Qed.

Lemma sort_sorted (l : list Level) : StronglySorted levelLe (Levels.sort l).
Proof.
  induction l as [|a l IH]; simpl; [constructor | apply insert_sorted, IH].
Qed.

(** The mean of a non-empty cluster lies between any bounds of its
    members. *)
Lemma fold_values_bounds (lo hi : Q) (cluster : list Level) (acc : Q) :
  Forall (fun x => lo <= value x /\ value x <= hi) cluster ->
  acc + num (List.length cluster) * lo
    <= fold_left (fun sum level => sum + value level) cluster acc /\
  fold_left (fun sum level => sum + value level) cluster acc
    <= acc + num (List.length cluster) * hi.
Proof.
  intros H. revert acc.
  induction H as [|x cluster [Hlo Hhi] Hrest IH]; intros acc.
  - cbn [fold_left List.length]. change (num 0) with 0. lra.
  - cbn [fold_left List.length]. destruct (IH (acc + value x)) as [H1 H2].
    rewrite num_S. split; lra.
Qed.

Lemma avgValue_bounds (lo hi : Q) (cluster : list Level) :
  cluster <> [] ->
  Forall (fun x => lo <= value x /\ value x <= hi) cluster ->
  lo <= avgValue cluster /\ avgValue cluster <= hi.
Proof.
  intros Hne H. unfold avgValue.
  assert (Hn : 0 < num (List.length cluster)).
  { apply num_pos. destruct cluster; [congruence | simpl; lia]. }
  destruct (fold_values_bounds 0 H) as [H1 H2].
  split.
  - apply Qle_shift_div_l; [exact Hn | lra].
  - apply Qle_shift_div_r; [exact Hn | lra].
Qed.

Lemma apart_iff (threshold a b : Q) :
  0 < a -> (apart threshold a b <-> threshold * a <= b - a).
Proof.
  intros Ha. unfold apart. split.
  - intros [_ H].
    apply (Qmult_le_compat_r _ _ a) in H; [|lra].
    assert (E : (b - a) / a * a == b - a) by (field; lra).
    lra.
  - intros H. split; [exact Ha|]. apply Qle_shift_div_l; assumption.
Qed.

Lemma StronglySorted_snoc {A} (R : A -> A -> Prop) (l : list A) (x : A) :
  StronglySorted R l -> Forall (fun y => R y x) l -> StronglySorted R (l ++ [x]).
Proof.
  induction 1 as [|y l Hl IH Hy]; intros Hx; simpl.
  - repeat constructor.
  - inversion Hx as [|? ? Hyx Hlx]; subst.
    constructor; [apply IH; exact Hlx|].
    apply Forall_app; split; [exact Hy | repeat constructor; exact Hyx].
Qed.

Lemma StronglySorted_nth {A} (R : A -> A -> Prop) (l : list A) :
  StronglySorted R l ->
  forall i j a b, (i < j)%nat ->
    nth_error l i = Some a -> nth_error l j = Some b -> R a b.
Proof.
  induction 1 as [|x l Hl IH Hx]; intros i j a b Hij Hi Hj.
  - destruct i; discriminate.
  - destruct j as [|j]; [lia|]. simpl in Hj.
    destruct i as [|i]; simpl in Hi.
    + injection Hi as <-. rewrite Forall_forall in Hx.
      apply Hx. eapply nth_error_In; exact Hj.
    + apply (IH i j); [lia | assumption | assumption].
Qed.

Lemma last_in_list {A} (l : list A) (d : A) : l <> [] -> In (List.last l d) l.
Proof.
  induction l as [|x l IH]; intros Hne; [congruence|].
  destruct l as [|y l]; [left; reflexivity|].
  right. apply IH. discriminate.
Qed.

Section ClusterLoop.
Variable threshold : Q.

(** Closing the running cluster keeps the output pairwise apart. *)
Lemma close_cluster (clusters : list Q) (cur : list Level) (lo hi : Q) :
  cur <> [] ->
  Forall (fun x => lo <= value x /\ value x <= hi) cur ->
  StronglySorted (apart threshold) clusters ->
  Forall (fun m => 0 < m /\ threshold * m <= lo - m) clusters ->
  StronglySorted (apart threshold) (clusters ++ [avgValue cur]).
Proof.
  intros Hne Hcur Hsorted Hlow.
  destruct (avgValue_bounds Hne Hcur) as [Hlo _].
  apply StronglySorted_snoc; [exact Hsorted|].
  eapply Forall_impl; [|exact Hlow]. intros m [Hm Hgap].
  apply apart_iff; [exact Hm | lra].
Qed.

(** A level that is not merged starts a cluster that is apart from the
    mean of the cluster it closes. *)
Lemma split_gap (cur : list Level) (lo hi next : Q) :
  cur <> [] -> 0 < lo -> hi <= next ->
  Forall (fun x => lo <= value x /\ value x <= hi) cur ->
  ltb ((next - hi) / hi) threshold = false ->
  0 < avgValue cur /\ threshold * avgValue cur <= next - avgValue cur.
Proof.
  intros Hne Hlo Hnext Hcur Htest.
  destruct (avgValue_bounds Hne Hcur) as [Hlow Hhigh].
  assert (Hhi : 0 < hi) by lra.
  assert (Hgap : threshold * hi <= next - hi).
  { unfold ltb in Htest. apply negb_false_iff, Qle_bool_iff in Htest.
    apply (proj1 (apart_iff threshold next Hhi)). split; assumption. }
  split; [lra|].
  destruct (Qlt_le_dec threshold 0) as [Hneg|Hpos].
  - assert (threshold * avgValue cur <= 0 * avgValue cur)
      by (apply Qmult_le_compat_r; lra).
    lra.
  - assert (threshold * avgValue cur <= threshold * hi).
    { rewrite (Qmult_comm threshold (avgValue cur)), (Qmult_comm threshold hi).
      apply Qmult_le_compat_r; assumption. }
    lra.
Qed.

Lemma clusterLoop_apart (rest : list Level) :
  forall (clusters : list Q) (cur : list Level) (lo : Q) (hi : Level),
    cur <> [] -> 0 < lo ->
    (forall d, List.last cur d = hi) ->
    Forall (fun x => lo <= value x /\ value x <= value hi) cur ->
    StronglySorted levelLe (hi :: rest) ->
    StronglySorted (apart threshold) clusters ->
    Forall (fun m => 0 < m /\ threshold * m <= lo - m) clusters ->
    StronglySorted (apart threshold)
      (fst (clusterLoop threshold clusters cur rest)
         ++ [avgValue (snd (clusterLoop threshold clusters cur rest))]).
Proof.
  induction rest as [|next rest IH];
    intros clusters cur lo hi Hne Hlo Hlast Hcur Hrest Hsorted Hlow.
  - simpl. eapply close_cluster; eassumption.
  - cbn [clusterLoop]. unfold lastLevel. rewrite Hlast.
    inversion Hrest as [|? ? Hrest' Hhi]; subst.
    assert (Hnext : value hi <= value next)
      by (inversion Hhi; assumption).
    assert (Hlohi : lo <= value hi).
    { destruct cur as [|c cur]; [congruence|].
      pose proof (Hlast c) as E.
      assert (Hin : In hi (c :: cur))
        by (rewrite <- E; apply last_in_list; discriminate).
      rewrite Forall_forall in Hcur. apply Hcur in Hin. lra. }
    destruct (ltb ((value next - value hi) / value hi) threshold) eqn:Htest.
    + apply (IH clusters (cur ++ [next])%list lo next).
      * intros E. apply app_eq_nil in E. destruct E; discriminate.
      * exact Hlo.
      * intros d. apply last_last.
      * apply Forall_app. split.
        -- eapply Forall_impl; [|exact Hcur]. intros x [H1 H2]. lra.
        -- repeat constructor; lra.
      * exact Hrest'.
      * exact Hsorted.
      * exact Hlow.
    + apply (IH (clusters ++ [avgValue cur])%list [next] (value next) next).
      * discriminate.
      * lra.
      * intros d. reflexivity.
      * repeat constructor; lra.
      * exact Hrest'.
      * eapply close_cluster; eassumption.
      * apply Forall_app. split.
        -- eapply Forall_impl; [|exact Hlow]. intros m [H1 H2]. lra.
        -- constructor; [|constructor].
           eapply split_gap; eassumption.
Qed.

Lemma clusterLoop_groups (rest : list Level) :
  forall (groups : list (list Level)) (cur : list Level),
    cur <> [] -> Forall (fun g => g <> []) groups ->
    exists groups' cur',
      clusterLoop threshold (map avgValue groups) cur rest
        = (map avgValue groups', cur') /\
      cur' <> [] /\ Forall (fun g => g <> []) groups' /\
      (List.concat groups' ++ cur' = List.concat groups ++ cur ++ rest)%list.
Proof.
  induction rest as [|next rest IH]; intros groups cur Hne Hgroups.
  - exists groups, cur. simpl. rewrite app_nil_r. auto.
  - cbn [clusterLoop].
    destruct (ltb _ threshold).
    + destruct (IH groups (cur ++ [next])%list) as (groups' & cur' & E & H1 & H2 & H3).
      * intros E. apply app_eq_nil in E. destruct E; discriminate.
      * exact Hgroups.
      * exists groups', cur'. rewrite E, H3, <- !app_assoc. auto.
    + destruct (IH (groups ++ [cur])%list [next]) as (groups' & cur' & E & H1 & H2 & H3).
      * discriminate.
      * apply Forall_app. split; [exact Hgroups | repeat constructor; exact Hne].
      * exists groups', cur'. rewrite map_app in E. simpl in E.
        rewrite E, H3, concat_app. simpl. rewrite app_nil_r, <- !app_assoc.
        auto.
Qed.
End ClusterLoop.

(** The mean the code computes is the arithmetic mean. *)
Lemma fold_values_sum (cluster : list Level) (acc : Q) :
  fold_left (fun sum level => sum + value level) cluster acc
  == acc + fold_right Qplus 0 (map value cluster).
Proof.
  revert acc. induction cluster as [|x cluster IH]; intros acc; simpl.
  - ring.
  - rewrite IH. ring.
Qed.

Lemma avgValue_meanOf (cluster : list Level) : avgValue cluster == meanOf cluster.
Proof.
  unfold avgValue, meanOf, num. rewrite fold_values_sum.
  unfold Qdiv. ring.
Qed.

Lemma means_of_clusters (clusters : list (list Level)) :
  Forall2 (fun level c => level == meanOf c) (map avgValue clusters) clusters.
Proof.
  induction clusters as [|c clusters IH]; simpl; constructor;
    [apply avgValue_meanOf | exact IH].
Qed.

Lemma chained_snoc (threshold : Q) (cur : list Level) (next : Level) :
  cur <> [] -> chained threshold cur ->
  (value next - value (List.last cur next)) / value (List.last cur next)
    < threshold ->
  chained threshold (cur ++ [next]).
Proof.
  induction cur as [|a cur IH]; intros Hne Hc Hlt; [congruence|].
  destruct cur as [|b cur].
  - simpl in *. auto.
  - change ((a :: b :: cur) ++ [next])%list
      with (a :: ((b :: cur) ++ [next]))%list.
    cbn [chained app] in *. destruct Hc as [Hab Hc].
    split; [exact Hab|]. apply IH; [discriminate | exact Hc | exact Hlt].
Qed.

(** The loop closes clusters that are non-empty and chained, and that
    list the sorted levels in order. *)
Lemma clusterLoop_chained (threshold : Q) (rest : list Level) :
  forall (groups : list (list Level)) (cur : list Level),
    cur <> [] -> chained threshold cur ->
    Forall (fun g => g <> [] /\ chained threshold g) groups ->
    exists groups' cur',
      clusterLoop threshold (map avgValue groups) cur rest
        = (map avgValue groups', cur') /\
      cur' <> [] /\ chained threshold cur' /\
      Forall (fun g => g <> [] /\ chained threshold g) groups' /\
      (List.concat groups' ++ cur' = List.concat groups ++ cur ++ rest)%list.
Proof.
  induction rest as [|next rest IH]; intros groups cur Hne Hc Hgroups.
  - exists groups, cur. simpl. rewrite app_nil_r. auto.
  - cbn [clusterLoop]. unfold lastLevel.
    destruct (ltb _ threshold) eqn:Htest.
    + destruct (IH groups (cur ++ [next])%list)
        as (groups' & cur' & E & H1 & H2 & H3 & H4).
      * intros E. apply app_eq_nil in E. destruct E; discriminate.
      * apply chained_snoc; [exact Hne | exact Hc |].
        unfold ltb in Htest. apply negb_true_iff in Htest.
        destruct (Qlt_le_dec
                    ((value next - value (List.last cur next))
                       / value (List.last cur next)) threshold) as [H|H];
          [exact H|].
        apply Qle_bool_iff in H. congruence.
      * exact Hgroups.
      * exists groups', cur'. rewrite E, H4, <- !app_assoc. auto.
    + destruct (IH (groups ++ [cur])%list [next])
        as (groups' & cur' & E & H1 & H2 & H3 & H4).
      * discriminate.
      * exact I.
      * apply Forall_app. split; [exact Hgroups | repeat constructor; assumption].
      * exists groups', cur'. rewrite map_app in E. simpl in E.
        rewrite E, H4, concat_app. simpl. rewrite app_nil_r, <- !app_assoc.
        auto.
Qed.

(** C5, amended.  For extrema with positive values and any threshold, in
    exact arithmetic: the output of [clusterLevels] lists, cluster by
    cluster, the arithmetic means of non-empty clusters that cut the
    ascending list of the extrema into runs whose members are each
    within the threshold of the member before; and any two output levels
    are apart: the gap between them, relative to the lower one, is at
    least the threshold. *)
Theorem cluster_levels_apart (levels : list Level) (threshold : Q) :
  Forall (fun l => 0 < value l) levels ->
  (exists clusters : list (list Level),
      Permutation (List.concat clusters) levels /\
      StronglySorted levelLe (List.concat clusters) /\
      Forall (fun c => c <> [] /\ chained threshold c) clusters /\
      Forall2 (fun level c => level == meanOf c)
              (clusterLevels levels threshold) clusters) /\
  (forall i j a b, (i < j)%nat ->
      nth_error (clusterLevels levels threshold) i = Some a ->
      nth_error (clusterLevels levels threshold) j = Some b ->
      apart threshold a b).
Proof.
  intros Hpos. unfold clusterLevels.
  pose proof (sort_perm levels) as Hperm.
  pose proof (sort_sorted levels) as Hsorted.
  destruct (Levels.sort levels) as [|first rest] eqn:Hsort.
  - split.
    + exists []. simpl. repeat split; try constructor. exact Hperm.
    + intros [|i] j a b _ Hi; discriminate.
  - assert (Hfirst : 0 < value first).
    { rewrite Forall_forall in Hpos. apply Hpos.
      apply (Permutation_in _ Hperm). left; reflexivity. }
    destruct (@clusterLoop_chained threshold rest [] [first]) as
        (groups & cur & E & Hcur & Hchain & Hgroups & Hconcat);
      [discriminate | exact I | constructor |].
    simpl in E, Hconcat.
    pose proof (@clusterLoop_apart threshold rest [] [first] (value first) first)
      as Hapart.
    rewrite E in *. cbn [fst snd] in Hapart.
    assert (Hlen : (0 <? List.length cur)%nat = true).
    { destruct cur; [congruence | reflexivity]. }
    rewrite Hlen. split.
    + exists (groups ++ [cur])%list.
      assert (Hall : List.concat (groups ++ [cur]) = first :: rest).
      { rewrite concat_app. simpl. rewrite app_nil_r. exact Hconcat. }
      split; [rewrite Hall; exact Hperm|].
      split; [rewrite Hall; exact Hsorted|].
      split.
      * apply Forall_app. split; [exact Hgroups | repeat constructor; assumption].
      * replace (map avgValue groups ++ [avgValue cur])%list
          with (map avgValue (groups ++ [cur])%list)
          by (rewrite map_app; reflexivity).
        apply means_of_clusters.
    + apply StronglySorted_nth. apply Hapart.
      * discriminate.
      * exact Hfirst.
      * intros d; reflexivity.
      * repeat constructor; lra.
      * exact Hsorted.
      * constructor.
      * constructor.
Qed.

Lemma cluster_levels_apart_witness :
  apart (1 # 100) (3019 # 30) 103.
Proof.
  refine (proj2 (@cluster_levels_apart
                   [mkLevel 100 1; mkLevel 103 2; mkLevel (1009 # 10) 3;
                    mkLevel 101 4; mkLevel 200 7]
                   (1 # 100) _) 0%nat 1%nat (3019 # 30) 103 _ _ _).
  - repeat constructor.
  - lia.
  - vm_compute. reflexivity.
  - vm_compute. reflexivity.
Defined.

(** C5 as stated fails on doubles: the extrema 0.1, 0.1, 0.1 and 0.101
    with the threshold 0.01 are clustered into 0.10000000000000002 (the
    rounded mean of the three values 0.1, which is above each of them)
    and 0.101, and the gap between these two, relative to the lower one,
    is below the double 0.01. *)
Lemma cluster_gap_counterexample :
  ~ clusterGapClaim nearbyExtrema (Binary64.decimal (1 # 100)).
Proof.
  intros H.
  assert (Ha : nth_error (Binary64.clusterLevels nearbyExtrema
                            (Binary64.decimal (1 # 100))) 0
               = Some (S754_finite false 7205759403792795 (-56)))
    by (vm_compute; reflexivity).
  assert (Hb : nth_error (Binary64.clusterLevels nearbyExtrema
                            (Binary64.decimal (1 # 100))) 1
               = Some (Binary64.decimal (101 # 1000)))
    by (vm_compute; reflexivity).
  destruct (H 0%nat 1%nat _ _ ltac:(lia) Ha Hb) as [_ Hgap].
  vm_compute in Hgap. apply Hgap. reflexivity.
Qed.

(** ** Engulfing patterns *)

Lemma ltb_true_iff (a b : Q) : ltb a b = true <-> a < b.
Proof.
  unfold ltb. rewrite negb_true_iff. split; intros H.
  - destruct (Qlt_le_dec a b) as [Hlt|Hle]; [exact Hlt|].
    apply Qle_bool_iff in Hle. congruence.
  - destruct (Qle_bool b a) eqn:E; [|reflexivity].
    apply Qle_bool_iff in E. lra.
Qed.

Lemma isBullishEngulfing_iff (current previous : Candle) :
  isBullishEngulfing current previous = true <->
  bullishEngulfing current previous.
Proof.
  unfold isBullishEngulfing, bullishEngulfing, gtb.
  rewrite !andb_true_iff, !ltb_true_iff. tauto.
Qed.

Lemma isBearishEngulfing_iff (current previous : Candle) :
  isBearishEngulfing current previous = true <->
  bearishEngulfing current previous.
Proof.
  unfold isBearishEngulfing, bearishEngulfing, gtb.
  rewrite !andb_true_iff, !ltb_true_iff. tauto.
Qed.

Section EngulfingLoop.
Variable klines : list Candle.

Lemma engulfingLoop_spec (counters : list nat) :
  Forall (fun i => (1 <= i < List.length klines)%nat) counters ->
  forall bullish bearish,
    engulfingLoop klines counters bullish bearish =
    Ok (bullish || existsb (pairTest klines isBullishEngulfing) counters,
        bearish || existsb (pairTest klines isBearishEngulfing) counters).
Proof.
  induction 1 as [|i counters Hi Hrest IH]; intros bullish bearish.
  - simpl. rewrite !orb_false_r. reflexivity.
  - cbn [engulfingLoop existsb]. unfold at_index, pairTest.
    destruct (nth_error klines (List.length klines - i)) as [current|] eqn:Hc;
      [|apply nth_error_None in Hc; lia].
    destruct (nth_error klines (List.length klines - i - 1)) as [previous|] eqn:Hp;
      [|apply nth_error_None in Hp; lia].
    cbn [read bind]. rewrite IH.
    destruct (isBullishEngulfing current previous),
             (isBearishEngulfing current previous),
             bullish, bearish; reflexivity.
Qed.

Lemma pairTest_some (test : Candle -> Candle -> bool)
      (P : Candle -> Candle -> Prop) (pairs : nat) :
  (forall c p, test c p = true <-> P c p) ->
  (pairs <= 4)%nat ->
  (existsb (pairTest klines test) (seq 1 (Nat.min (S pairs) (List.length klines) - 1)) = true <->
   somePairAmongLast pairs P klines).
Proof.
  intros Htest Hpairs. rewrite existsb_exists. unfold somePairAmongLast.
  split.
  - intros (i & Hin & Ht). apply in_seq in Hin. unfold pairTest in Ht.
    destruct (nth_error klines (List.length klines - i)) as [current|] eqn:Hc; [|discriminate].
    destruct (nth_error klines (List.length klines - i - 1)) as [previous|] eqn:Hp; [|discriminate].
    exists i, current, previous. apply Htest in Ht.
    repeat split; try assumption; lia.
  - intros (i & current & previous & Hi & Hn & Hc & Hp & HP).
    exists i. split; [apply in_seq; lia|].
    unfold pairTest. rewrite Hc, Hp. apply Htest. exact HP.
Qed.
End EngulfingLoop.

(** C9, amended.  [detectEngulfingPatterns] never throws, and it reports
    a bullish (bearish) engulfing exactly when one of the last four
    candle pairs, those formed by the last five candles, is a bullish
    (bearish) engulfing pair. *)
Theorem engulfing_last_four_pairs (klines : list Candle) :
  engulfingClaim 4 klines.
Proof.
  unfold engulfingClaim, detectEngulfingPatterns.
  rewrite engulfingLoop_spec.
  - do 2 eexists. split; [reflexivity|]. cbn [orb]. split.
    + apply pairTest_some; [apply isBullishEngulfing_iff | lia].
    + apply pairTest_some; [apply isBearishEngulfing_iff | lia].
  - apply Forall_forall. intros i Hi. apply in_seq in Hi. lia.
Qed.

(** C9 as stated fails: with six candles whose two oldest form a bullish
    engulfing pair, the fifth pair from the end, nothing is reported. *)
Lemma engulfing_fifth_pair_counterexample :
  ~ engulfingClaim 5
      [mkCandle 10 10 9 9 1; mkCandle 8 11 8 11 1; mkCandle 1 1 1 1 1;
       mkCandle 1 1 1 1 1; mkCandle 1 1 1 1 1; mkCandle 1 1 1 1 1].
Proof.
  intros (bullish & bearish & Hrun & Hbull & _).
  vm_compute in Hrun. injection Hrun as <- <-.
  assert (H : false = true); [|discriminate].
  apply Hbull.
  exists 5%nat, (mkCandle 8 11 8 11 1), (mkCandle 10 10 9 9 1).
  unfold bullishEngulfing. simpl.
  repeat split; try lia; reflexivity.
Qed.

(** ** Direction resolution *)

Lemma bind_Ok {A B} (m : M A) (k : A -> M B) (b : B) :
  bind m k = Ok b -> exists a, m = Ok a /\ k a = Ok b.
Proof.
  destruct m as [a|e]; simpl; intros H; [exists a; auto | discriminate].
Qed.

Lemma resolveDirection_spec (totalBullish totalBearish : Z) :
  (resolveDirection totalBullish totalBearish = "long"%string <->
   (totalBullish - totalBearish >= 3)%Z) /\
  (resolveDirection totalBullish totalBearish = "short"%string <->
   (totalBearish - totalBullish >= 3)%Z) /\
  (resolveDirection totalBullish totalBearish = "neutral"%string <->
   ~ (totalBullish - totalBearish >= 3)%Z /\
   ~ (totalBearish - totalBullish >= 3)%Z).
Proof.
  unfold resolveDirection.
  destruct (Z.gtb_spec totalBullish totalBearish);
    destruct (Z.geb_spec (totalBullish - totalBearish) 3);
    destruct (Z.gtb_spec totalBearish totalBullish);
    destruct (Z.geb_spec (totalBearish - totalBullish) 3);
    cbn [andb]; repeat split; intros; try discriminate; try lia.
Qed.

(** C1.  Whenever the votes can be counted, the direction is "long"
    exactly when bullish minus bearish votes is at least 3, "short"
    exactly when bearish minus bullish votes is at least 3, and "neutral"
    otherwise; and in the neutral case [generateTradeRecommendation]
    returns the short neutral object, which has no entries, take-profit
    targets, stop-loss or leverage, whatever the rest of the input holds. *)
Theorem direction_by_vote_margin
        (now : Z) (symbol : string) (ta : TA) (sa : SA) (va : VA)
        (bullishVotes bearishVotes : Z) :
  directionVotes ta sa va = Ok (bullishVotes, bearishVotes) ->
  exists direction,
    determineTradeDirection ta sa va = Ok direction /\
    (direction = "long"%string <-> (bullishVotes - bearishVotes >= 3)%Z) /\
    (direction = "short"%string <-> (bearishVotes - bullishVotes >= 3)%Z) /\
    (direction = "neutral"%string <->
     ~ (bullishVotes - bearishVotes >= 3)%Z /\
     ~ (bearishVotes - bullishVotes >= 3)%Z) /\
    (direction = "neutral"%string ->
     generateTradeRecommendation now symbol ta sa va = Ok (noTrade now symbol) /\
     hasNoPlan (noTrade now symbol)).
Proof.
  intros Hvotes.
  exists (resolveDirection bullishVotes bearishVotes).
  assert (Hdir : determineTradeDirection ta sa va =
                 Ok (resolveDirection bullishVotes bearishVotes)).
  { unfold determineTradeDirection. rewrite Hvotes. reflexivity. }
  destruct (resolveDirection_spec bullishVotes bearishVotes) as (Hl & Hs & Hn).
  split; [exact Hdir|]. split; [exact Hl|]. split; [exact Hs|].
  split; [exact Hn|]. intros Hneutral. split.
  - unfold generateTradeRecommendation, tryBlock.
    rewrite Hdir. cbn [bind]. rewrite Hneutral. reflexivity.
  - unfold hasNoPlan, noTrade. simpl. auto.
Qed.

Lemma direction_by_vote_margin_witness :
  exists direction,
    determineTradeDirection sampleTechnical sampleSentiment sampleVolume
      = Ok direction /\
    (direction = "long"%string <-> (5 - 1 >= 3)%Z) /\
    (direction = "short"%string <-> (1 - 5 >= 3)%Z) /\
    (direction = "neutral"%string <->
     ~ (5 - 1 >= 3)%Z /\ ~ (1 - 5 >= 3)%Z) /\
    (direction = "neutral"%string ->
     generateTradeRecommendation 0 "BTCUSDT" sampleTechnical sampleSentiment
       sampleVolume = Ok (noTrade 0 "BTCUSDT") /\
     hasNoPlan (noTrade 0 "BTCUSDT")).
Proof.
  apply (@direction_by_vote_margin 0%Z "BTCUSDT"%string
           sampleTechnical sampleSentiment sampleVolume 5%Z 1%Z).
  vm_compute. reflexivity.
Defined.

(** ** Confidence *)

Ltac invert_bind H :=
  repeat (let a := fresh "a" in
          let E := fresh "E" in
          apply bind_Ok in H; destruct H as (a & E & H); cbv beta zeta in H).










(** ** Allocations of entries and take-profit targets *)

Lemma sum_snoc (l : list Q) (x : Q) : sum (l ++ [x]) == sum l + x.
Proof.
  unfold sum. rewrite fold_left_app. simpl. reflexivity.
Qed.

Lemma entry_allocations (ta : TA) (direction : string) (entries : list Entry.t) :
  direction = "long"%string \/ direction = "short"%string ->
  determineEntryPoints ta direction = Ok entries ->
  exists nearest levels,
    entryNearest ta direction = Ok nearest /\
    entryLevels ta direction = Ok levels /\
    sum (map Entry.allocation entries) ==
      (4 # 10) + (if truthy nearest then 3 # 10 else 0)
               + (if (2 <=? List.length levels)%nat then 3 # 10 else 0).
Proof.
  intros [-> | ->] H; unfold determineEntryPoints in H;
    apply bind_Ok in H; destruct H as (price & _ & H);
    cbv beta zeta in H;
    match type of H with
    | (if ?c then _ else _) = _ => change c with true in H
    | (if ?c then _ else if ?d then _ else _) = _ =>
        change c with false in H; change d with true in H
    end; cbv match in H;
    apply bind_Ok in H; destruct H as (nearest & En & H);
    apply bind_Ok in H; destruct H as (levels & El & H);
    exists nearest, levels;
    (split; [exact En|]); (split; [exact El|]);
    unfold pushIf, push, ret in H;
    destruct (truthy nearest); destruct levels as [|? [|? ?]];
    simpl in H; injection H as <-; unfold sum; simpl; lra.
Qed.

Lemma target_allocations (ta : TA) (direction : string)
      (targets : list TakeProfit.t) :
  direction = "long"%string \/ direction = "short"%string ->
  determineTakeProfitTargets ta direction = Ok targets ->
  exists levels,
    targetLevels ta direction = Ok levels /\
    (List.length levels <> 1%nat ->
     sum (map TakeProfit.allocation targets) == 1).
Proof.
  intros [-> | ->] H; unfold determineTakeProfitTargets in H;
    apply bind_Ok in H; destruct H as (price & _ & H);
    cbv beta zeta in H;
    match type of H with
    | (if ?c then _ else _) = _ => change c with true in H
    | (if ?c then _ else if ?d then _ else _) = _ =>
        change c with false in H; change d with true in H
    end; cbv match in H;
    apply bind_Ok in H; destruct H as (levels & El & H);
    exists levels; (split; [exact El|]);
    unfold pushIf, push, ret in H;
    destruct levels as [|? [|? [|? ?]]];
    simpl in H; injection H as <-; intros Hne;
    try (exfalso; apply Hne; reflexivity);
    unfold sum; simpl; lra.
Qed.

Lemma sumsToOne_iff (allocations : list Q) :
  sumsToOne allocations <->
  1 - (1 # 1000000) <= sum allocations /\ sum allocations <= 1 + (1 # 1000000).
Proof.
  unfold sumsToOne. rewrite Qabs_Qle_condition. split; intros [H1 H2]; split; lra.
Qed.

(** C2, amended.  For direction "long" or "short": the entries'
    allocations sum to 0.4 for the market entry plus 0.3 for each limit
    entry that exists (a nearest level on the entry side; at least two
    levels on the entry side), hence to 1.0 exactly when both exist; and
    the take-profit allocations sum to 1.0 whenever the list of target
    levels is empty or has at least two levels. *)
Theorem allocations_follow_available_levels (ta : TA) (direction : string) :
  direction = "long"%string \/ direction = "short"%string ->
  (forall entries, determineEntryPoints ta direction = Ok entries ->
     exists nearest levels,
       entryNearest ta direction = Ok nearest /\
       entryLevels ta direction = Ok levels /\
       sum (map Entry.allocation entries) ==
         (4 # 10) + (if truthy nearest then 3 # 10 else 0)
                  + (if (2 <=? List.length levels)%nat then 3 # 10 else 0) /\
       (sumsToOne (map Entry.allocation entries) <->
        truthy nearest = true /\ (2 <= List.length levels)%nat)) /\
  (forall targets, determineTakeProfitTargets ta direction = Ok targets ->
     exists levels,
       targetLevels ta direction = Ok levels /\
       (List.length levels <> 1%nat ->
        sumsToOne (map TakeProfit.allocation targets))).
Proof.
  intros Hdir. split.
  - intros entries H.
    destruct (entry_allocations ta Hdir H) as (nearest & levels & En & El & Hsum).
    exists nearest, levels. repeat (split; [assumption|]).
    rewrite sumsToOne_iff, Hsum.
    destruct (truthy nearest); destruct (Nat.leb_spec 2 (List.length levels));
      split; try (intros [H1 H2]; split; [reflexivity || lra | lia || lra]);
      try (intros [H1 H2]; exfalso; (discriminate || lia || lra)).
  - intros targets H.
    destruct (target_allocations ta Hdir H) as (levels & El & Hsum).
    exists levels. split; [exact El|]. intros Hne.
    rewrite sumsToOne_iff, (Hsum Hne). split; lra.
Qed.

Lemma allocations_follow_available_levels_witness :
  exists levels,
    targetLevels sampleTechnical "long" = Ok levels /\
    (List.length levels <> 1%nat ->
     sumsToOne
       (map TakeProfit.allocation
          [TakeProfit.mk (100 * (103 # 100)) (3 # 10) 3 "First take profit at 3% gain";
           TakeProfit.mk (100 * (105 # 100)) (3 # 10) 5 "Second take profit at 5% gain";
           TakeProfit.mk (100 * (11 # 10)) (4 # 10) 10 "Final take profit at 10% gain"])).
Proof.
  apply (proj2 (@allocations_follow_available_levels sampleTechnical "long"%string
                  (or_introl eq_refl))).
  reflexivity.
Defined.

(** C2 as stated fails: without any support level a long plan has the
    market entry only, and its allocations sum to 0.4. *)
Lemma single_entry_counterexample : ~ allocationClaim sampleTechnical "long".
Proof.
  intros [Hentries _].
  specialize (Hentries _ eq_refl).
  apply sumsToOne_iff in Hentries. destruct Hentries as [Hlow _].
  vm_compute in Hlow. apply Hlow. reflexivity.
Qed.

(** ** Failure recovery *)

(** C3.  For every input [generateTradeRecommendation] returns an object
    and never throws; when the plan synthesis of its [try] block throws,
    the object returned is the fixed neutral fallback whose reason
    carries the message of the error. *)
Theorem recommendation_never_throws
        (now : Z) (symbol : string) (ta : TA) (sa : SA) (va : VA) :
  (exists r, generateTradeRecommendation now symbol ta sa va = Ok r) /\
  (forall error, tryBlock now symbol ta sa va = Throw error ->
     generateTradeRecommendation now symbol ta sa va
       = Ok (fallback now symbol error) /\
     hasNoPlan (fallback now symbol error)).
Proof.
  unfold generateTradeRecommendation, try_catch.
  destruct (tryBlock now symbol ta sa va) as [r|e] eqn:Hbody.
  - split; [exists r; reflexivity|]. intros error H. discriminate.
  - split; [eexists; reflexivity|]. intros error H. injection H as <-.
    split; [reflexivity|]. unfold hasNoPlan, fallback. simpl. auto.
Qed.

Lemma recommendation_never_throws_witness :
  generateTradeRecommendation 0 "BTCUSDT" sampleTechnical None sampleVolume
    = Ok (fallback 0 "BTCUSDT" (TypeError "overallSentiment")) /\
  hasNoPlan (fallback 0 "BTCUSDT" (TypeError "overallSentiment")).
Proof.
  apply (proj2 (@recommendation_never_throws 0%Z "BTCUSDT"%string
                  sampleTechnical None sampleVolume)).
  vm_compute. reflexivity.
Defined.

(** ** Leverage *)

(** C10.  For every confidence label and every volatility record the
    recommended leverage is an integer between 1 and 8 and the risk
    level is one of "low", "moderate", "high"; for the label "low" and
    the level "high" the leverage is 1. *)
Theorem leverage_between_1_and_8 (confidence : string) (volatility : Volatility.t) :
  (exists leverage,
      calculateLeverage confidence (Some volatility) = Ok leverage /\
      (exists n : Z, (1 <= n <= 8)%Z /\
                     Leverage.recommended leverage = inject_Z n) /\
      (Leverage.riskLevel leverage = "low"%string \/
       Leverage.riskLevel leverage = "moderate"%string \/
       Leverage.riskLevel leverage = "high"%string)) /\
  (forall daily, exists leverage,
      calculateLeverage "low" (Some (Volatility.mk "high" daily)) = Ok leverage /\
      Leverage.recommended leverage = 1).
Proof.
  split.
  - unfold calculateLeverage. cbn [read bind ret].
    destruct (streq confidence "very high");
      [|destruct (streq confidence "high");
        [|destruct (streq confidence "moderate")]];
      (destruct (streq (Volatility.level volatility) "low");
       [|destruct (streq (Volatility.level volatility) "high")]);
      (eexists; split; [reflexivity|]; split;
       [eexists; split; [|vm_compute; reflexivity]; lia
       | vm_compute; auto]).
  - intros daily. eexists. split; reflexivity.
Qed.

(** ** Worked examples *)

(** With a period beyond the series the exponential moving average still
    returns [period] slots, the last one holding the seed average. *)
Example ema_period_beyond_series :
  calculateEMA [10; 10] 3 = Ok [None; None; Some (20 # 3)].
Proof. reflexivity. Qed.

(** With exactly one resistance level a long plan has two targets, the
    level itself and the projected one. *)
Example single_resistance_targets :
  option_map (map TakeProfit.allocation)
    (match determineTakeProfitTargets
             (Some (TechnicalAnalysis.mk None
                      (Some (SupportResistance.mk
                               (Some (LevelLists.mk [] [110])) 100 None (Some 110)))
                      None None None None None None))
             "long" with
     | Ok targets => Some targets
     | Throw _ => None
     end)
  = Some [3 # 10; 4 # 10].
Proof. reflexivity. Qed.

(* ================================================================== *)
(** * Further properties of the indicator library *)

Lemma sum_bounds (lo hi : Q) (l : list Q) :
  Forall (fun x => lo <= x /\ x <= hi) l ->
  num (List.length l) * lo <= sum l /\ sum l <= num (List.length l) * hi.
Proof.
  induction 1 as [|x l [Hlo Hhi] Hl [IH1 IH2]].
  - unfold sum. simpl. change (num 0) with 0. lra.
  - rewrite sum_cons. cbn [List.length]. rewrite num_S. lra.
Qed.

Lemma mean_bounds (lo hi : Q) (l : list Q) :
  l <> [] -> Forall (fun x => lo <= x /\ x <= hi) l ->
  lo <= sum l / num (List.length l) /\ sum l / num (List.length l) <= hi.
Proof.
  intros Hne H. destruct (sum_bounds H) as [H1 H2].
  assert (Hn : 0 < num (List.length l)).
  { apply num_pos. destruct l; [congruence | simpl; lia]. }
  split.
  - apply Qle_shift_div_l; [exact Hn | lra].
  - apply Qle_shift_div_r; [exact Hn | lra].
Qed.

Lemma slice_length {A} (a b : nat) (l : list A) :
  (b <= List.length l)%nat -> List.length (slice a b l) = (b - a)%nat.
Proof.
  intros H. unfold slice. rewrite length_firstn, length_skipn. lia.
Qed.

Lemma Forall_slice {A} (P : A -> Prop) (a b : nat) (l : list A) :
  Forall P l -> Forall P (slice a b l).
Proof.
  intros H. unfold slice. apply Forall_firstn, Forall_skipn, H.
Qed.

(** X1.  The simple moving average has one entry per input value; its
    entries below index [period - 1] are [null], and every later entry is
    a number between any bounds of the data. *)
Theorem moving_average_aligned_and_bounded
        (data : list Q) (period : nat) (lo hi : Q) :
  (1 <= period)%nat ->
  Forall (fun x => lo <= x /\ x <= hi) data ->
  List.length (calculateMovingAverages data period) = List.length data /\
  (forall i, (i < List.length data)%nat ->
     if (i <? period - 1)%nat
     then nth_error (calculateMovingAverages data period) i = Some None
     else exists v,
         nth_error (calculateMovingAverages data period) i = Some (Some v) /\
         lo <= v /\ v <= hi).
Proof.
  intros Hp Hdata. split.
  - unfold calculateMovingAverages. rewrite length_map, length_seq. reflexivity.
  - intros i Hi. rewrite sma_at by exact Hi.
    destruct (Nat.ltb_spec i (period - 1)) as [Hlt|Hge]; [reflexivity|].
    eexists. split; [reflexivity|].
    set (w := slice (i + 1 - period) (i + 1) data).
    assert (Hlen : List.length w = period).
    { unfold w. rewrite slice_length by lia. lia. }
    rewrite <- Hlen. apply mean_bounds.
    + intros E. rewrite E in Hlen. simpl in Hlen. lia.
    + apply Forall_slice, Hdata.
Qed.

Lemma moving_average_aligned_and_bounded_witness :
  List.length (calculateMovingAverages [1; 5; 3] 2) = 3%nat.
Proof.
  refine (proj1 (@moving_average_aligned_and_bounded [1; 5; 3] 2%nat 1 5 _ _)).
  - lia.
  - repeat constructor; simpl; lra.
Defined.

Lemma emaLoop_bounds (multiplier lo hi : Q) (rest : list Q) :
  0 <= multiplier -> multiplier <= 1 ->
  Forall (fun x => lo <= x /\ x <= hi) rest ->
  forall last, lo <= last /\ last <= hi ->
    Forall (fun x => lo <= x /\ x <= hi) (emaLoop multiplier last rest).
Proof.
  intros Hm0 Hm1. induction 1 as [|p rest [Hp1 Hp2] Hrest IH]; intros last [Hl1 Hl2].
  - constructor.
  - simpl.
    assert (Hb : lo <= (p - last) * multiplier + last /\
                 (p - last) * multiplier + last <= hi).
    { assert (E : (p - last) * multiplier + last
                  == multiplier * p + (1 - multiplier) * last) by ring.
      rewrite E.
      assert (multiplier * lo <= multiplier * p)
        by (rewrite !(Qmult_comm multiplier); apply Qmult_le_compat_r; assumption).
      assert (multiplier * p <= multiplier * hi)
        by (rewrite !(Qmult_comm multiplier); apply Qmult_le_compat_r; assumption).
      assert ((1 - multiplier) * lo <= (1 - multiplier) * last)
        by (rewrite !(Qmult_comm (1 - multiplier)); apply Qmult_le_compat_r; lra).
      assert ((1 - multiplier) * last <= (1 - multiplier) * hi)
        by (rewrite !(Qmult_comm (1 - multiplier)); apply Qmult_le_compat_r; lra).
      split; lra. }
    constructor; [exact Hb|]. apply IH. exact Hb.
Qed.

Lemma ema_multiplier_range (period : nat) :
  (1 <= period)%nat ->
  0 <= 2 / (num period + 1) /\ 2 / (num period + 1) <= 1.
Proof.
  intros Hp. pose proof (num_period_ge_1 Hp) as H1.
  split.
  - apply Qle_shift_div_l; lra.
  - apply Qle_shift_div_r; lra.
Qed.

Lemma calculateEMA_length (prices : list Q) (period : nat) (out : list IndicatorValue) :
  calculateEMA prices period = Ok out ->
  (1 <= period)%nat /\ List.length out = Nat.max (List.length prices) period.
Proof.
  unfold calculateEMA. destruct (Nat.eqb_spec period 0) as [E|N]; [discriminate|].
  intros H. injection H as <-. split; [lia|].
  rewrite length_app, repeat_length. cbn [map List.length].
  rewrite length_map, emaLoop_length, length_skipn. lia.
Qed.

(** X2.  For a period of at least 1 the exponential moving average never
    throws and returns max(length, period) entries, [null] below index
    [period - 1]; when the series has at least [period] values every
    later entry is a number between any bounds of the prices. *)
Theorem ema_length_and_bounds (prices : list Q) (period : nat) (lo hi : Q) :
  (1 <= period)%nat ->
  Forall (fun x => lo <= x /\ x <= hi) prices ->
  exists out,
    calculateEMA prices period = Ok out /\
    List.length out = Nat.max (List.length prices) period /\
    (forall i, (i < period - 1)%nat -> nth_error out i = Some None) /\
    ((period <= List.length prices)%nat ->
     forall i, (period - 1 <= i < List.length prices)%nat ->
       exists v, nth_error out i = Some (Some v) /\ lo <= v /\ v <= hi).
Proof.
  intros Hp Hprices.
  destruct (calculateEMA prices period) as [out|e] eqn:Hrun;
    [|unfold calculateEMA in Hrun;
      destruct (Nat.eqb_spec period 0); [lia | discriminate]].
  exists out. split; [reflexivity|].
  destruct (calculateEMA_length _ _ Hrun) as [_ Hlen]. split; [exact Hlen|].
  unfold calculateEMA in Hrun.
  destruct (Nat.eqb_spec period 0) as [E|_]; [lia|].
  assert (Hout : out =
            (repeat None (period - 1) ++
             map Some (sum (slice 0 period prices) / num period
                       :: emaLoop (2 / (num period + 1))
                            (sum (slice 0 period prices) / num period)
                            (skipn period prices)))%list)
    by (injection Hrun as <-; reflexivity).
  clear Hrun. subst out.
  split.
  - intros i Hi. rewrite nth_error_app1 by (rewrite repeat_length; exact Hi).
    apply nth_error_repeat_lt. exact Hi.
  - intros Hn i Hi.
    set (sma := sum (slice 0 period prices) / num period).
    assert (Hsma : lo <= sma /\ sma <= hi).
    { unfold sma.
      assert (Hl : List.length (slice 0 period prices) = period)
        by (rewrite slice_length by lia; lia).
      rewrite <- Hl at 2 4. apply mean_bounds.
      - intros E. rewrite E in Hl. simpl in Hl. lia.
      - apply Forall_slice, Hprices. }
    destruct (ema_multiplier_range Hp) as [Hm0 Hm1].
    pose proof (emaLoop_bounds Hm0 Hm1 (Forall_skipn period Hprices) Hsma) as Hloop.
    fold sma.
    rewrite nth_error_app2 by (rewrite repeat_length; lia).
    rewrite repeat_length, nth_error_map.
    destruct (nth_error (sma :: emaLoop (2 / (num period + 1)) sma (skipn period prices))
                        (i - (period - 1))) as [v|] eqn:Hv.
    + exists v. split; [reflexivity|].
      apply nth_error_In in Hv. destruct Hv as [<-|Hin]; [exact Hsma|].
      rewrite Forall_forall in Hloop. apply Hloop. exact Hin.
    + apply nth_error_None in Hv. cbn [List.length] in Hv.
      rewrite emaLoop_length, length_skipn in Hv. lia.
Qed.

Lemma ema_length_and_bounds_witness :
  exists out,
    calculateEMA [1; 5; 3] 2 = Ok out /\ List.length out = 3%nat.
Proof.
  destruct (@ema_length_and_bounds [1; 5; 3] 2%nat 1 5) as (out & H1 & H2 & _).
  - lia.
  - repeat constructor; simpl; lra.
  - exists out. split; [exact H1 | exact H2].
Defined.

Lemma deltasOf_length (prices : list Q) :
  List.length (deltasOf prices) = (List.length prices - 1)%nat.
Proof.
  induction prices as [|p0 [|p1 rest] IH]; try reflexivity.
  cbn [deltasOf List.length] in *. rewrite IH. lia.
Qed.

(** X3.  With more than [period] prices the RSI output is not aligned
    with the input: it has [length - period + 1] entries, the first one
    [null] and all the others numbers. *)
Theorem rsi_output_shape (prices : list Q) (period : nat) :
  (period + 1 <= List.length prices)%nat ->
  List.length (calculateRSI prices period)
    = (List.length prices - period + 1)%nat /\
  nth_error (calculateRSI prices period) 0 = Some None /\
  (forall j, (1 <= j <= List.length prices - period)%nat ->
     exists v, nth_error (calculateRSI prices period) j = Some (Some v)).
Proof.
  intros Hn. unfold calculateRSI.
  destruct (Nat.ltb_spec (List.length prices) (period + 1)) as [Hlt|_]; [lia|].
  set (gains := map gainOf (deltasOf prices)).
  set (losses := map lossOf (deltasOf prices)).
  assert (Hlen : List.length (skipn period (combine gains losses))
                 = (List.length prices - 1 - period)%nat).
  { rewrite length_skipn, length_combine. unfold gains, losses.
    rewrite !length_map, deltasOf_length. lia. }
  cbv zeta. split; [|split].
  - cbn [List.length]. rewrite rsiLoop_length, Hlen. lia.
  - reflexivity.
  - intros [|[|m]] Hj; [lia | eexists; reflexivity |].
    cbn [nth_error]. rewrite rsiLoop_nth by (rewrite Hlen; lia).
    eexists. reflexivity.
Qed.

Lemma rsi_output_shape_witness :
  List.length (calculateRSI [3; 2; 3; 4; 5] 2) = 4%nat.
Proof.
  exact (proj1 (@rsi_output_shape [3; 2; 3; 4; 5] 2%nat ltac:(simpl; lia))).
Defined.

(** ** MACD *)

Import JsValue Binance.

Lemma calculateEMA_throw (prices : list Q) (period : nat) (e : Error) :
  calculateEMA prices period = Throw e -> period = 0%nat /\ e = RangeError.
Proof.
  unfold calculateEMA. destruct (Nat.eqb_spec period 0) as [E|N]; [|discriminate].
  intros H. injection H as <-. auto.
Qed.

Lemma nonNull_length (arr : list IndicatorValue) :
  (List.length (nonNull arr) <= List.length arr)%nat.
Proof.
  induction arr as [|[x|] arr IH]; simpl; lia.
Qed.

(** X4.  [calculateMACD] throws exactly when one of the three periods is
    0 or the series has fewer than [signalPeriod] prices; otherwise its
    three arrays all have the length of the series. *)
Theorem macd_throws_or_is_aligned
        (prices : list Q) (fastPeriod slowPeriod signalPeriod : nat) :
  match calculateMACD prices fastPeriod slowPeriod signalPeriod with
  | Throw e =>
      e = RangeError /\
      (fastPeriod = 0 \/ slowPeriod = 0 \/ signalPeriod = 0 \/
       List.length prices < signalPeriod)%nat
  | Ok r =>
      (1 <= fastPeriod /\ 1 <= slowPeriod /\ 1 <= signalPeriod /\
       signalPeriod <= List.length prices)%nat /\
      List.length (MACD.macdLine r) = List.length prices /\
      List.length (MACD.signalLine r) = List.length prices /\
      List.length (MACD.histogram r) = List.length prices
  end.
Proof.
  unfold calculateMACD.
  destruct (calculateEMA prices fastPeriod) as [fastEMA|e] eqn:Hfast; cbn [bind];
    [|apply calculateEMA_throw in Hfast; destruct Hfast as [-> ->]; auto].
  apply calculateEMA_length in Hfast. destruct Hfast as [Hf _].
  destruct (calculateEMA prices slowPeriod) as [slowEMA|e] eqn:Hslow; cbn [bind];
    [|apply calculateEMA_throw in Hslow; destruct Hslow as [-> ->]; auto].
  apply calculateEMA_length in Hslow. destruct Hslow as [Hs _].
  set (macdLine := map _ (seq 0 (List.length prices))).
  assert (Hlen : List.length macdLine = List.length prices)
    by (unfold macdLine; rewrite length_map, length_seq; reflexivity).
  pose proof (nonNull_length macdLine) as Hvalid.
  destruct (calculateEMA (nonNull macdLine) signalPeriod) as [signalLine|e] eqn:Hsig;
    cbn [bind];
    [|apply calculateEMA_throw in Hsig; destruct Hsig as [-> ->]; auto 6].
  apply calculateEMA_length in Hsig. destruct Hsig as [Hg Hsiglen].
  destruct (Nat.ltb_spec (List.length macdLine) (List.length signalLine)) as [Hlt|Hge].
  - split; [reflexivity|]. right; right; right.
    unfold IndicatorValue in *. lia.
  - cbn [MACD.macdLine MACD.signalLine MACD.histogram].
    rewrite length_app, repeat_length, length_map, length_seq.
    unfold IndicatorValue in *. repeat split; lia.
Qed.

Lemma emaLoop_all_equal (multiplier c : Q) (rest : list Q) :
  Forall (fun x => x == c) rest ->
  forall last, last == c ->
    Forall (fun e => e == c) (emaLoop multiplier last rest).
Proof.
  induction 1 as [|p rest Hp Hrest IH]; intros last Hlast; simpl.
  - constructor.
  - assert (E : (p - last) * multiplier + last == c)
      by (rewrite Hp, Hlast; ring).
    constructor; [exact E|]. apply IH. exact E.
Qed.

Lemma sum_of_zeros (l : list Q) : Forall (fun x => x == 0) l -> sum l == 0.
Proof.
  induction 1 as [|x l Hx Hl IH].
  - reflexivity.
  - rewrite sum_cons, Hx, IH. ring.
Qed.

Lemma ema_of_zeros (xs : list Q) (period : nat) (out : list IndicatorValue) :
  Forall (fun x => x == 0) xs ->
  calculateEMA xs period = Ok out -> zeroWhereDefined out.
Proof.
  intros Hxs Hrun. unfold calculateEMA in Hrun.
  destruct (period =? 0)%nat; [discriminate|]. injection Hrun as <-.
  unfold zeroWhereDefined. apply Forall_app. split.
  - apply Forall_forall. intros v Hv. apply repeat_spec in Hv. subst v. exact I.
  - assert (Hseed : sum (slice 0 period xs) / num period == 0).
    { rewrite (sum_of_zeros (Forall_slice 0 period Hxs)). unfold Qdiv. ring. }
    constructor; [exact Hseed|].
    apply Forall_map.
    apply emaLoop_all_equal; [apply Forall_skipn; exact Hxs | exact Hseed].
Qed.

Lemma ema_constant_at (c : Q) (n period : nat) :
  (1 <= period)%nat -> (period <= n)%nat ->
  exists out,
    calculateEMA (repeat c n) period = Ok out /\
    forall i, (period - 1 <= i < n)%nat ->
      exists v, nth_error out i = Some (Some v) /\ v == c.
Proof.
  intros Hp Hn. unfold calculateEMA.
  destruct (Nat.eqb_spec period 0) as [E|_]; [lia|].
  eexists. split; [reflexivity|]. intros i Hi.
  pose proof (ema_constant_values c Hp Hn) as Hall.
  rewrite nth_error_app2 by (rewrite repeat_length; lia).
  rewrite repeat_length, nth_error_map.
  match goal with
  | |- context [nth_error ?l ?k] => destruct (nth_error l k) as [v|] eqn:Hv
  end.
  - exists v. split; [reflexivity|].
    rewrite Forall_forall in Hall. apply Hall. eapply nth_error_In; exact Hv.
  - apply nth_error_None in Hv. cbn [List.length] in Hv.
    rewrite emaLoop_length, length_skipn, repeat_length in Hv. lia.
Qed.

Lemma calculateEMA_last (xs : list Q) (period : nat) (out : list IndicatorValue) :
  calculateEMA xs period = Ok out ->
  exists front s, out = (front ++ [Some s])%list.
Proof.
  unfold calculateEMA. destruct (period =? 0)%nat; [discriminate|].
  intros H.
  set (sma := sum (slice 0 period xs) / num period) in *.
  set (ema := sma :: emaLoop (2 / (num period + 1)) sma (skipn period xs)) in *.
  destruct (@exists_last _ ema) as (front & s & E); [discriminate|].
  exists (repeat None (period - 1) ++ map Some front)%list, s.
  assert (Hout : out = (repeat None (period - 1) ++ map Some ema)%list)
    by (injection H as <-; reflexivity).
  rewrite Hout, E, map_app, app_assoc. reflexivity.
Qed.

Lemma padded_last (front : list (option Q)) (s : Q) (n : nat) :
  (List.length (front ++ [Some s]) <= n)%nat ->
  nth_error (repeat None (n - List.length (front ++ [Some s])) ++ front ++ [Some s])
            (n - 1) = Some (Some s).
Proof.
  rewrite length_app. cbn [List.length]. intros H.
  rewrite app_assoc, nth_error_app2 by (rewrite length_app, repeat_length; lia).
  rewrite length_app, repeat_length.
  replace (n - 1 - (n - (List.length front + 1) + List.length front))%nat
    with 0%nat by lia.
  reflexivity.
Qed.

Lemma nonNull_zero (arr : list IndicatorValue) :
  zeroWhereDefined arr -> Forall (fun x => x == 0) (nonNull arr).
Proof.
  induction 1 as [|[x|] arr Hx Harr IH]; simpl; auto.
Qed.

Lemma nth_zeroWhereDefined (arr : list IndicatorValue) (i : nat) (x : Q) :
  zeroWhereDefined arr -> nth i arr None = Some x -> x == 0.
Proof.
  intros Hz Hn. unfold zeroWhereDefined in Hz. rewrite Forall_forall in Hz.
  destruct (Nat.lt_ge_cases i (List.length arr)) as [Hlt|Hge].
  - apply (Hz (Some x)). rewrite <- Hn. apply nth_In. exact Hlt.
  - rewrite nth_overflow in Hn by exact Hge. discriminate.
Qed.

Lemma nth_error_nth_Some {A} (l : list A) (i : nat) (d a : A) :
  nth_error l i = Some a -> nth i l d = a.
Proof.
  intros H. apply nth_error_nth. exact H.
Qed.

(** X5.  On a constant series, with 1 <= fast <= slow <= length and
    1 <= signal <= length, [calculateMACD] returns normally, every number
    of the MACD line, the signal line and the histogram is 0, and each of
    the three ends with a number. *)
Theorem macd_of_constant_series (c : Q) (n fastPeriod slowPeriod signalPeriod : nat) :
  (1 <= fastPeriod)%nat -> (fastPeriod <= slowPeriod)%nat ->
  (slowPeriod <= n)%nat ->
  (1 <= signalPeriod)%nat -> (signalPeriod <= n)%nat ->
  exists r,
    calculateMACD (repeat c n) fastPeriod slowPeriod signalPeriod = Ok r /\
    zeroWhereDefined (MACD.macdLine r) /\
    zeroWhereDefined (MACD.signalLine r) /\
    zeroWhereDefined (MACD.histogram r) /\
    (exists m s h,
        nth_error (MACD.macdLine r) (n - 1) = Some (Some m) /\
        nth_error (MACD.signalLine r) (n - 1) = Some (Some s) /\
        nth_error (MACD.histogram r) (n - 1) = Some (Some h)).
Proof.
  intros Hf Hfs Hsn Hg Hgn.
  unfold calculateMACD. rewrite repeat_length.
  unfold IndicatorValue in *.
  destruct (@ema_constant_at c n fastPeriod) as (fastEMA & Hfast & Hfv); [lia | lia |].
  destruct (@ema_constant_at c n slowPeriod) as (slowEMA & Hslow & Hsv); [lia | lia |].
  rewrite Hfast, Hslow. cbn [bind].
  match goal with
  | |- context [nonNull ?line] => set (macdLine := line) in *
  end.
  assert (Hmacd : exists m, nth_error macdLine (n - 1) = Some (Some m)).
  { unfold macdLine. rewrite nth_error_map_seq by lia.
    destruct (Nat.ltb_spec (n - 1) (slowPeriod - 1)); [lia | eexists; reflexivity]. }
  assert (Hmacd0 : zeroWhereDefined macdLine).
  { unfold zeroWhereDefined, macdLine. apply Forall_map, Forall_forall.
    intros i Hi. apply in_seq in Hi.
    destruct (Nat.ltb_spec i (slowPeriod - 1)) as [_|Hge]; [exact I|].
    destruct (Hfv i) as (vf & Hvf & Ef); [lia|].
    destruct (Hsv i) as (vs & Hvs & Es); [lia|].
    unfold IndicatorValue.
    rewrite (nth_error_nth_Some _ _ None Hvf), (nth_error_nth_Some _ _ None Hvs).
    simpl. rewrite Ef, Es. ring. }
  assert (Hmlen : List.length macdLine = n)
    by (unfold macdLine; rewrite length_map, length_seq; reflexivity).
  destruct (calculateEMA (nonNull macdLine) signalPeriod) as [signalLine|e] eqn:Hsig;
    cbn [bind]; [|apply calculateEMA_throw in Hsig; lia].
  pose proof (ema_of_zeros _ (nonNull_zero Hmacd0) Hsig) as Hsig0.
  destruct (calculateEMA_length _ _ Hsig) as [_ Hsiglen].
  pose proof (nonNull_length macdLine) as Hvalid.
  unfold IndicatorValue in *.
  destruct (Nat.ltb_spec (List.length macdLine) (List.length signalLine)) as [Hlt|Hge];
    [lia|].
  set (padded := (repeat None (List.length macdLine - List.length signalLine)
                  ++ signalLine)%list) in *.
  assert (Hpad0 : zeroWhereDefined padded).
  { unfold zeroWhereDefined, padded. apply Forall_app. split; [|exact Hsig0].
    apply Forall_forall. intros v Hv. apply repeat_spec in Hv. subst v. exact I. }
  assert (Hplen : List.length padded = n)
    by (unfold padded; rewrite length_app, repeat_length; lia).
  (* the last entry of the signal line is a number *)
  assert (Hslast : exists s, nth_error padded (n - 1) = Some (Some s)).
  { destruct (calculateEMA_last _ _ Hsig) as (front & s & E). exists s.
    pose proof (@padded_last front s (List.length macdLine)) as Hlast.
    rewrite <- E in Hlast. unfold padded. rewrite <- Hmlen. apply Hlast. exact Hge. }
  eexists. split; [reflexivity|].
  cbn [MACD.macdLine MACD.signalLine MACD.histogram].
  assert (Hhist0 : zeroWhereDefined
            (map (fun i => match nth i macdLine None, nth i padded None with
                           | Some m, Some s => Some (m - s)
                           | _, _ => None
                           end) (seq 0 (List.length macdLine)))).
  { unfold zeroWhereDefined. apply Forall_map, Forall_forall. intros i _.
    destruct (nth i macdLine None) as [m|] eqn:Hm; [|exact I].
    destruct (nth i padded None) as [s|] eqn:Hs; [|exact I].
    rewrite (nth_zeroWhereDefined _ Hmacd0 Hm), (nth_zeroWhereDefined _ Hpad0 Hs).
    ring. }
  split; [exact Hmacd0|]. split; [exact Hpad0|]. split; [exact Hhist0|].
  destruct Hslast as (s & Hs). destruct Hmacd as (m & Hm).
  exists m, s. eexists. split; [exact Hm|]. split; [exact Hs|].
  rewrite Hmlen, nth_error_map_seq by lia.
  rewrite (nth_error_nth_Some _ _ None Hm), (nth_error_nth_Some _ _ None Hs).
  reflexivity.
Qed.

Lemma macd_of_constant_series_witness :
  exists r, calculateMACD (repeat 7 5) 2 3 2 = Ok r /\
            zeroWhereDefined (MACD.histogram r).
Proof.
  destruct (@macd_of_constant_series 7 5%nat 2%nat 3%nat 2%nat)
    as (r & H1 & _ & _ & H4 & _); try lia.
  exists r. split; [exact H1 | exact H4].
Defined.

(** ** Local extrema, support and resistance *)

Lemma In_slice {A} (a b : nat) (l : list A) (y : A) :
  In y (slice a b l) <->
  exists j, (a <= j < b)%nat /\ nth_error l j = Some y.
Proof.
  unfold slice. split.
  - intros H. apply In_nth_error in H. destruct H as [k Hk].
    rewrite nth_error_firstn in Hk.
    destruct (Nat.ltb_spec k (b - a)) as [Hlt|_]; [|discriminate].
    rewrite nth_error_skipn in Hk. exists (a + k)%nat. split; [lia | exact Hk].
  - intros (j & Hj & E). apply (@nth_error_In _ _ (j - a)).
    rewrite nth_error_firstn.
    destruct (Nat.ltb_spec (j - a) (b - a)) as [_|Hge]; [|lia].
    rewrite nth_error_skipn. replace (a + (j - a))%nat with j by lia. exact E.
Qed.

Lemma fold_max_lub (l : list Q) (x c : Q) :
  fold_left Qmax l x <= c <-> x <= c /\ Forall (fun y => y <= c) l.
Proof.
  revert x. induction l as [|y l IH]; intros x; simpl.
  - split; [intros H; split; [exact H | constructor] | intros [H _]; exact H].
  - rewrite IH, Q.max_lub_iff. split.
    + intros [[H1 H2] H3]. split; [exact H1 | constructor; assumption].
    + intros [H1 H2]. inversion H2; subst. auto.
Qed.

Lemma fold_min_glb (l : list Q) (x c : Q) :
  c <= fold_left Qmin l x <-> c <= x /\ Forall (fun y => c <= y) l.
Proof.
  revert x. induction l as [|y l IH]; intros x; simpl.
  - split; [intros H; split; [exact H | constructor] | intros [H _]; exact H].
  - rewrite IH, Q.min_glb_iff. split.
    + intros [[H1 H2] H3]. split; [exact H1 | constructor; assumption].
    + intros [H1 H2]. inversion H2; subst. auto.
Qed.

Lemma Math_max_lub (l : list Q) (c : Q) :
  l <> [] -> (Math_max l <= c <-> Forall (fun y => y <= c) l).
Proof.
  destruct l as [|x l]; [congruence|]. intros _. unfold Math_max.
  rewrite fold_max_lub. split.
  - intros [H1 H2]. constructor; assumption.
  - intros H. inversion H; subst. auto.
Qed.

Lemma Math_min_glb (l : list Q) (c : Q) :
  l <> [] -> (c <= Math_min l <-> Forall (fun y => c <= y) l).
Proof.
  destruct l as [|x l]; [congruence|]. intros _. unfold Math_min.
  rewrite fold_min_glb. split.
  - intros [H1 H2]. constructor; assumption.
  - intros H. inversion H; subst. auto.
Qed.

(** [c === Math.max(...l)] for a member [c] of [l]. *)
Lemma is_max_iff (l : list Q) (c : Q) :
  In c l -> (eqb c (Math_max l) = true <-> Forall (fun y => y <= c) l).
Proof.
  intros Hin. assert (Hne : l <> []) by (destruct l; [destruct Hin | discriminate]).
  unfold eqb. rewrite Qeq_bool_iff. split.
  - intros E. apply Math_max_lub; [exact Hne|]. rewrite E. apply Qle_refl.
  - intros H. apply Qle_antisym.
    + assert (Hall : Forall (fun y => y <= Math_max l) l)
        by (apply Math_max_lub; [exact Hne | apply Qle_refl]).
      rewrite Forall_forall in Hall. apply Hall, Hin.
    + apply Math_max_lub; assumption.
Qed.

Lemma is_min_iff (l : list Q) (c : Q) :
  In c l -> (eqb c (Math_min l) = true <-> Forall (fun y => c <= y) l).
Proof.
  intros Hin. assert (Hne : l <> []) by (destruct l; [destruct Hin | discriminate]).
  unfold eqb. rewrite Qeq_bool_iff. split.
  - intros E. apply Math_min_glb; [exact Hne|]. rewrite E. apply Qle_refl.
  - intros H. apply Qle_antisym.
    + apply Math_min_glb; assumption.
    + assert (Hall : Forall (fun y => Math_min l <= y) l)
        by (apply Math_min_glb; [exact Hne | apply Qle_refl]).
      rewrite Forall_forall in Hall. apply Hall, Hin.
Qed.

(** The values of the window around an index whose window lies inside
    the series. *)
Lemma window_values (data : list Q) (w i : nat) (P : Q -> Prop) :
  (w <= i)%nat -> (i + w < List.length data)%nat ->
  (Forall P (slice (i - w) (i + w + 1) data) <->
   forall j, (i - w <= j <= i + w)%nat -> P (nth j data 0)).
Proof.
  intros Hw Hi. rewrite Forall_forall. split.
  - intros H j Hj. apply H. apply In_slice. exists j. split; [lia|].
    apply nth_error_nth'. lia.
  - intros H y Hy. apply In_slice in Hy. destruct Hy as (j & Hj & E).
    rewrite <- (nth_error_nth _ _ 0 E). apply H. lia.
Qed.

Lemma center_in_window (data : list Q) (w i : nat) :
  (w <= i)%nat -> (i + w < List.length data)%nat ->
  In (nth i data 0) (slice (i - w) (i + w + 1) data).
Proof.
  intros Hw Hi. apply In_slice. exists i. split; [lia|].
  apply nth_error_nth'. lia.
Qed.

Lemma flat_map_by_index (f : nat -> list Level) (count : nat) :
  (forall i lv, In lv (f i) -> index lv = i) ->
  (forall i, List.length (f i) <= 1)%nat ->
  forall start, StronglySorted byIndex (flat_map f (seq start count)).
Proof.
  intros Hidx Hone. induction count as [|count IH]; intros start; simpl.
  - constructor.
  - specialize (IH (S start)).
    pose proof (Hone start) as Hlen. pose proof (Hidx start) as Hstart.
    destruct (f start) as [|lv [|lv' rest]]; simpl in *; [exact IH | | lia].
    constructor; [exact IH|].
    apply Forall_forall. intros x Hx. apply in_flat_map in Hx.
    destruct Hx as (k & Hk & Hxk). apply in_seq in Hk.
    unfold byIndex. rewrite (Hstart lv (or_introl eq_refl)), (Hidx k x Hxk). lia.
Qed.

(** X6.  [findLocalExtrema] reports exactly the local extrema of the
    series, ties included: an index is reported if and only if its whole
    window lies inside the series and no value of the window is beyond
    the value at the index; the reported value is the one at the index,
    and the levels come in increasing order of index. *)
Theorem local_extrema_characterised
        (data : list Q) (findMaxima : bool) (windowSize : nat) :
  (forall lv, In lv (findLocalExtrema data findMaxima windowSize) <->
              localExtremum data findMaxima windowSize (index lv) /\
              value lv = nth (index lv) data 0) /\
  StronglySorted byIndex (findLocalExtrema data findMaxima windowSize).
Proof.
  unfold findLocalExtrema. split.
  - intros lv. rewrite in_flat_map. unfold localExtremum. split.
    + intros (i & Hi & Hlv). apply in_seq in Hi.
      assert (Hw : (windowSize <= i)%nat) by lia.
      assert (Hin : (i + windowSize < List.length data)%nat) by lia.
      pose proof (center_in_window data Hw Hin) as Hc.
      destruct findMaxima.
      * destruct (eqb _ _) eqn:E; [|destruct Hlv].
        destruct Hlv as [<-|[]]. cbn [index value].
        repeat split; try lia.
        apply (proj1 (is_max_iff _ _ Hc)) in E.
        apply (proj1 (window_values data (fun y => y <= nth i data 0) Hw Hin) E).
      * destruct (eqb _ _) eqn:E; [|destruct Hlv].
        destruct Hlv as [<-|[]]. cbn [index value].
        repeat split; try lia.
        apply (proj1 (is_min_iff _ _ Hc)) in E.
        apply (proj1 (window_values data (fun y => nth i data 0 <= y) Hw Hin) E).
    + intros [(Hw & Hin & Hall) Hval]. destruct lv as [v i].
      cbn [index value] in *. subst v.
      exists i. split; [apply in_seq; lia|].
      pose proof (center_in_window data Hw Hin) as Hc.
      destruct findMaxima.
      * apply (proj2 (window_values data (fun y => y <= nth i data 0) Hw Hin)) in Hall.
        apply (proj2 (is_max_iff _ _ Hc)) in Hall. rewrite Hall. left; reflexivity.
      * apply (proj2 (window_values data (fun y => nth i data 0 <= y) Hw Hin)) in Hall.
        apply (proj2 (is_min_iff _ _ Hc)) in Hall. rewrite Hall. left; reflexivity.
  - apply flat_map_by_index.
    + intros i lv. destruct findMaxima; destruct (eqb _ _); simpl;
        intros H; try contradiction; destruct H as [<-|[]]; reflexivity.
    + intros i. destruct findMaxima; destruct (eqb _ _); simpl; lia.
Qed.

(** The output of [clusterLevels] lists the means of non-empty groups
    that partition the input. *)
Lemma clusterLevels_groups (levels : list Level) (threshold : Q) :
  exists groups : list (list Level),
    Permutation (List.concat groups) levels /\
    Forall (fun g => g <> []) groups /\
    clusterLevels levels threshold = map avgValue groups.
Proof.
  unfold clusterLevels.
  pose proof (sort_perm levels) as Hperm.
  destruct (Levels.sort levels) as [|first rest].
  - exists []. simpl. repeat split; [exact Hperm | constructor].
  - destruct (@clusterLoop_groups threshold rest [] [first]) as
        (groups & cur & E & Hcur & Hgroups & Hconcat);
      [discriminate | constructor |].
    simpl in E, Hconcat. rewrite E.
    assert (Hlen : (0 <? List.length cur)%nat = true)
      by (destruct cur; [congruence | reflexivity]).
    rewrite Hlen. exists (groups ++ [cur])%list. repeat split.
    + rewrite concat_app. simpl. rewrite app_nil_r, Hconcat. exact Hperm.
    + apply Forall_app. split; [exact Hgroups | repeat constructor; exact Hcur].
    + rewrite map_app. reflexivity.
Qed.

Lemma clusterLevels_sorted_apart (levels : list Level) (threshold : Q) :
  Forall (fun l => 0 < value l) levels ->
  StronglySorted (apart threshold) (clusterLevels levels threshold).
Proof.
  intros Hpos. unfold clusterLevels.
  pose proof (sort_perm levels) as Hperm.
  pose proof (sort_sorted levels) as Hsorted.
  destruct (Levels.sort levels) as [|first rest].
  - constructor.
  - assert (Hfirst : 0 < value first).
    { rewrite Forall_forall in Hpos. apply Hpos.
      apply (Permutation_in _ Hperm). left; reflexivity. }
    destruct (@clusterLoop_groups threshold rest [] [first]) as
        (groups & cur & E & Hcur & _ & _);
      [discriminate | constructor |].
    simpl in E.
    pose proof (@clusterLoop_apart threshold rest [] [first] (value first) first)
      as Hapart.
    rewrite E in *. cbn [fst snd] in Hapart.
    assert (Hlen : (0 <? List.length cur)%nat = true)
      by (destruct cur; [congruence | reflexivity]).
    rewrite Hlen. apply Hapart.
    + discriminate.
    + exact Hfirst.
    + intros d; reflexivity.
    + repeat constructor; lra.
    + exact Hsorted.
    + constructor.
    + constructor.
Qed.

Lemma Forall_concat {A} (P : A -> Prop) (ls : list (list A)) :
  Forall P (List.concat ls) -> Forall (Forall P) ls.
Proof.
  induction ls as [|l ls IH]; simpl; intros H; [constructor|].
  apply Forall_app in H. destruct H as [H1 H2]. constructor; auto.
Qed.

Lemma clusterLevels_bounds (levels : list Level) (threshold lo hi : Q) :
  Forall (fun l => lo <= value l /\ value l <= hi) levels ->
  Forall (fun m => lo <= m /\ m <= hi) (clusterLevels levels threshold).
Proof.
  intros Hb.
  destruct (clusterLevels_groups levels threshold) as (groups & Hperm & Hne & ->).
  assert (Hall : Forall (Forall (fun l => lo <= value l /\ value l <= hi)) groups).
  { apply Forall_concat. rewrite Forall_forall in *. intros x Hx.
    apply Hb. apply (Permutation_in _ Hperm). exact Hx. }
  apply Forall_map. rewrite Forall_forall in *. intros g Hg.
  apply avgValue_bounds; [apply Hne, Hg | apply Hall, Hg].
Qed.

Lemma StronglySorted_firstn {A} (R : A -> A -> Prop) (n : nat) (l : list A) :
  StronglySorted R l -> StronglySorted R (firstn n l).
Proof.
  intros H. revert n. induction H as [|x l Hl IH Hx]; intros [|n]; simpl;
    try constructor.
  - apply IH.
  - apply Forall_firstn. exact Hx.
Qed.

Lemma top_five {A} (R : A -> A -> Prop) (P : A -> Prop) (l : list A) :
  StronglySorted R l -> Forall P l ->
  (List.length (slice 0 5 l) <= 5)%nat /\
  StronglySorted R (slice 0 5 l) /\ Forall P (slice 0 5 l).
Proof.
  intros Hs Hp. unfold slice. simpl skipn. repeat split.
  - rewrite length_firstn. lia.
  - apply StronglySorted_firstn, Hs.
  - apply Forall_firstn, Hp.
Qed.

Lemma extrema_values_bounded (data : list Q) (findMaxima : bool) (w : nat)
      (P : Q -> Prop) :
  Forall P data -> Forall (fun l => P (value l)) (findLocalExtrema data findMaxima w).
Proof.
  intros Hd. apply Forall_forall. intros lv Hlv.
  unfold findLocalExtrema in Hlv. apply in_flat_map in Hlv.
  destruct Hlv as (i & Hi & Hlv). apply in_seq in Hi.
  assert (Hv : value lv = nth i data 0).
  { destruct findMaxima; destruct (eqb _ _); simpl in Hlv;
      try contradiction; destruct Hlv as [<-|[]]; reflexivity. }
  rewrite Hv. rewrite Forall_forall in Hd. apply Hd, nth_In. lia.
Qed.

Lemma no_extrema_in_short_series (data : list Q) (findMaxima : bool) (w : nat) :
  (List.length data <= w + w)%nat -> findLocalExtrema data findMaxima w = [].
Proof.
  intros H. unfold findLocalExtrema.
  replace (List.length data - w - w)%nat with 0%nat by lia. reflexivity.
Qed.

(** X7.  For candles whose highs and lows lie in a positive range
    [lo .. hi], [identifySupportResistance] reports at most five support
    and five resistance levels, and none with ten candles or fewer.  In
    exact arithmetic the levels come in ascending order, pairwise at
    least 1% apart (relative to the lower one), and all inside
    [lo .. hi]; on doubles a level, being a rounded mean, can lie above
    every extremum it averages (see [rounded_mean_above_its_members]). *)
Theorem support_resistance_levels (klines : list Candle) (lo hi : Q) :
  0 < lo ->
  Forall (fun k => (lo <= low k /\ low k <= hi) /\
                   (lo <= high k /\ high k <= hi)) klines ->
  let r := identifySupportResistance klines in
  ((List.length (LevelLists.support r) <= 5)%nat /\
   StronglySorted (apart defaultThreshold) (LevelLists.support r) /\
   Forall (fun v => lo <= v /\ v <= hi) (LevelLists.support r)) /\
  ((List.length (LevelLists.resistance r) <= 5)%nat /\
   StronglySorted (apart defaultThreshold) (LevelLists.resistance r) /\
   Forall (fun v => lo <= v /\ v <= hi) (LevelLists.resistance r)) /\
  ((List.length klines <= 10)%nat ->
   LevelLists.support r = [] /\ LevelLists.resistance r = []).
Proof.
  intros Hlo Hk. unfold identifySupportResistance.
  cbn [LevelLists.support LevelLists.resistance].
  assert (Hlows : Forall (fun x => lo <= x /\ x <= hi) (map low klines)).
  { apply Forall_map. eapply Forall_impl; [|exact Hk]. intros k [H _]; exact H. }
  assert (Hhighs : Forall (fun x => lo <= x /\ x <= hi) (map high klines)).
  { apply Forall_map. eapply Forall_impl; [|exact Hk]. intros k [_ H]; exact H. }
  split; [|split].
  - apply top_five.
    + apply clusterLevels_sorted_apart.
      eapply Forall_impl; [|apply (extrema_values_bounded false 5 Hlows)].
      cbv beta. intros l [H _]. lra.
    + apply clusterLevels_bounds.
      apply (extrema_values_bounded false 5 Hlows).
  - apply top_five.
    + apply clusterLevels_sorted_apart.
      eapply Forall_impl; [|apply (extrema_values_bounded true 5 Hhighs)].
      cbv beta. intros l [H _]. lra.
    + apply clusterLevels_bounds.
      apply (extrema_values_bounded true 5 Hhighs).
  - intros Hshort.
    rewrite !no_extrema_in_short_series by (rewrite length_map; lia).
    split; reflexivity.
Qed.

(** On doubles the mean of three extrema of value 0.1 is
    0.10000000000000002, above each of them. *)
Lemma rounded_mean_above_its_members :
  exists level,
    Binary64.clusterLevels
      [Binary64.mkLevel tenth 5; Binary64.mkLevel tenth 6;
       Binary64.mkLevel tenth 7] (Binary64.decimal (1 # 100)) = [level] /\
    Binary64.gtb level tenth = true.
Proof.
  exists (S754_finite false 7205759403792795 (-56)).
  split; vm_compute; reflexivity.
Qed.

Lemma support_resistance_levels_witness :
  LevelLists.resistance (identifySupportResistance flatWithPeak) = [12] /\
  (List.length (LevelLists.support (identifySupportResistance flatWithPeak)) <= 5)%nat.
Proof.
  split; [vm_compute; reflexivity|].
  refine (proj1 (proj1 (@support_resistance_levels flatWithPeak 9 12 _ _))).
  - reflexivity.
  - repeat constructor; discriminate.
Defined.

(** ** MACD on a short history *)

Lemma map_const_None {A} (f : nat -> option A) (l : list nat) :
  (forall i, In i l -> f i = None) -> map f l = repeat None (List.length l).
Proof.
  induction l as [|x l IH]; intros H; simpl; [reflexivity|].
  rewrite (H x (or_introl eq_refl)), IH; [reflexivity|].
  intros i Hi. apply H. right. exact Hi.
Qed.

Lemma nonNull_repeat_None (n : nat) : nonNull (repeat None n) = [].
Proof.
  induction n as [|n IH]; simpl; [reflexivity | exact IH].
Qed.

Lemma calculateEMA_nil (period : nat) :
  (1 <= period)%nat ->
  calculateEMA [] period = Ok (repeat None (period - 1) ++ [Some (0 / num period)]).
Proof.
  intros Hp. unfold calculateEMA.
  destruct (Nat.eqb_spec period 0) as [E|_]; [lia|].
  unfold slice. rewrite !skipn_nil, firstn_nil. reflexivity.
Qed.

(** X8.  With fewer prices than the slow period (and at least as many as
    the signal period), [calculateMACD] returns a MACD line and a
    histogram that are [null] throughout, while the signal line ends with
    the number 0, the average of an empty list of MACD values. *)
Theorem macd_of_short_history
        (prices : list Q) (fastPeriod slowPeriod signalPeriod : nat) :
  (1 <= fastPeriod)%nat -> (1 <= signalPeriod)%nat ->
  (signalPeriod <= List.length prices)%nat ->
  (List.length prices < slowPeriod)%nat ->
  exists r s,
    calculateMACD prices fastPeriod slowPeriod signalPeriod = Ok r /\
    MACD.macdLine r = repeat None (List.length prices) /\
    MACD.histogram r = repeat None (List.length prices) /\
    MACD.signalLine r = (repeat None (List.length prices - 1) ++ [Some s])%list /\
    s == 0.
Proof.
  intros Hf Hg Hgn Hns. unfold calculateMACD.
  destruct (calculateEMA prices fastPeriod) as [fastEMA|e] eqn:Hfast;
    [|apply calculateEMA_throw in Hfast; lia].
  destruct (calculateEMA prices slowPeriod) as [slowEMA|e] eqn:Hslow;
    [|apply calculateEMA_throw in Hslow; lia].
  cbn [bind].
  match goal with
  | |- context [nonNull ?line] =>
      assert (Hline : line = repeat None (List.length prices))
  end.
  { rewrite map_const_None; [rewrite length_seq; reflexivity|].
    intros i Hi. apply in_seq in Hi.
    destruct (Nat.ltb_spec i (slowPeriod - 1)); [reflexivity | lia]. }
  unfold IndicatorValue in *. rewrite Hline.
  rewrite nonNull_repeat_None, calculateEMA_nil by exact Hg. cbn [bind].
  rewrite length_app, !repeat_length. cbn [List.length].
  destruct (Nat.ltb_spec (List.length prices) (signalPeriod - 1 + 1)) as [Hlt|_];
    [lia|].
  exists (MACD.mk (repeat None (List.length prices))
                  (repeat None (List.length prices - 1) ++ [Some (0 / num signalPeriod)])
                  (repeat None (List.length prices))),
         (0 / num signalPeriod).
  split; [|repeat split; unfold Qdiv; ring].
  f_equal. f_equal.
  - rewrite app_assoc, <- repeat_app. do 2 f_equal. lia.
  - rewrite map_const_None; [rewrite length_seq; reflexivity|].
    intros i Hi. apply in_seq in Hi.
    destruct (nth i (repeat None (List.length prices)) None) eqn:E; [|reflexivity].
    exfalso.
    destruct (nth_in_or_default i (repeat (@None Q) (List.length prices)) None)
      as [Hin|Hd].
    + apply repeat_spec in Hin. congruence.
    + congruence.
Qed.

Lemma macd_of_short_history_witness :
  exists r s,
    calculateMACD [1; 2; 3; 4; 5; 6; 7; 8; 9; 10] 12 26 9 = Ok r /\
    MACD.macdLine r = repeat None 10 /\
    MACD.histogram r = repeat None 10 /\
    MACD.signalLine r = (repeat None 9 ++ [Some s])%list /\
    s == 0.
Proof.
  apply (@macd_of_short_history [1; 2; 3; 4; 5; 6; 7; 8; 9; 10] 12 26 9);
    simpl; lia.
Defined.

(** * Normalisation across exchanges and arbitrage *)

Import DataProcessing.

Lemma lastClose_spec (klines : list Candle) :
  match lastClose klines with
  | Ok p => klines <> [] /\ exists c, In c klines /\ p = close c
  | Throw e => klines = [] /\ e = TypeError "close"
  end.
Proof.
  unfold lastClose.
  destruct (nth_error klines (List.length klines - 1)) as [c|] eqn:E; simpl.
  - split; [intros ->; discriminate|]. exists c. split; [|reflexivity].
    eapply nth_error_In; exact E.
  - split; [|reflexivity]. apply nth_error_None in E.
    destruct klines; [reflexivity | simpl in E; lia].
Qed.

(** X9.  [normalizeData] throws exactly when one of the three exchanges
    has no daily candle, and then a [TypeError]; otherwise the average
    price lies between the lowest and the highest of the three prices,
    the three price deviations sum to 0 (for a non-zero average) and the
    three volume shares sum to 100 (for a non-zero total volume). *)
Theorem normalized_data_balances
        (now : Z) (binanceData bibitData kucoinData : ExchangeData.t) :
  match normalizeData now binanceData bibitData kucoinData with
  | Throw e =>
      e = TypeError "close" /\
      (ExchangeData.daily binanceData = [] \/
       ExchangeData.daily bibitData = [] \/
       ExchangeData.daily kucoinData = [])
  | Ok r =>
      let p := Normalized.prices r in
      let d := Normalized.deviations r in
      let v := Normalized.volumes r in
      (ExchangeData.daily binanceData <> [] /\
       ExchangeData.daily bibitData <> [] /\
       ExchangeData.daily kucoinData <> []) /\
      (Math_min [Prices.binance p; Prices.bibit p; Prices.kucoin p]
         <= Prices.average p /\
       Prices.average p
         <= Math_max [Prices.binance p; Prices.bibit p; Prices.kucoin p]) /\
      (~ Prices.average p == 0 ->
       PerExchange.binance d + PerExchange.bibit d + PerExchange.kucoin d == 0) /\
      (~ NormalizedVolumes.total v == 0 ->
       PerExchange.binance (NormalizedVolumes.distribution v)
       + PerExchange.bibit (NormalizedVolumes.distribution v)
       + PerExchange.kucoin (NormalizedVolumes.distribution v) == 100)
  end.
Proof.
  unfold normalizeData.
  pose proof (lastClose_spec (ExchangeData.daily binanceData)) as Hb.
  pose proof (lastClose_spec (ExchangeData.daily bibitData)) as Hy.
  pose proof (lastClose_spec (ExchangeData.daily kucoinData)) as Hk.
  destruct (lastClose (ExchangeData.daily binanceData)) as [pb|e1]; cbn [bind];
    [|destruct Hb as [-> ->]; auto].
  destruct (lastClose (ExchangeData.daily bibitData)) as [py|e2]; cbn [bind];
    [|destruct Hy as [-> ->]; auto].
  destruct (lastClose (ExchangeData.daily kucoinData)) as [pk|e3]; cbn [bind];
    [|destruct Hk as [-> ->]; auto].
  cbn [ret Normalized.prices Normalized.deviations Normalized.volumes
       Prices.binance Prices.bibit Prices.kucoin Prices.average
       PerExchange.binance PerExchange.bibit PerExchange.kucoin
       NormalizedVolumes.total NormalizedVolumes.distribution].
  cbv zeta.
  split; [destruct Hb, Hy, Hk; auto|].
  split; [|split].
  - unfold Math_min, Math_max. cbn [fold_left].
    assert (E : (pb + py + pk) / 3 * 3 == pb + py + pk) by (field; lra).
    split.
    + destruct (Q.min_spec pb py) as [[_ E1]|[_ E1]];
        destruct (Q.min_spec (Qmin pb py) pk) as [[H2 E2]|[H2 E2]];
        rewrite E2; try rewrite E1; rewrite ?E1 in H2;
        pose proof (Q.le_min_l pb py); pose proof (Q.le_min_r pb py); lra.
    + destruct (Q.max_spec pb py) as [[_ E1]|[_ E1]];
        destruct (Q.max_spec (Qmax pb py) pk) as [[H2 E2]|[H2 E2]];
        rewrite E2; try rewrite E1; rewrite ?E1 in H2;
        pose proof (Q.le_max_l pb py); pose proof (Q.le_max_r pb py); lra.
  - intros Havg. field. intros E. apply Havg. unfold Qdiv. rewrite E. ring.
  - intros Htot. field. exact Htot.
Qed.

Lemma insertByProfit_perm (a : Opportunity.t) (l : list Opportunity.t) :
  Permutation (insertByProfit a l) (a :: l).
Proof.
  induction l as [|b l IH]; simpl; [reflexivity|].
  destruct (Qle_bool _ _); [reflexivity|].
  rewrite IH. apply perm_swap.
Qed.

Lemma sortByProfit_perm (l : list Opportunity.t) : Permutation (sortByProfit l) l.
Proof.
  induction l as [|a l IH]; simpl; [reflexivity|].
  rewrite insertByProfit_perm, IH. reflexivity.
Qed.

Lemma insertByProfit_sorted (a : Opportunity.t) (l : list Opportunity.t) :
  StronglySorted byProfit l -> StronglySorted byProfit (insertByProfit a l).
Proof.
  induction 1 as [|b l Hl IH Hb]; simpl.
  - repeat constructor.
  - destruct (Qle_bool (Opportunity.potentialProfit b)
                       (Opportunity.potentialProfit a)) eqn:E.
    + apply Qle_bool_iff in E.
      constructor; [constructor; assumption|].
      constructor; [exact E|].
      eapply Forall_impl; [|exact Hb]. unfold byProfit. intros c Hc. lra.
    + assert (Hlt : Opportunity.potentialProfit a <= Opportunity.potentialProfit b).
      { destruct (Qlt_le_dec (Opportunity.potentialProfit a)
                             (Opportunity.potentialProfit b)) as [H|H]; [lra|].
        apply Qle_bool_iff in H. congruence. }
      constructor; [exact IH|].
      apply Forall_forall. intros c Hc.
      apply (Permutation_in _ (insertByProfit_perm a l)) in Hc.
      destruct Hc as [<-|Hc]; [exact Hlt|].
      rewrite Forall_forall in Hb. apply Hb. exact Hc.
Qed.

Lemma sortByProfit_sorted (l : list Opportunity.t) :
  StronglySorted byProfit (sortByProfit l).
Proof.
  induction l as [|a l IH]; simpl; [constructor | apply insertByProfit_sorted, IH].
Qed.

Lemma gtb_true_iff (a b : Q) : gtb a b = true <-> b < a.
Proof. unfold gtb. apply ltb_true_iff. Qed.

Lemma gtb_false_iff (a b : Q) : gtb a b = false <-> a <= b.
Proof.
  pose proof (gtb_true_iff a b) as H.
  destruct (gtb a b); split; intros H1; try reflexivity; try discriminate.
  - assert (b < a) by (apply H; reflexivity). lra.
  - destruct (Qlt_le_dec b a) as [Hlt|Hle]; [|exact Hle].
    apply H in Hlt. discriminate.
Qed.

(** The relative difference in percent, from a positive price [a] to a
    price [b]. *)
Lemma relative_difference (a b : Q) :
  0 < a ->
  (0 < (b - a) / a * 100 <-> a < b) /\
  ((b - a) / a * 100 < 0 <-> b < a) /\
  (Qabs ((b - a) / a * 100) <= 5 # 10 <-> withinHalfPercent a b).
Proof.
  intros Ha. unfold withinHalfPercent.
  assert (Hinv : 0 < / a) by (apply Qinv_lt_0_compat; exact Ha).
  assert (Hone : a * / a == 1) by (apply Qmult_inv_r; lra).
  assert (E : (b - a) / a * 100 == (b - a) * (100 * / a))
    by (unfold Qdiv; ring).
  rewrite E. set (ia := / a) in *.
  split; [|split].
  - split; intros H; nra.
  - split; intros H; nra.
  - rewrite Qabs_Qmult, (Qabs_pos (100 * ia)) by nra.
    pose proof (Qabs_nonneg (b - a)) as Ht. set (t := Qabs (b - a)) in *.
    split; intros H; nra.
Qed.

Lemma pushOpportunity_cases (opportunities : list Opportunity.t)
      (difference : Q) (a b : string) :
  (Qabs difference <= 5 # 10 /\
   pushOpportunity opportunities difference a b = opportunities) \/
  (5 # 10 < Qabs difference /\
   exists o,
     pushOpportunity opportunities difference a b = (opportunities ++ [o])%list /\
     Opportunity.priceDifference o = Qabs difference /\
     Opportunity.potentialProfit o = Qabs difference - (2 # 10) /\
     ((0 < difference /\ Opportunity.from o = a /\ Opportunity.to o = b) \/
      (difference < 0 /\ Opportunity.from o = b /\ Opportunity.to o = a))).
Proof.
  unfold pushOpportunity, Math_abs.
  destruct (gtb (Qabs difference) (5 # 10)) eqn:E.
  - right. apply gtb_true_iff in E. split; [exact E|].
    eexists. split; [reflexivity|]. cbn. split; [reflexivity|].
    split; [reflexivity|].
    destruct (gtb difference 0) eqn:S.
    + left. apply gtb_true_iff in S. auto.
    + right. apply gtb_false_iff in S. split; [|auto].
      destruct (Qlt_le_dec difference 0) as [Hlt|Hge]; [exact Hlt|].
      assert (Hz : difference == 0) by lra.
      rewrite Hz in E. vm_compute in E. discriminate.
  - left. apply gtb_false_iff in E. auto.
Qed.

(** X10.  For positive prices [detectArbitrageOpportunities] reports no
    opportunity exactly when the three pairs of prices are each within
    0.5% (of the first price of the pair); it reports at most three
    opportunities, by descending potential profit; and each of them goes
    from the cheaper exchange to the dearer one, names a difference above
    0.5% and a potential profit of that difference minus 0.2, hence above
    0.3. *)
Theorem arbitrage_report (n : Normalized.t) :
  0 < Prices.binance (Normalized.prices n) ->
  0 < Prices.bibit (Normalized.prices n) ->
  0 < Prices.kucoin (Normalized.prices n) ->
  (Arbitrage.found (detectArbitrageOpportunities n) = false <->
   withinHalfPercent (Prices.binance (Normalized.prices n))
                     (Prices.bibit (Normalized.prices n)) /\
   withinHalfPercent (Prices.binance (Normalized.prices n))
                     (Prices.kucoin (Normalized.prices n)) /\
   withinHalfPercent (Prices.bibit (Normalized.prices n))
                     (Prices.kucoin (Normalized.prices n))) /\
  (Arbitrage.found (detectArbitrageOpportunities n) = false <->
   Arbitrage.opportunities (detectArbitrageOpportunities n) = []) /\
  (List.length (Arbitrage.opportunities (detectArbitrageOpportunities n)) <= 3)%nat /\
  StronglySorted byProfit (Arbitrage.opportunities (detectArbitrageOpportunities n)) /\
  Forall (fun o =>
            priceOf (Normalized.prices n) (Opportunity.from o)
              < priceOf (Normalized.prices n) (Opportunity.to o) /\
            5 # 10 < Opportunity.priceDifference o /\
            Opportunity.potentialProfit o = Opportunity.priceDifference o - (2 # 10) /\
            3 # 10 < Opportunity.potentialProfit o)
         (Arbitrage.opportunities (detectArbitrageOpportunities n)).
Proof.
  intros Hb Hy Hk. unfold detectArbitrageOpportunities.
  cbn [Arbitrage.found Arbitrage.opportunities].
  set (p := Normalized.prices n) in *.
  set (P := fun o =>
              priceOf p (Opportunity.from o) < priceOf p (Opportunity.to o) /\
              5 # 10 < Opportunity.priceDifference o /\
              Opportunity.potentialProfit o = Opportunity.priceDifference o - (2 # 10) /\
              3 # 10 < Opportunity.potentialProfit o).
  destruct (relative_difference (Prices.bibit p) Hb) as (Hby1 & Hby2 & Hby3).
  destruct (relative_difference (Prices.kucoin p) Hb) as (Hbk1 & Hbk2 & Hbk3).
  destruct (relative_difference (Prices.kucoin p) Hy) as (Hyk1 & Hyk2 & Hyk3).
  set (d1 := (Prices.bibit p - Prices.binance p) / Prices.binance p * 100) in *.
  set (d2 := (Prices.kucoin p - Prices.binance p) / Prices.binance p * 100) in *.
  set (d3 := (Prices.kucoin p - Prices.bibit p) / Prices.bibit p * 100) in *.
  assert (Hnew : forall d o,
             5 # 10 < Qabs d ->
             Opportunity.priceDifference o = Qabs d ->
             Opportunity.potentialProfit o = Qabs d - (2 # 10) ->
             priceOf p (Opportunity.from o) < priceOf p (Opportunity.to o) ->
             P o).
  { intros d o Hd E1 E2 Hlt. unfold P. rewrite E1, E2.
    repeat split; try assumption; lra. }
  set (ops1 := pushOpportunity [] d1 "binance" "bibit").
  set (ops2 := pushOpportunity ops1 d2 "binance" "kucoin").
  set (ops3 := pushOpportunity ops2 d3 "bibit" "kucoin").
  assert (H1 : (List.length ops1 <= 1)%nat /\ Forall P ops1 /\
               (ops1 = [] <-> Qabs d1 <= 5 # 10)).
  { unfold ops1.
    destruct (pushOpportunity_cases [] d1 "binance" "bibit")
      as [[Hs ->]|(Hs & o & -> & E1 & E2 & Hdir)].
    - split; [simpl; lia|]. split; [constructor|]. tauto.
    - split; [simpl; lia|]. split.
      + constructor; [|constructor]. apply (Hnew d1);
          try assumption.
        destruct Hdir as [(Hd & -> & ->)|(Hd & -> & ->)];
          unfold priceOf; simpl; tauto.
      + split; [discriminate | intros; lra]. }
  destruct H1 as (L1 & F1 & N1).
  assert (H2 : (List.length ops2 <= 2)%nat /\ Forall P ops2 /\
               (ops2 = [] <-> ops1 = [] /\ Qabs d2 <= 5 # 10)).
  { unfold ops2.
    destruct (pushOpportunity_cases ops1 d2 "binance" "kucoin")
      as [[Hs ->]|(Hs & o & -> & E1 & E2 & Hdir)].
    - split; [lia|]. split; [exact F1|]. tauto.
    - split; [rewrite length_app; simpl; lia|]. split.
      + apply Forall_app. split; [exact F1|].
        constructor; [|constructor]. apply (Hnew d2);
          try assumption.
        destruct Hdir as [(Hd & -> & ->)|(Hd & -> & ->)];
          unfold priceOf; simpl; tauto.
      + split; [intros E; apply app_eq_nil in E; destruct E; discriminate
               | intros [_ H]; lra]. }
  destruct H2 as (L2 & F2 & N2).
  assert (H3 : (List.length ops3 <= 3)%nat /\ Forall P ops3 /\
               (ops3 = [] <-> ops2 = [] /\ Qabs d3 <= 5 # 10)).
  { unfold ops3.
    destruct (pushOpportunity_cases ops2 d3 "bibit" "kucoin")
      as [[Hs ->]|(Hs & o & -> & E1 & E2 & Hdir)].
    - split; [lia|]. split; [exact F2|]. tauto.
    - split; [rewrite length_app; simpl; lia|]. split.
      + apply Forall_app. split; [exact F2|].
        constructor; [|constructor]. apply (Hnew d3);
          try assumption.
        destruct Hdir as [(Hd & -> & ->)|(Hd & -> & ->)];
          unfold priceOf; simpl; tauto.
      + split; [intros E; apply app_eq_nil in E; destruct E; discriminate
               | intros [_ H]; lra]. }
  destruct H3 as (L3 & F3 & N3).
  pose proof (sortByProfit_perm ops3) as Hperm.
  assert (Hfound : (0 <? List.length ops3)%nat = false <-> ops3 = []).
  { generalize ops3. intros [|o l]; cbn; split; intros H;
      try reflexivity; discriminate. }
  split; [rewrite Hfound; tauto|].
  split.
  { rewrite Hfound. split.
    - intros E. rewrite E. reflexivity.
    - intros E. rewrite E in Hperm. apply Permutation_nil in Hperm.
      exact Hperm. }
  split; [rewrite (Permutation_length Hperm); exact L3|].
  split; [apply sortByProfit_sorted|].
  apply Forall_forall. intros o Ho. rewrite Forall_forall in F3.
  apply F3. apply (Permutation_in _ Hperm). exact Ho.
Qed.

Lemma arbitrage_report_witness :
  Arbitrage.found
    (detectArbitrageOpportunities
       (Normalized.mk "BTCUSDT" (Prices.mk 100 101 100 (301 # 3))
          (PerExchange.mk 0 0 0)
          (NormalizedVolumes.mk 1 1 1 3 (PerExchange.mk 0 0 0)) 0)) = true /\
  (List.length
     (Arbitrage.opportunities
        (detectArbitrageOpportunities
           (Normalized.mk "BTCUSDT" (Prices.mk 100 101 100 (301 # 3))
              (PerExchange.mk 0 0 0)
              (NormalizedVolumes.mk 1 1 1 3 (PerExchange.mk 0 0 0)) 0))) <= 3)%nat.
Proof.
  split; [vm_compute; reflexivity|].
  refine (proj1 (proj2 (proj2
    (@arbitrage_report
       (Normalized.mk "BTCUSDT" (Prices.mk 100 101 100 (301 # 3))
          (PerExchange.mk 0 0 0)
          (NormalizedVolumes.mk 1 1 1 3 (PerExchange.mk 0 0 0)) 0) _ _ _))));
    reflexivity.
Defined.

(** * Technical analysis *)

Import Technical.

Lemma Qmax_cases (x y : Q) : Qmax x y = x \/ Qmax x y = y.
Proof.
  unfold Qmax, GenericMinMax.gmax. destruct (x ?= y); auto.
Qed.

Lemma Qmin_cases (x y : Q) : Qmin x y = x \/ Qmin x y = y.
Proof.
  unfold Qmin, GenericMinMax.gmin. destruct (x ?= y); auto.
Qed.

Lemma fold_max_in (l : list Q) (x : Q) : In (fold_left Qmax l x) (x :: l).
Proof.
  revert x. induction l as [|y l IH]; intros x; simpl; [auto|].
  destruct (IH (Qmax x y)) as [E|H]; [|auto].
  rewrite <- E. destruct (Qmax_cases x y) as [-> | ->]; auto.
Qed.

Lemma fold_min_in (l : list Q) (x : Q) : In (fold_left Qmin l x) (x :: l).
Proof.
  revert x. induction l as [|y l IH]; intros x; simpl; [auto|].
  destruct (IH (Qmin x y)) as [E|H]; [|auto].
  rewrite <- E. destruct (Qmin_cases x y) as [-> | ->]; auto.
Qed.

Lemma Math_max_in (l : list Q) : l <> [] -> In (Math_max l) l.
Proof.
  destruct l as [|x l]; [congruence|]. intros _. apply fold_max_in.
Qed.

Lemma Math_min_in (l : list Q) : l <> [] -> In (Math_min l) l.
Proof.
  destruct l as [|x l]; [congruence|]. intros _. apply fold_min_in.
Qed.

Lemma Math_max_upper (l : list Q) (y : Q) : In y l -> y <= Math_max l.
Proof.
  intros Hin.
  assert (Hne : l <> []) by (destruct l; [destruct Hin | discriminate]).
  assert (Hall : Forall (fun y => y <= Math_max l) l)
    by (apply Math_max_lub; [exact Hne | apply Qle_refl]).
  rewrite Forall_forall in Hall. apply Hall, Hin.
Qed.

Lemma Math_min_lower (l : list Q) (y : Q) : In y l -> Math_min l <= y.
Proof.
  intros Hin.
  assert (Hne : l <> []) by (destruct l; [destruct Hin | discriminate]).
  assert (Hall : Forall (fun y => Math_min l <= y) l)
    by (apply Math_min_glb; [exact Hne | apply Qle_refl]).
  rewrite Forall_forall in Hall. apply Hall, Hin.
Qed.

Lemma ltb_false_iff (a b : Q) : ltb a b = false <-> b <= a.
Proof. apply (gtb_false_iff b a). Qed.

Lemma currentPriceOf_spec (data : MarketData.t) :
  match currentPriceOf data with
  | Ok p => MarketData.daily data <> [] /\
            exists c, In c (MarketData.daily data) /\ p = close c
  | Throw e => MarketData.daily data = [] /\ e = TypeError "close"
  end.
Proof. apply lastClose_spec. Qed.

(** The nearest level below a price: the greatest of the levels below
    it, if there is one. *)
Lemma nearest_below (levels : list Q) (price : Q) :
  let below := filter (fun level => ltb level price) levels in
  match (if (0 <? List.length below)%nat then Some (Math_max below) else None) with
  | Some s => In s levels /\ s < price /\
              forall x, In x levels -> x < price -> x <= s
  | None => forall x, In x levels -> price <= x
  end.
Proof.
  intros below.
  assert (Hbelow : forall x, In x below <-> In x levels /\ x < price).
  { intros x. unfold below. rewrite filter_In, ltb_true_iff. tauto. }
  destruct below as [|b rest] eqn:E.
  - cbn. intros x Hx.
    destruct (Qlt_le_dec x price) as [Hlt|Hge]; [|exact Hge].
    exfalso. apply (proj2 (Hbelow x)); auto.
  - cbn [List.length Nat.ltb Nat.leb]. rewrite <- E in *.
    assert (Hne : below <> []) by (rewrite E; discriminate).
    pose proof (Math_max_in Hne) as Hin. apply Hbelow in Hin.
    destruct Hin as [Hin Hlt]. repeat split; try assumption.
    intros x Hx Hxp. apply Math_max_upper. apply Hbelow. auto.
Qed.

Lemma nearest_above (levels : list Q) (price : Q) :
  let above := filter (fun level => gtb level price) levels in
  match (if (0 <? List.length above)%nat then Some (Math_min above) else None) with
  | Some r => In r levels /\ price < r /\
              forall x, In x levels -> price < x -> r <= x
  | None => forall x, In x levels -> x <= price
  end.
Proof.
  intros above.
  assert (Habove : forall x, In x above <-> In x levels /\ price < x).
  { intros x. unfold above. rewrite filter_In, gtb_true_iff. tauto. }
  destruct above as [|b rest] eqn:E.
  - cbn. intros x Hx.
    destruct (Qlt_le_dec price x) as [Hlt|Hge]; [|exact Hge].
    exfalso. apply (proj2 (Habove x)); auto.
  - cbn [List.length Nat.ltb Nat.leb]. rewrite <- E in *.
    assert (Hne : above <> []) by (rewrite E; discriminate).
    pose proof (Math_min_in Hne) as Hin. apply Habove in Hin.
    destruct Hin as [Hin Hlt]. repeat split; try assumption.
    intros x Hx Hxp. apply Math_min_lower. apply Habove. auto.
Qed.

(** X11.  [analyzeSupportsAndResistances] throws exactly when there is no
    daily candle; otherwise the current price is the close of a candle,
    the nearest support is the greatest support level strictly below the
    price ([null] when every support level is at or above it) and the
    nearest resistance is the least resistance level strictly above the
    price ([null] when every resistance level is at or below it). *)
Theorem nearest_levels_around_price (data : MarketData.t) :
  match analyzeSupportsAndResistances data with
  | Throw e => MarketData.daily data = [] /\ e = TypeError "close"
  | Ok r =>
      let levels := IndicatorSet.supportResistance (MarketData.indicators data) in
      let price := SupportResistance.currentPrice r in
      (exists c, In c (MarketData.daily data) /\ price = close c) /\
      SupportResistance.levels r = Some levels /\
      match SupportResistance.nearestSupport r with
      | Some s => In s (LevelLists.support levels) /\ s < price /\
                  forall x, In x (LevelLists.support levels) -> x < price -> x <= s
      | None => forall x, In x (LevelLists.support levels) -> price <= x
      end /\
      match SupportResistance.nearestResistance r with
      | Some s => In s (LevelLists.resistance levels) /\ price < s /\
                  forall x, In x (LevelLists.resistance levels) -> price < x -> s <= x
      | None => forall x, In x (LevelLists.resistance levels) -> x <= price
      end
  end.
Proof.
  unfold analyzeSupportsAndResistances.
  pose proof (currentPriceOf_spec data) as Hp.
  destruct (currentPriceOf data) as [price|e]; cbn [bind ret]; [|exact Hp].
  cbn [SupportResistance.currentPrice SupportResistance.levels
       SupportResistance.nearestSupport SupportResistance.nearestResistance].
  cbv zeta. split; [apply Hp|]. split; [reflexivity|]. split.
  - apply nearest_below.
  - apply nearest_above.
Qed.

(** ** Entries and stop loss around the current price *)

Lemma entry_points_shape (ta : TA) (direction : string) (entries : list Entry.t) :
  direction = "long"%string \/ direction = "short"%string ->
  determineEntryPoints ta direction = Ok entries ->
  exists price rest,
    Trade.currentPrice ta = Ok price /\
    entries = marketEntry price :: rest /\
    (List.length rest <= 2)%nat /\ Forall limitEntry rest.
Proof.
  intros [-> | ->] H; unfold determineEntryPoints in H;
    apply bind_Ok in H; destruct H as (price & Ep & H);
    cbv beta zeta in H;
    match type of H with
    | (if ?c then _ else _) = _ => change c with true in H
    | (if ?c then _ else if ?d then _ else _) = _ =>
        change c with false in H; change d with true in H
    end; cbv match in H;
    apply bind_Ok in H; destruct H as (nearest & En & H);
    apply bind_Ok in H; destruct H as (levels & El & H);
    exists price; unfold pushIf, push, ret in H;
    destruct (truthy nearest); destruct (2 <=? List.length levels)%nat;
    simpl in H; injection H as <-;
    eexists; (split; [exact Ep|]); (split; [reflexivity|]);
    (split; [simpl; lia|]); repeat constructor.
Qed.

Lemma percent_above (x price t : Q) :
  0 < price -> t * price < x * 100 -> t < x / price * 100.
Proof.
  intros Hp H.
  assert (E : x / price * 100 == (x * 100) / price) by (field; lra).
  rewrite E. apply Qlt_shift_div_l; assumption.
Qed.

Lemma truthy_Some (v : option Q) :
  truthy v = true -> exists x, v = Some x /\ numberOf v = x.
Proof.
  destruct v as [x|]; simpl; [eauto | discriminate].
Qed.

(** What the trade module reads from the result of
    [analyzeSupportsAndResistances]. *)
Lemma analysed_levels_read (data : MarketData.t) (sr : SupportResistance.t)
      (t : TechnicalAnalysis.t) :
  analyzeSupportsAndResistances data = Ok sr ->
  TechnicalAnalysis.supportResistance t = Some sr ->
  Trade.currentPrice (Some t) = Ok (SupportResistance.currentPrice sr) /\
  Trade.nearestSupport (Some t) = Ok (SupportResistance.nearestSupport sr) /\
  Trade.nearestResistance (Some t) = Ok (SupportResistance.nearestResistance sr) /\
  (exists supports, levels_support (Some t) = Ok supports) /\
  (exists resistances, levels_resistance (Some t) = Ok resistances) /\
  (forall s, SupportResistance.nearestSupport sr = Some s ->
             s < SupportResistance.currentPrice sr) /\
  (forall r, SupportResistance.nearestResistance sr = Some r ->
             SupportResistance.currentPrice sr < r).
Proof.
  intros Hrun Hsr.
  unfold Trade.currentPrice, Trade.nearestSupport, Trade.nearestResistance,
    levels_support, levels_resistance, Trade.supportResistance.
  cbn [read bind]. rewrite Hsr. cbn [read bind].
  unfold analyzeSupportsAndResistances in Hrun.
  destruct (currentPriceOf data) as [price|e]; cbn [bind ret] in Hrun;
    [|discriminate].
  injection Hrun as <-.
  cbn [SupportResistance.currentPrice SupportResistance.levels
       SupportResistance.nearestSupport SupportResistance.nearestResistance
       read bind].
  repeat split; try (eexists; reflexivity).
  - intros s Hs.
    pose proof (nearest_below
                  (LevelLists.support
                     (IndicatorSet.supportResistance (MarketData.indicators data)))
                  price) as H.
    cbv zeta in H. rewrite Hs in H. apply H.
  - intros r Hr.
    pose proof (nearest_above
                  (LevelLists.resistance
                     (IndicatorSet.supportResistance (MarketData.indicators data)))
                  price) as H.
    cbv zeta in H. rewrite Hr in H. apply H.
Qed.

(** X12.  When the support and resistance record of the technical
    analysis comes from [analyzeSupportsAndResistances] and the current
    price is positive, a long or short plan gets its entries and a stop
    loss without error; the entries start with the market entry at the
    current price, followed by at most two limit entries; the stop loss
    lies strictly below the current price for "long" and strictly above
    it for "short", and its percentage loss exceeds 2. *)
Theorem stop_loss_beyond_price
        (data : MarketData.t) (sr : SupportResistance.t)
        (t : TechnicalAnalysis.t) (direction : string) :
  analyzeSupportsAndResistances data = Ok sr ->
  TechnicalAnalysis.supportResistance t = Some sr ->
  0 < SupportResistance.currentPrice sr ->
  direction = "long"%string \/ direction = "short"%string ->
  exists rest stop,
    determineEntryPoints (Some t) direction
      = Ok (marketEntry (SupportResistance.currentPrice sr) :: rest) /\
    (List.length rest <= 2)%nat /\ Forall limitEntry rest /\
    determineStopLoss (Some t) direction
      (marketEntry (SupportResistance.currentPrice sr) :: rest) = Ok (Some stop) /\
    2 < StopLoss.percentageLoss stop /\
    (direction = "long"%string ->
     StopLoss.price stop < SupportResistance.currentPrice sr) /\
    (direction = "short"%string ->
     SupportResistance.currentPrice sr < StopLoss.price stop).
Proof.
  intros Hrun Hsr Hpos Hdir.
  destruct (analysed_levels_read data t Hrun Hsr)
    as (Hp & Hns & Hnr & (supports & Hs) & (resistances & Hr) & Hbelow & Habove).
  set (price := SupportResistance.currentPrice sr) in *.
  assert (Hentries : exists entries,
             determineEntryPoints (Some t) direction = Ok entries).
  { unfold determineEntryPoints. rewrite Hp. cbn [bind].
    destruct Hdir as [-> | ->]; cbn [streq String.eqb Ascii.eqb Bool.eqb];
      cbv beta zeta.
    - rewrite Hns, Hs. cbn [bind ret]. eexists; reflexivity.
    - rewrite Hnr, Hr. cbn [bind ret]. eexists; reflexivity. }
  destruct Hentries as (entries & He).
  destruct (entry_points_shape _ Hdir He) as (p & rest & Hp' & -> & Hlen & Hlim).
  assert (p = price) by congruence. subst p.
  exists rest.
  assert (Hmin : Math_min (map Entry.price (marketEntry price :: rest)) <= price).
  { apply Math_min_lower. left. reflexivity. }
  assert (Hmax : price <= Math_max (map Entry.price (marketEntry price :: rest))).
  { apply Math_max_upper. left. reflexivity. }
  unfold determineStopLoss. rewrite Hp. cbn [bind].
  destruct Hdir as [-> | ->]; cbn [streq String.eqb Ascii.eqb Bool.eqb];
    cbv beta zeta.
  - rewrite Hns. cbn [bind ret].
    destruct (truthy (SupportResistance.nearestSupport sr)) eqn:Et.
    + destruct (truthy_Some _ Et) as (s & Es & ->).
      specialize (Hbelow s Es).
      eexists. split; [exact He|]. split; [exact Hlen|]. split; [exact Hlim|].
      split; [reflexivity|]. cbn [StopLoss.price StopLoss.percentageLoss].
      split; [apply percent_above; [exact Hpos | lra]|].
      split; [intros _; lra | discriminate].
    + eexists. split; [exact He|]. split; [exact Hlen|]. split; [exact Hlim|].
      split; [reflexivity|]. cbn [StopLoss.price StopLoss.percentageLoss].
      split; [apply percent_above; [exact Hpos | lra]|].
      split; [intros _; lra | discriminate].
  - rewrite Hnr. cbn [bind ret].
    destruct (truthy (SupportResistance.nearestResistance sr)) eqn:Et.
    + destruct (truthy_Some _ Et) as (r & Er & ->).
      specialize (Habove r Er).
      eexists. split; [exact He|]. split; [exact Hlen|]. split; [exact Hlim|].
      split; [reflexivity|]. cbn [StopLoss.price StopLoss.percentageLoss].
      split; [apply percent_above; [exact Hpos | lra]|].
      split; [discriminate | intros _; lra].
    + eexists. split; [exact He|]. split; [exact Hlen|]. split; [exact Hlim|].
      split; [reflexivity|]. cbn [StopLoss.price StopLoss.percentageLoss].
      split; [apply percent_above; [exact Hpos | lra]|].
      split; [discriminate | intros _; lra].
Qed.

Lemma stop_loss_beyond_price_witness :
  exists rest stop,
    determineEntryPoints (Some sampleAnalysed) "long"
      = Ok (marketEntry 100 :: rest) /\
    (List.length rest <= 2)%nat /\ Forall limitEntry rest /\
    determineStopLoss (Some sampleAnalysed) "long" (marketEntry 100 :: rest)
      = Ok (Some stop) /\
    2 < StopLoss.percentageLoss stop /\
    ("long"%string = "long"%string -> StopLoss.price stop < 100) /\
    ("long"%string = "short"%string -> 100 < StopLoss.price stop).
Proof.
  apply (@stop_loss_beyond_price sampleMarket sampleLevels sampleAnalysed "long");
    [reflexivity | reflexivity | reflexivity | left; reflexivity].
Defined.

(** ** The plan as a whole *)

Lemma resolveDirection_cases (totalBullish totalBearish : Z) :
  resolveDirection totalBullish totalBearish = "long"%string \/
  resolveDirection totalBullish totalBearish = "short"%string \/
  resolveDirection totalBullish totalBearish = "neutral"%string.
Proof.
  unfold resolveDirection.
  destruct (_ && _); [auto|]. destruct (_ && _); auto.
Qed.

Lemma take_profit_shape (ta : TA) (direction : string)
      (targets : list TakeProfit.t) :
  direction = "long"%string \/ direction = "short"%string ->
  determineTakeProfitTargets ta direction = Ok targets ->
  exists front final,
    targets = (front ++ [final])%list /\
    (1 <= List.length front <= 2)%nat /\
    Forall (fun target => TakeProfit.allocation target = 3 # 10) front /\
    TakeProfit.allocation final = 4 # 10.
Proof.
  intros [-> | ->] H; unfold determineTakeProfitTargets in H;
    apply bind_Ok in H; destruct H as (price & _ & H);
    cbv beta zeta in H;
    match type of H with
    | (if ?c then _ else _) = _ => change c with true in H
    | (if ?c then _ else if ?d then _ else _) = _ =>
        change c with false in H; change d with true in H
    end; cbv match in H;
    apply bind_Ok in H; destruct H as (levels & _ & H);
    unfold pushIf, push, ret in H;
    destruct levels as [|? [|? [|? ?]]];
    simpl in H; injection H as <-;
    match goal with
    | |- exists front final, [?a; ?b; ?c] = _ /\ _ => exists [a; b], c
    | |- exists front final, [?a; ?b] = _ /\ _ => exists [a], b
    end;
    (split; [reflexivity|]); (split; [simpl; lia|]);
    (split; [repeat constructor | reflexivity]).
Qed.

Lemma stop_loss_defined (ta : TA) (direction : string) (entries : list Entry.t)
      (result : option StopLoss.t) :
  direction = "long"%string \/ direction = "short"%string ->
  determineStopLoss ta direction entries = Ok result ->
  exists stop, result = Some stop.
Proof.
  intros [-> | ->] H; unfold determineStopLoss in H;
    apply bind_Ok in H; destruct H as (price & _ & H);
    cbv beta zeta in H;
    match type of H with
    | (if ?c then _ else _) = _ => change c with true in H
    | (if ?c then _ else if ?d then _ else _) = _ =>
        change c with false in H; change d with true in H
    end; cbv match in H;
    apply bind_Ok in H; destruct H as (nearest & _ & H);
    destruct (truthy nearest); injection H as <-; eexists; reflexivity.
Qed.

Lemma leverage_range (confidence : string) (volatility : option Volatility.t)
      (leverage : Leverage.t) :
  calculateLeverage confidence volatility = Ok leverage ->
  exists n : Z, (1 <= n <= 8)%Z /\ Leverage.recommended leverage = inject_Z n.
Proof.
  unfold calculateLeverage. destruct volatility as [v|]; [|discriminate].
  cbn [read bind ret].
  destruct (streq confidence "very high");
    [|destruct (streq confidence "high");
      [|destruct (streq confidence "moderate")]];
    (destruct (streq (Volatility.level v) "low");
     [|destruct (streq (Volatility.level v) "high")]);
    intros H; injection H as <-;
    (eexists; split; [|vm_compute; reflexivity]; lia).
Qed.

Lemma reasoning_ends_with_risk (ta : TA) (sa : SA) (va : VA)
      (direction : string) (reasons : list string) :
  generateReasoning ta sa va direction = Ok reasons ->
  exists front place,
    reasons = (front ++ [("Key risk: Stop loss placed at " ++ place)%string])%list.
Proof.
  intros H. unfold generateReasoning in H. invert_bind H.
  destruct (streq direction "long");
    apply bind_Ok in H; destruct H as (nearest & _ & H);
    unfold ret, push in H; injection H as <-;
    eexists; eexists; reflexivity.
Qed.

Lemma confidence_labels (score : Z) :
  In (confidenceLevel score)
     ["very high"%string; "high"%string; "moderate"%string; "low"%string].
Proof.
  unfold confidenceLevel.
  destruct (_ >=? 7)%Z; [simpl; auto|].
  destruct (_ >=? 5)%Z; [simpl; auto|].
  destruct (_ >=? 3)%Z; simpl; auto.
Qed.

(** X13.  Whenever [generateTradeRecommendation] returns a plan, the plan
    is complete: its recommendation is the resolved direction, "long" or
    "short"; its confidence is one of the four labels; the entries start
    with the market entry at the current price, followed by at most two
    limit entries; there are two or three take-profit targets, the last
    one with four tenths of the position and the others with three
    tenths; a stop loss is present; the leverage is an integer between 1
    and 8; and the reasoning ends with the stop-loss risk warning. *)
Theorem plan_is_complete
        (now : Z) (symbol : string) (ta : TA) (sa : SA) (va : VA)
        (p : Recommendation.plan) :
  generateTradeRecommendation now symbol ta sa va = Ok (Recommendation.Plan p) ->
  Recommendation.symbol p = symbol /\
  Recommendation.analysisTimestamp p = now /\
  determineTradeDirection ta sa va = Ok (Recommendation.recommendation p) /\
  (Recommendation.recommendation p = "long"%string \/
   Recommendation.recommendation p = "short"%string) /\
  In (Recommendation.confidence p)
     ["very high"%string; "high"%string; "moderate"%string; "low"%string] /\
  (exists price rest,
      Trade.currentPrice ta = Ok price /\
      Recommendation.entries p = marketEntry price :: rest /\
      (List.length rest <= 2)%nat /\ Forall limitEntry rest) /\
  (exists front final,
      Recommendation.takeProfitTargets p = (front ++ [final])%list /\
      (1 <= List.length front <= 2)%nat /\
      Forall (fun target => TakeProfit.allocation target = 3 # 10) front /\
      TakeProfit.allocation final = 4 # 10) /\
  (exists stop, Recommendation.stopLoss p = Some stop) /\
  (exists n : Z, (1 <= n <= 8)%Z /\
                 Leverage.recommended (Recommendation.leverage p) = inject_Z n) /\
  (exists front place,
      Recommendation.reasoning p =
      (front ++ [("Key risk: Stop loss placed at " ++ place)%string])%list).
Proof.
  unfold generateTradeRecommendation, try_catch.
  destruct (tryBlock now symbol ta sa va) as [r|e] eqn:Hbody;
    [|unfold catchBlock, ret; discriminate].
  intros H. injection H as ->.
  unfold tryBlock in Hbody.
  apply bind_Ok in Hbody. destruct Hbody as (direction & Hdir & H).
  assert (Hcases : direction = "long"%string \/ direction = "short"%string \/
                   direction = "neutral"%string).
  { unfold determineTradeDirection in Hdir.
    apply bind_Ok in Hdir. destruct Hdir as (votes & _ & Hdir).
    injection Hdir as <-. apply resolveDirection_cases. }
  assert (Hside : direction = "long"%string \/ direction = "short"%string).
  { destruct Hcases as [E|[E|E]]; auto.
    subst direction. discriminate. }
  assert (Hneutral : streq direction "neutral" = false)
    by (destruct Hside as [-> | ->]; reflexivity).
  rewrite Hneutral in H.
  apply bind_Ok in H. destruct H as (confidence & Hconf & H).
  apply bind_Ok in H. destruct H as (entries & Hentries & H).
  apply bind_Ok in H. destruct H as (targets & Htargets & H).
  apply bind_Ok in H. destruct H as (stop & Hstop & H).
  apply bind_Ok in H. destruct H as (vol & _ & H).
  apply bind_Ok in H. destruct H as (leverage & Hlev & H).
  apply bind_Ok in H. destruct H as (reasoning & Hreason & H).
  apply bind_Ok in H. destruct H as (ts & _ & H).
  apply bind_Ok in H. destruct H as (ss & _ & H).
  apply bind_Ok in H. destruct H as (vs & _ & H).
  injection H as <-.
  cbn [Recommendation.symbol Recommendation.analysisTimestamp
       Recommendation.recommendation Recommendation.confidence
       Recommendation.entries Recommendation.takeProfitTargets
       Recommendation.stopLoss Recommendation.leverage Recommendation.reasoning].
  split; [reflexivity|]. split; [reflexivity|]. split; [exact Hdir|].
  split; [exact Hside|]. split.
  { unfold calculateConfidence in Hconf.
    apply bind_Ok in Hconf. destruct Hconf as (score & _ & Hconf).
    injection Hconf as <-. apply confidence_labels. }
  split; [exact (entry_points_shape _ Hside Hentries)|].
  split; [exact (take_profit_shape _ Hside Htargets)|].
  split; [exact (stop_loss_defined _ _ Hside Hstop)|].
  split; [exact (leverage_range _ _ Hlev)|].
  exact (reasoning_ends_with_risk _ _ _ _ Hreason).
Qed.

Lemma plan_is_complete_witness :
  exists p,
    generateTradeRecommendation 0 "BTCUSDT" sampleTechnical sampleSentiment
      sampleVolume = Ok (Recommendation.Plan p) /\
    (Recommendation.recommendation p = "long"%string \/
     Recommendation.recommendation p = "short"%string).
Proof.
  eexists. split; [vm_compute; reflexivity|].
  refine (proj1 (proj2 (proj2 (proj2
    (@plan_is_complete 0%Z "BTCUSDT"%string sampleTechnical sampleSentiment
       sampleVolume _ _))))).
  vm_compute. reflexivity.
Defined.

(** ** The indicator set by length of history *)

Lemma last_as_nth_error {A} (l : list A) (d : A) :
  l <> [] -> nth_error l (List.length l - 1) = Some (List.last l d).
Proof.
  induction l as [|x l IH]; intros Hne; [congruence|].
  destruct l as [|y l]; [reflexivity|].
  specialize (IH ltac:(discriminate)).
  cbn [List.length] in *. replace (S (S (List.length l)) - 1)%nat
    with (S (S (List.length l) - 1)) by lia.
  cbn [nth_error]. rewrite IH. reflexivity.
Qed.

Lemma lastElement_at (arr : list (option Q)) (v : option Q) :
  nth_error arr (List.length arr - 1) = Some v ->
  lastElement arr = match v with Some q => Num q | None => Null end.
Proof.
  intros H. unfold lastElement.
  assert (Hne : map Some arr <> []).
  { destruct arr; [destruct (List.length [] - 1)%nat; discriminate | discriminate]. }
  pose proof (last_as_nth_error None Hne) as E.
  rewrite length_map, nth_error_map, H in E. cbn in E.
  injection E as <-. reflexivity.
Qed.

Lemma lastElement_definedFrom (threshold : nat) (arr : list (option Q)) :
  arr <> [] ->
  (forall v, nth_error arr (List.length arr - 1) = Some v ->
             if (List.length arr <? threshold)%nat then v = None
             else exists q, v = Some q) ->
  definedFrom threshold (List.length arr) (lastElement arr).
Proof.
  intros Hne H. unfold definedFrom.
  pose proof (last_as_nth_error None Hne) as E.
  rewrite (lastElement_at _ E). specialize (H _ E).
  destruct (List.length arr <? threshold)%nat.
  - rewrite H. reflexivity.
  - destruct H as [q ->]. eauto.
Qed.

Lemma sma_last (data : list Q) (period : nat) :
  data <> [] ->
  definedFrom period (List.length data)
              (lastElement (calculateMovingAverages data period)).
Proof.
  intros Hne.
  assert (Hn : (1 <= List.length data)%nat)
    by (destruct data; [congruence | simpl; lia]).
  assert (Hlen : List.length (calculateMovingAverages data period) = List.length data).
  { unfold calculateMovingAverages. rewrite length_map, length_seq. reflexivity. }
  unfold IndicatorValue in *.
  rewrite <- Hlen. apply lastElement_definedFrom.
  - intros E. rewrite E in Hlen. simpl in Hlen. lia.
  - intros v Hv. rewrite Hlen in *. rewrite sma_at in Hv by lia.
    injection Hv as <-.
    destruct (Nat.ltb_spec (List.length data) period);
      destruct (Nat.ltb_spec (List.length data - 1) (period - 1));
      try lia; [reflexivity | eauto].
Qed.

Lemma rsi_last (prices : list Q) (period : nat) :
  prices <> [] ->
  definedFrom (period + 1) (List.length prices)
              (lastElement (calculateRSI prices period)).
Proof.
  intros Hne.
  assert (Hn : (1 <= List.length prices)%nat)
    by (destruct prices; [congruence | simpl; lia]).
  unfold definedFrom, calculateRSI.
  destruct (Nat.ltb_spec (List.length prices) (period + 1)) as [Hlt|Hge].
  - assert (E : nth_error (repeat (@None Q) (List.length prices))
                          (List.length (repeat (@None Q) (List.length prices)) - 1)
                = Some None)
      by (rewrite repeat_length; apply nth_error_repeat_lt; lia).
    exact (lastElement_at _ E).
  - set (gl := skipn period (combine (map gainOf (deltasOf prices))
                                     (map lossOf (deltasOf prices)))).
    assert (Hlen : List.length gl = (List.length prices - 1 - period)%nat).
    { unfold gl. rewrite length_skipn, length_combine, !length_map, deltasOf_length.
      lia. }
    cbv zeta. fold gl.
    match goal with
    | |- exists q, lastElement (None :: Some ?first :: rsiLoop ?p ?g ?l gl) = _ =>
        set (arr := None :: Some first :: rsiLoop p g l gl);
        assert (Hv : exists q, nth_error arr (List.length arr - 1) = Some (Some q))
    end.
    { unfold arr. cbn [List.length]. rewrite rsiLoop_length.
      destruct (List.length gl) as [|m] eqn:Eg.
      - eexists. reflexivity.
      - replace (S (S (S m)) - 1)%nat with (S (S m)) by lia.
        cbn [nth_error]. rewrite rsiLoop_nth by lia. eexists. reflexivity. }
    destruct Hv as [q Hq]. exists q. apply (lastElement_at _ Hq).
Qed.

(** The last entries of the three MACD arrays. *)
Lemma macd_last_entries (prices : list Q) (fastPeriod slowPeriod signalPeriod : nat) :
  (1 <= fastPeriod)%nat -> (1 <= slowPeriod)%nat ->
  (1 <= signalPeriod)%nat -> (signalPeriod <= List.length prices)%nat ->
  exists r,
    calculateMACD prices fastPeriod slowPeriod signalPeriod = Ok r /\
    definedFrom slowPeriod (List.length prices) (lastElement (MACD.macdLine r)) /\
    (exists s, lastElement (MACD.signalLine r) = Num s) /\
    definedFrom slowPeriod (List.length prices) (lastElement (MACD.histogram r)).
Proof.
  intros Hf Hs Hg Hgn. unfold calculateMACD.
  destruct (calculateEMA prices fastPeriod) as [fastEMA|e] eqn:Hfast;
    [|apply calculateEMA_throw in Hfast; lia].
  destruct (calculateEMA prices slowPeriod) as [slowEMA|e] eqn:Hslow;
    [|apply calculateEMA_throw in Hslow; lia].
  cbn [bind]. unfold IndicatorValue in *.
  match goal with
  | |- context [nonNull ?line] => set (macdLine := line) in *
  end.
  set (n := List.length prices) in *.
  assert (Hmlen : List.length macdLine = n)
    by (unfold macdLine; rewrite length_map, length_seq; reflexivity).
  assert (Hmacd : nth_error macdLine (n - 1) =
                  Some (if (n <? slowPeriod)%nat then None
                        else Some (nullAsZero (nth (n - 1) fastEMA None)
                                   - nullAsZero (nth (n - 1) slowEMA None)))).
  { unfold macdLine. rewrite nth_error_map_seq by lia.
    destruct (Nat.ltb_spec (n - 1) (slowPeriod - 1));
      destruct (Nat.ltb_spec n slowPeriod); try lia; reflexivity. }
  destruct (calculateEMA (nonNull macdLine) signalPeriod) as [signalLine|e] eqn:Hsig;
    cbn [bind]; [|apply calculateEMA_throw in Hsig; lia].
  destruct (calculateEMA_length _ _ Hsig) as [_ Hsiglen].
  pose proof (nonNull_length macdLine) as Hvalid.
  unfold IndicatorValue in *.
  destruct (Nat.ltb_spec (List.length macdLine) (List.length signalLine)) as [Hlt|Hge];
    [lia|].
  set (padded := (repeat None (List.length macdLine - List.length signalLine)
                  ++ signalLine)%list) in *.
  assert (Hplen : List.length padded = n)
    by (unfold padded; rewrite length_app, repeat_length; lia).
  assert (Hslast : exists s, nth_error padded (n - 1) = Some (Some s)).
  { destruct (calculateEMA_last _ _ Hsig) as (front & s & E). exists s.
    pose proof (@padded_last front s (List.length macdLine)) as Hlast.
    rewrite <- E in Hlast. unfold padded. rewrite <- Hmlen. apply Hlast. exact Hge. }
  destruct Hslast as (s & Hslast).
  eexists. split; [reflexivity|].
  cbn [MACD.macdLine MACD.signalLine MACD.histogram].
  split; [|split].
  - rewrite <- Hmlen in Hmacd. rewrite (lastElement_at _ Hmacd).
    unfold definedFrom. rewrite Hmlen.
    destruct (n <? slowPeriod)%nat; [reflexivity | eauto].
  - exists s. rewrite <- Hplen in Hslast. apply (lastElement_at _ Hslast).
  - match goal with
    | |- definedFrom _ _ (lastElement ?h) =>
        assert (Hh : nth_error h (List.length h - 1) =
                     Some (if (n <? slowPeriod)%nat then None
                           else Some (nullAsZero (nth (n - 1) fastEMA None)
                                      - nullAsZero (nth (n - 1) slowEMA None) - s)))
    end.
    { rewrite length_map, length_seq, Hmlen. rewrite nth_error_map_seq by lia.
      rewrite (nth_error_nth _ _ None Hmacd), (nth_error_nth _ _ None Hslast).
      destruct (n <? slowPeriod)%nat; reflexivity. }
    rewrite (lastElement_at _ Hh). unfold definedFrom.
    destruct (n <? slowPeriod)%nat; [reflexivity | eauto].
Qed.

Lemma macd_needs_signal_history
      (prices : list Q) (fastPeriod slowPeriod signalPeriod : nat) :
  (List.length prices < signalPeriod)%nat ->
  calculateMACD prices fastPeriod slowPeriod signalPeriod = Throw RangeError.
Proof.
  intros Hshort. unfold calculateMACD.
  destruct (calculateEMA prices fastPeriod) as [fastEMA|e] eqn:Hfast; cbn [bind];
    [|apply calculateEMA_throw in Hfast; destruct Hfast as [_ ->]; reflexivity].
  destruct (calculateEMA prices slowPeriod) as [slowEMA|e] eqn:Hslow; cbn [bind];
    [|apply calculateEMA_throw in Hslow; destruct Hslow as [_ ->]; reflexivity].
  match goal with
  | |- context [nonNull ?line] => set (macdLine := line) in *
  end.
  assert (Hmlen : List.length macdLine = List.length prices)
    by (unfold macdLine; rewrite length_map, length_seq; reflexivity).
  destruct (calculateEMA (nonNull macdLine) signalPeriod) as [signalLine|e] eqn:Hsig;
    cbn [bind];
    [|apply calculateEMA_throw in Hsig; destruct Hsig as [_ ->]; reflexivity].
  destruct (calculateEMA_length _ _ Hsig) as [_ Hsiglen].
  unfold IndicatorValue in *.
  destruct (Nat.ltb_spec (List.length macdLine) (List.length signalLine)) as [_|Hge];
    [reflexivity | lia].
Qed.

(** With at least 9 daily candles the indicator set is computed, and its
    last values are [null] or numbers by the length of the history. *)
Lemma indicators_of_history (dailyKlines : list Candle) :
  (9 <= List.length dailyKlines)%nat ->
  exists ind,
    calculateIndicators dailyKlines = Ok ind /\
    definedFrom 20 (List.length dailyKlines) (SmaLast.sma20 (IndicatorSet.sma ind)) /\
    definedFrom 50 (List.length dailyKlines) (SmaLast.sma50 (IndicatorSet.sma ind)) /\
    definedFrom 200 (List.length dailyKlines) (SmaLast.sma200 (IndicatorSet.sma ind)) /\
    definedFrom 15 (List.length dailyKlines) (IndicatorSet.rsi ind) /\
    definedFrom 26 (List.length dailyKlines)
                (MacdLast.macdLine (IndicatorSet.macd ind)) /\
    (exists s, MacdLast.signalLine (IndicatorSet.macd ind) = Num s) /\
    definedFrom 26 (List.length dailyKlines)
                (MacdLast.histogram (IndicatorSet.macd ind)) /\
    IndicatorSet.supportResistance ind = identifySupportResistance dailyKlines.
Proof.
  intros Hlong. unfold calculateIndicators.
  set (closes := map close dailyKlines).
  assert (Hlen : List.length closes = List.length dailyKlines)
    by (unfold closes; apply length_map).
  destruct (@macd_last_entries closes 12 26 9) as (r & Hrun & Hm & Hs & Hh);
    try lia.
  rewrite Hrun. cbn [bind ret]. eexists. split; [reflexivity|].
  cbn [IndicatorSet.sma IndicatorSet.rsi IndicatorSet.macd
       IndicatorSet.supportResistance SmaLast.sma20 SmaLast.sma50
       SmaLast.sma200 MacdLast.macdLine MacdLast.signalLine MacdLast.histogram].
  assert (Hne : closes <> []).
  { intros E. rewrite E in Hlen. simpl in Hlen. lia. }
  rewrite <- Hlen.
  split; [apply sma_last; exact Hne|].
  split; [apply sma_last; exact Hne|].
  split; [apply sma_last; exact Hne|].
  split; [apply (rsi_last 14 Hne)|].
  split; [exact Hm|]. split; [exact Hs|]. split; [exact Hh|]. reflexivity.
Qed.

(** X14.  [calculateIndicators] throws (a [RangeError], from the MACD
    signal line) exactly when there are fewer than 9 daily candles.
    Otherwise each last value it stores is [null] or a number according
    to the length of the history alone: the simple moving averages are
    numbers from 20, 50 and 200 candles on, the RSI from 15 on, the MACD
    line and histogram from 26 on, and the MACD signal line always. *)
Theorem indicators_by_history (dailyKlines : list Candle) :
  match calculateIndicators dailyKlines with
  | Throw e => e = RangeError /\ (List.length dailyKlines < 9)%nat
  | Ok ind =>
      let n := List.length dailyKlines in
      (9 <= n)%nat /\
      definedFrom 20 n (SmaLast.sma20 (IndicatorSet.sma ind)) /\
      definedFrom 50 n (SmaLast.sma50 (IndicatorSet.sma ind)) /\
      definedFrom 200 n (SmaLast.sma200 (IndicatorSet.sma ind)) /\
      definedFrom 15 n (IndicatorSet.rsi ind) /\
      definedFrom 26 n (MacdLast.macdLine (IndicatorSet.macd ind)) /\
      (exists s, MacdLast.signalLine (IndicatorSet.macd ind) = Num s) /\
      definedFrom 26 n (MacdLast.histogram (IndicatorSet.macd ind)) /\
      IndicatorSet.supportResistance ind = identifySupportResistance dailyKlines
  end.
Proof.
  destruct (Nat.lt_ge_cases (List.length dailyKlines) 9) as [Hshort|Hlong].
  - unfold calculateIndicators.
    rewrite macd_needs_signal_history by (rewrite length_map; lia).
    cbn [bind]. split; [reflexivity | exact Hshort].
  - destruct (indicators_of_history dailyKlines Hlong) as (ind & -> & Hfacts).
    cbv zeta. split; [exact Hlong | exact Hfacts].
Qed.

(** X15.  With 9 to 25 daily candles the MACD condition of
    [analyzeMomentum] is "neutral" whatever the prices, because the last
    MACD value and histogram value are [null]; with 9 to 14 candles the
    RSI is [null] as well, which counts as below 30: the RSI condition is
    "oversold" and the overall momentum "bullish". *)
Theorem momentum_of_short_history (dailyKlines : list Candle) :
  (9 <= List.length dailyKlines)%nat -> (List.length dailyKlines < 26)%nat ->
  exists ind,
    calculateIndicators dailyKlines = Ok ind /\
    MomentumAnalysis.macdCondition
      (analyzeMomentum (MarketData.mk dailyKlines ind)) = "neutral"%string /\
    ((List.length dailyKlines <= 14)%nat ->
     MomentumAnalysis.rsiCondition
       (analyzeMomentum (MarketData.mk dailyKlines ind)) = "oversold"%string /\
     MomentumAnalysis.overallMomentum
       (analyzeMomentum (MarketData.mk dailyKlines ind)) = "bullish"%string).
Proof.
  intros Hlong Hshort.
  destruct (indicators_of_history dailyKlines Hlong)
    as (ind & Hrun & _ & _ & _ & Hrsi & Hline & (s & Hsig) & Hhist & _).
  exists ind. split; [exact Hrun|].
  unfold definedFrom in Hline, Hhist, Hrsi.
  destruct (Nat.ltb_spec (List.length dailyKlines) 26) as [_|Hge]; [|lia].
  unfold analyzeMomentum.
  cbn [MarketData.indicators MomentumAnalysis.macdCondition
       MomentumAnalysis.rsiCondition MomentumAnalysis.overallMomentum].
  rewrite Hline, Hsig, Hhist.
  assert (Hmacd : (if vgt Null (Num s) && vgt Null (Num 0) then "bullish"%string
                   else if vlt Null (Num s) && vlt Null (Num 0) then "bearish"%string
                   else "neutral"%string) = "neutral"%string).
  { change (vgt Null (Num 0)) with false. change (vlt Null (Num 0)) with false.
    rewrite !andb_false_r. reflexivity. }
  split; [exact Hmacd|].
  intros H14.
  destruct (Nat.ltb_spec (List.length dailyKlines) 15) as [_|Hge]; [|lia].
  rewrite Hrsi, Hmacd. split; reflexivity.
Qed.

Lemma momentum_of_short_history_witness :
  exists ind,
    calculateIndicators (repeat (mkCandle 10 11 9 10 1) 9) = Ok ind /\
    MomentumAnalysis.overallMomentum
      (analyzeMomentum (MarketData.mk (repeat (mkCandle 10 11 9 10 1) 9) ind))
    = "bullish"%string.
Proof.
  destruct (@momentum_of_short_history (repeat (mkCandle 10 11 9 10 1) 9))
    as (ind & Hrun & _ & H); [simpl; lia | simpl; lia |].
  exists ind. split; [exact Hrun|]. apply H. simpl. lia.
Defined.

(** X16.  With 9 to 199 daily candles and a positive last close, the
    200-day average is [null], which counts as 0 in the comparison: the
    price is reported above it, and the moving-average trend is never
    "bullish" nor "strongly bearish"; with fewer than 20 candles it is
    "strongly bullish" whatever the prices. *)
Theorem moving_average_trend_of_short_history (dailyKlines : list Candle) :
  (9 <= List.length dailyKlines)%nat -> (List.length dailyKlines < 200)%nat ->
  Forall (fun k => 0 < close k) dailyKlines ->
  exists ind ma,
    calculateIndicators dailyKlines = Ok ind /\
    analyzeMovingAverages (MarketData.mk dailyKlines ind) = Ok ma /\
    MovingAverageAnalysis.aboveSma200 ma = true /\
    MovingAverageAnalysis.maTrend ma <> "bullish"%string /\
    MovingAverageAnalysis.maTrend ma <> "strongly bearish"%string /\
    ((List.length dailyKlines < 20)%nat ->
     MovingAverageAnalysis.maTrend ma = "strongly bullish"%string).
Proof.
  intros Hlong Hshort Hpos.
  destruct (indicators_of_history dailyKlines Hlong)
    as (ind & Hrun & H20 & H50 & H200 & _).
  exists ind. unfold analyzeMovingAverages.
  pose proof (currentPriceOf_spec (MarketData.mk dailyKlines ind)) as Hp.
  destruct (currentPriceOf (MarketData.mk dailyKlines ind)) as [price|e];
    cbn [MarketData.daily] in Hp.
  2:{ destruct Hp as [E _]. rewrite E in Hlong. simpl in Hlong. lia. }
  destruct Hp as (_ & c & Hc & ->).
  assert (Hprice : 0 < close c).
  { rewrite Forall_forall in Hpos. apply Hpos, Hc. }
  cbn [bind ret MarketData.indicators]. eexists. split; [exact Hrun|].
  split; [reflexivity|].
  cbn [MovingAverageAnalysis.aboveSma200 MovingAverageAnalysis.maTrend].
  unfold definedFrom in H20, H50, H200.
  destruct (Nat.ltb_spec (List.length dailyKlines) 200) as [_|Hge]; [|lia].
  rewrite H200.
  assert (Habove : vgt (Num (close c)) Null = true).
  { unfold vgt, vlt. cbn [toNumber]. apply ltb_true_iff. exact Hprice. }
  rewrite Habove. split; [reflexivity|].
  split; [|split].
  - destruct (vgt (Num (close c)) (SmaLast.sma20 (IndicatorSet.sma ind)));
      destruct (vgt (Num (close c)) (SmaLast.sma50 (IndicatorSet.sma ind)));
      cbn; discriminate.
  - destruct (vgt (Num (close c)) (SmaLast.sma20 (IndicatorSet.sma ind)));
      destruct (vgt (Num (close c)) (SmaLast.sma50 (IndicatorSet.sma ind)));
      cbn; discriminate.
  - intros Hn.
    destruct (Nat.ltb_spec (List.length dailyKlines) 20) as [_|Hge]; [|lia].
    destruct (Nat.ltb_spec (List.length dailyKlines) 50) as [_|Hge]; [|lia].
    rewrite H20, H50, Habove. reflexivity.
Qed.

Lemma moving_average_trend_of_short_history_witness :
  exists ind ma,
    calculateIndicators (repeat (mkCandle 10 11 9 10 1) 9) = Ok ind /\
    analyzeMovingAverages (MarketData.mk (repeat (mkCandle 10 11 9 10 1) 9) ind)
      = Ok ma /\
    MovingAverageAnalysis.maTrend ma = "strongly bullish"%string.
Proof.
  destruct (@moving_average_trend_of_short_history (repeat (mkCandle 10 11 9 10 1) 9))
    as (ind & ma & Hrun & Hma & _ & _ & _ & H);
    [simpl; lia | simpl; lia | repeat constructor |].
  exists ind, ma. split; [exact Hrun|]. split; [exact Hma|]. apply H. simpl. lia.
Defined.

(** ** Market structure *)

Lemma flat_map_nil {A B} (f : A -> list B) (l : list A) :
  (forall x, In x l -> f x = []) -> flat_map f l = [].
Proof.
  induction l as [|x l IH]; intros H; simpl; [reflexivity|].
  rewrite (H x (or_introl eq_refl)), IH; [reflexivity|].
  intros y Hy. apply H. right. exact Hy.
Qed.

Lemma no_turns_in_monotone (values : list Q) :
  monotone values ->
  localTurns gtb values = [] /\ localTurns ltb values = [].
Proof.
  intros Hmono. unfold localTurns.
  split; apply flat_map_nil; intros i Hi; apply in_seq in Hi;
    match goal with
    | |- (if ?a && ?b then _ else _) = _ =>
        assert (Hfalse : a && b = false); [|rewrite Hfalse; reflexivity]
    end;
    apply andb_false_iff.
  - destruct Hmono as [Hup|Hdown].
    + right. apply gtb_false_iff. apply Hup. lia.
    + left. apply gtb_false_iff.
      specialize (Hdown (i - 1)%nat).
      replace (i - 1 + 1)%nat with i in Hdown by lia. apply Hdown. lia.
  - destruct Hmono as [Hup|Hdown].
    + left. apply ltb_false_iff.
      specialize (Hup (i - 1)%nat).
      replace (i - 1 + 1)%nat with i in Hup by lia. apply Hup. lia.
    + right. apply ltb_false_iff. apply Hdown. lia.
Qed.

(** X17.  When the highs of the last ten daily candles never fall or
    never rise from one candle to the next, or the lows do so, there are
    no two turning points to compare, and [analyzeMarketStructure]
    reports "ranging": a market that rises or falls steadily is never
    classified as "uptrend" or "downtrend". *)
Theorem steady_market_is_ranging (data : MarketData.t) :
  monotone (map high (sliceLast 10 (MarketData.daily data))) \/
  monotone (map low (sliceLast 10 (MarketData.daily data))) ->
  MarketStructure.structure (analyzeMarketStructure data) = "ranging"%string.
Proof.
  intros Hmono. unfold analyzeMarketStructure, checkHigherHighsLows,
    checkLowerHighsLows.
  cbn [MarketStructure.structure]. cbv zeta.
  assert (Hfew :
            (List.length (localTurns gtb (map high (sliceLast 10 (MarketData.daily data))))
               <? 2)%nat
            || (List.length (localTurns ltb (map low (sliceLast 10 (MarketData.daily data))))
                  <? 2)%nat = true).
  { destruct Hmono as [H|H]; apply no_turns_in_monotone in H.
    - destruct H as [-> _]. reflexivity.
    - destruct H as [_ ->]. apply orb_true_r. }
  rewrite Hfew. reflexivity.
Qed.

Lemma steady_market_is_ranging_witness :
  MarketStructure.structure
    (analyzeMarketStructure
       (MarketData.mk
          (map (fun p => mkCandle p (p + 1) (p - 1) p 1) [10; 11; 12; 13; 14; 15])
          (IndicatorSet.mk (SmaLast.mk Null Null Null) Null
             (MacdLast.mk Null Null Null) (LevelLists.mk [] []))))
  = "ranging"%string.
Proof.
  apply steady_market_is_ranging. left. left.
  intros i Hi. cbn in Hi.
  do 5 (destruct i as [|i]; [cbn; discriminate|]). lia.
Defined.

(** * Volume analysis *)

Import Volume.

Lemma share_nonneg (v total : Q) : 0 <= v -> 0 < total -> 0 <= v / total * 100.
Proof.
  intros Hv Ht.
  assert (H : 0 <= v / total) by (apply Qle_shift_div_l; lra).
  lra.
Qed.

(** X18.  When the three 24-hour volumes are non-negative and not all
    zero, the three shares of [analyzeVolumeDistribution] sum to 100; the
    dominant percentage is the share of the dominant exchange and at
    least each of the three shares, so it lies between 100/3 and 100; and
    the concentration is "high" exactly above 70 and "low" exactly below
    40. *)
Theorem dominant_exchange_share (binanceData bibitData kucoinData : VolumeData.t) :
  0 <= last24hVolume (VolumeData.hourly binanceData) ->
  0 <= last24hVolume (VolumeData.hourly bibitData) ->
  0 <= last24hVolume (VolumeData.hourly kucoinData) ->
  0 < last24hVolume (VolumeData.hourly binanceData)
      + last24hVolume (VolumeData.hourly bibitData)
      + last24hVolume (VolumeData.hourly kucoinData) ->
  let r := analyzeVolumeDistribution binanceData bibitData kucoinData in
  Distribution.binancePercentage r + Distribution.bibitPercentage r
    + Distribution.kucoinPercentage r == 100 /\
  (Distribution.binancePercentage r <= Distribution.dominantPercentage r /\
   Distribution.bibitPercentage r <= Distribution.dominantPercentage r /\
   Distribution.kucoinPercentage r <= Distribution.dominantPercentage r) /\
  (100 # 3 <= Distribution.dominantPercentage r /\
   Distribution.dominantPercentage r <= 100) /\
  ((Distribution.dominantExchange r = "binance"%string /\
    Distribution.dominantPercentage r = Distribution.binancePercentage r) \/
   (Distribution.dominantExchange r = "bibit"%string /\
    Distribution.dominantPercentage r = Distribution.bibitPercentage r) \/
   (Distribution.dominantExchange r = "kucoin"%string /\
    Distribution.dominantPercentage r = Distribution.kucoinPercentage r)) /\
  (Distribution.concentrationClassification r = "high"%string <->
   70 < Distribution.dominantPercentage r) /\
  (Distribution.concentrationClassification r = "low"%string <->
   Distribution.dominantPercentage r < 40).
Proof.
  intros Hb Hy Hk Htotal r. subst r. unfold analyzeVolumeDistribution.
  set (vb := last24hVolume (VolumeData.hourly binanceData)) in *.
  set (vy := last24hVolume (VolumeData.hourly bibitData)) in *.
  set (vk := last24hVolume (VolumeData.hourly kucoinData)) in *.
  pose proof (share_nonneg Hb Htotal) as Hpb.
  pose proof (share_nonneg Hy Htotal) as Hpy.
  pose proof (share_nonneg Hk Htotal) as Hpk.
  assert (Hsum : vb / (vb + vy + vk) * 100 + vy / (vb + vy + vk) * 100
                 + vk / (vb + vy + vk) * 100 == 100) by (field; lra).
  set (pb := vb / (vb + vy + vk) * 100) in *.
  set (py := vy / (vb + vy + vk) * 100) in *.
  set (pk := vk / (vb + vy + vk) * 100) in *.
  cbv zeta.
  destruct (gtb py pb) eqn:E1;
    [apply gtb_true_iff in E1 | apply gtb_false_iff in E1];
    match goal with
    | |- context [gtb pk ?d] =>
        destruct (gtb pk d) eqn:E2;
        [apply gtb_true_iff in E2 | apply gtb_false_iff in E2]
    end;
    cbn [Distribution.binancePercentage Distribution.bibitPercentage
         Distribution.kucoinPercentage Distribution.dominantPercentage
         Distribution.dominantExchange Distribution.concentrationClassification];
    (split; [exact Hsum|]);
    (split; [repeat split; lra|]);
    (split; [split; lra|]);
    (split; [auto|]);
    match goal with
    | |- context [gtb ?d 70] =>
        destruct (gtb d 70) eqn:E3;
        [apply gtb_true_iff in E3 | apply gtb_false_iff in E3];
        [|destruct (ltb d 40) eqn:E4;
          [apply ltb_true_iff in E4 | apply ltb_false_iff in E4]]
    end;
    split; split; intros H; try discriminate; try reflexivity; lra.
Qed.

Lemma dominant_exchange_share_witness :
  Distribution.dominantExchange
    (analyzeVolumeDistribution
       (VolumeData.mk [mkCandle 1 2 1 2 10] [] None (OrderBook.mk [] [] 0 0))
       (VolumeData.mk [mkCandle 1 2 1 2 30] [] None (OrderBook.mk [] [] 0 0))
       (VolumeData.mk [mkCandle 1 2 1 2 10] [] None (OrderBook.mk [] [] 0 0)))
  = "bibit"%string /\
  Distribution.binancePercentage
    (analyzeVolumeDistribution
       (VolumeData.mk [mkCandle 1 2 1 2 10] [] None (OrderBook.mk [] [] 0 0))
       (VolumeData.mk [mkCandle 1 2 1 2 30] [] None (OrderBook.mk [] [] 0 0))
       (VolumeData.mk [mkCandle 1 2 1 2 10] [] None (OrderBook.mk [] [] 0 0)))
  + Distribution.bibitPercentage
    (analyzeVolumeDistribution
       (VolumeData.mk [mkCandle 1 2 1 2 10] [] None (OrderBook.mk [] [] 0 0))
       (VolumeData.mk [mkCandle 1 2 1 2 30] [] None (OrderBook.mk [] [] 0 0))
       (VolumeData.mk [mkCandle 1 2 1 2 10] [] None (OrderBook.mk [] [] 0 0)))
  + Distribution.kucoinPercentage
    (analyzeVolumeDistribution
       (VolumeData.mk [mkCandle 1 2 1 2 10] [] None (OrderBook.mk [] [] 0 0))
       (VolumeData.mk [mkCandle 1 2 1 2 30] [] None (OrderBook.mk [] [] 0 0))
       (VolumeData.mk [mkCandle 1 2 1 2 10] [] None (OrderBook.mk [] [] 0 0)))
  == 100.
Proof.
  split; [vm_compute; reflexivity|].
  refine (proj1 (@dominant_exchange_share
    (VolumeData.mk [mkCandle 1 2 1 2 10] [] None (OrderBook.mk [] [] 0 0))
    (VolumeData.mk [mkCandle 1 2 1 2 30] [] None (OrderBook.mk [] [] 0 0))
    (VolumeData.mk [mkCandle 1 2 1 2 10] [] None (OrderBook.mk [] [] 0 0))
    _ _ _ _)); vm_compute; congruence.
Defined.

Lemma fold_volume_shift (klines : list Candle) (acc : Q) :
  fold_left (fun sum k => sum + volume k) klines acc
  == acc + fold_left (fun sum k => sum + volume k) klines 0.
Proof.
  revert acc. induction klines as [|k klines IH]; intros acc; simpl.
  - ring.
  - rewrite (IH (acc + volume k)), (IH (0 + volume k)). ring.
Qed.

Lemma splitVolume_spec (klines : list Candle) :
  Forall (fun k => 0 <= volume k) klines ->
  forall buyVolume sellVolume,
    let result := splitVolume klines buyVolume sellVolume in
    fst result + snd result
      == buyVolume + sellVolume
         + fold_left (fun sum k => sum + volume k) klines 0 /\
    buyVolume <= fst result /\ sellVolume <= snd result /\
    (Forall (fun k => close k <= open k) klines -> fst result = buyVolume) /\
    (Forall (fun k => open k < close k) klines -> snd result = sellVolume).
Proof.
  induction 1 as [|k klines Hk Hrest IH]; intros buyVolume sellVolume; cbv zeta.
  - simpl. repeat split; try lra; try ring.
  - cbn [splitVolume fold_left]. rewrite (fold_volume_shift klines (0 + volume k)).
    destruct (gtb (close k) (open k)) eqn:E.
    + apply gtb_true_iff in E.
      destruct (IH (buyVolume + volume k) sellVolume) as (H1 & H2 & H3 & H4 & H5).
      split; [rewrite H1; ring|]. split; [lra|]. split; [exact H3|]. split.
      * intros Hred. inversion Hred; subst. lra.
      * intros Hgreen. inversion Hgreen; subst. auto.
    + apply gtb_false_iff in E.
      destruct (IH buyVolume (sellVolume + volume k)) as (H1 & H2 & H3 & H4 & H5).
      split; [rewrite H1; ring|]. split; [exact H2|]. split; [lra|]. split.
      * intros Hred. inversion Hred; subst. auto.
      * intros Hgreen. inversion Hgreen; subst. lra.
Qed.

(** X19.  Without recent trades, [analyzeBuySellRatio] splits the volume
    of the last 24 hourly candles (taken non-negative) into a buy and a
    sell part; in exact arithmetic the two add up to the whole, and the
    ratio times the sell part is the buy part when the sell part is not
    0 (on doubles both hold up to rounding only, see
    [ratio_times_sell_on_doubles]).  When the sell part is 0 the ratio
    is the buy volume itself: with green candles only, the pressure is
    "buying" exactly when the 24-hour volume exceeds 1.2.  With no green
    candle the buy part is 0 and the pressure is "selling". *)
Theorem candle_pressure (data : VolumeData.t) :
  VolumeData.recentTrades data = None ->
  Forall (fun k => 0 <= volume k) (sliceLast 24 (VolumeData.hourly data)) ->
  let r := analyzeBuySellRatio data in
  BuySell.approximated r = true /\
  BuySell.pressureClassification r = pressureOf (BuySell.ratio r) /\
  (0 <= BuySell.buyVolume r /\ 0 <= BuySell.sellVolume r /\
   BuySell.buyVolume r + BuySell.sellVolume r
     == last24hVolume (VolumeData.hourly data)) /\
  (~ BuySell.sellVolume r == 0 ->
   BuySell.ratio r * BuySell.sellVolume r == BuySell.buyVolume r) /\
  (Forall (fun k => open k < close k) (sliceLast 24 (VolumeData.hourly data)) ->
   BuySell.ratio r == last24hVolume (VolumeData.hourly data) /\
   (BuySell.pressureClassification r = "buying"%string <->
    12 # 10 < last24hVolume (VolumeData.hourly data))) /\
  (Forall (fun k => close k <= open k) (sliceLast 24 (VolumeData.hourly data)) ->
   BuySell.ratio r == 0 /\
   BuySell.pressureClassification r = "selling"%string).
Proof.
  intros Hnone Hvol r. subst r. unfold analyzeBuySellRatio. rewrite Hnone.
  unfold last24hVolume.
  set (recent := sliceLast 24 (VolumeData.hourly data)) in *.
  destruct (splitVolume_spec Hvol 0 0) as (Hsum & Hbuy & Hsell & Hred & Hgreen).
  cbv zeta in Hsum, Hbuy, Hsell, Hred, Hgreen.
  destruct (splitVolume recent 0 0) as [buyVolume sellVolume].
  cbn [fst snd] in *.
  cbn [BuySell.approximated BuySell.pressureClassification BuySell.buyVolume
       BuySell.sellVolume BuySell.ratio].
  split; [reflexivity|]. split; [reflexivity|].
  split; [repeat split; try assumption; rewrite Hsum; ring|].
  split; [|split].
  - intros Hnz.
    destruct (eqb sellVolume 0) eqn:E;
      [apply Qeq_bool_iff in E; contradiction|].
    field. exact Hnz.
  - intros Hall. specialize (Hgreen Hall). subst sellVolume.
    change (eqb 0 0) with true. cbv iota.
    assert (Hratio : buyVolume / 1
                     == fold_left (fun sum k => sum + volume k) recent 0).
    { assert (E1 : buyVolume / 1 == buyVolume) by field. lra. }
    split; [exact Hratio|].
    unfold pressureOf.
    destruct (gtb (buyVolume / 1) (12 # 10)) eqn:E.
    + apply gtb_true_iff in E. rewrite <- Hratio. split; auto.
    + apply gtb_false_iff in E. rewrite <- Hratio.
      destruct (ltb (buyVolume / 1) (8 # 10));
        split; intros H; try discriminate; lra.
  - intros Hall. specialize (Hred Hall). subst buyVolume.
    assert (Hratio : 0 / (if eqb sellVolume 0 then 1 else sellVolume) == 0)
      by (unfold Qdiv; ring).
    split; [exact Hratio|].
    unfold pressureOf.
    destruct (gtb _ (12 # 10)) eqn:E1;
      [apply gtb_true_iff in E1; rewrite Hratio in E1; lra|].
    destruct (ltb _ (8 # 10)) eqn:E2; [reflexivity|].
    apply ltb_false_iff in E2. rewrite Hratio in E2. lra.
Qed.

(** On doubles, a green candle of volume 1 and a red one of volume 49
    give the ratio 1/49 rounded, and that ratio times the sell volume is
    0.9999999999999999, not the buy volume 1. *)
Lemma ratio_times_sell_on_doubles :
  let r := Binary64.analyzeBuySellRatio greenAndRed in
  Binary64.buyVolume r = Binary64.one /\
  Binary64.sellVolume r = Binary64.ofZ 49 /\
  Binary64.mul (Binary64.ratio r) (Binary64.sellVolume r) = justBelowOne.
Proof. repeat split; vm_compute; reflexivity. Qed.

Lemma candle_pressure_witness :
  BuySell.pressureClassification
    (analyzeBuySellRatio
       (VolumeData.mk [mkCandle 1 2 1 2 (1 # 2); mkCandle 2 3 2 3 (1 # 2)] []
          None (OrderBook.mk [] [] 0 0)))
  = pressureOf 1.
Proof.
  refine (proj1 (proj2 (@candle_pressure
    (VolumeData.mk [mkCandle 1 2 1 2 (1 # 2); mkCandle 2 3 2 3 (1 # 2)] []
       None (OrderBook.mk [] [] 0 0)) eq_refl _))).
  repeat constructor; discriminate.
Defined.

Lemma volumeLevels_spec (volumeThreshold : Q) (P : VolumeLevel.t -> Prop)
      (orders : list Order.t) :
  (forall order volume,
      In order orders -> volumeThreshold < volume ->
      P (VolumeLevel.mk (Order.price order) volume)) ->
  forall cumulativeVolume levels,
    Forall P levels ->
    Forall P (volumeLevels volumeThreshold orders cumulativeVolume levels).
Proof.
  induction orders as [|order rest IH]; intros HP cumulativeVolume levels Hlevels;
    simpl; [exact Hlevels|].
  assert (HP' : forall order volume,
             In order rest -> volumeThreshold < volume ->
             P (VolumeLevel.mk (Order.price order) volume))
    by (intros o v Ho; apply HP; right; exact Ho).
  destruct (gtb (cumulativeVolume + Order.quantity order) volumeThreshold) eqn:E.
  - apply gtb_true_iff in E. apply IH; [exact HP'|].
    apply Forall_app. split; [exact Hlevels|].
    constructor; [|constructor]. apply HP; [left; reflexivity | exact E].
  - apply IH; assumption.
Qed.

(** X20.  [analyzeVolumeAtPrice] reports at most three support and three
    resistance levels; each carries the price of an order of its side of
    the book and a cumulative volume strictly above a tenth of the total
    bid volume, on the ask side as well; and when the ask volume is
    positive the classification is "strong support" exactly when the bid
    volume exceeds 1.5 times the ask volume and "strong resistance"
    exactly when it is below 0.67 times the ask volume. *)
Theorem volume_walls (data : VolumeData.t) :
  let r := analyzeVolumeAtPrice data in
  let book := VolumeData.orderBook data in
  ((List.length (AtPrice.supportLevels r) <= 3)%nat /\
   Forall (fun level =>
             OrderBook.bidSum book * (1 # 10) < VolumeLevel.volume level /\
             exists bid, In bid (OrderBook.bids book) /\
                         VolumeLevel.price level = Order.price bid)
          (AtPrice.supportLevels r)) /\
  ((List.length (AtPrice.resistanceLevels r) <= 3)%nat /\
   Forall (fun level =>
             OrderBook.bidSum book * (1 # 10) < VolumeLevel.volume level /\
             exists ask, In ask (OrderBook.asks book) /\
                         VolumeLevel.price level = Order.price ask)
          (AtPrice.resistanceLevels r)) /\
  (0 < OrderBook.askSum book ->
   (AtPrice.volumeWallClassification r = "strong support"%string <->
    (15 # 10) * OrderBook.askSum book < OrderBook.bidSum book) /\
   (AtPrice.volumeWallClassification r = "strong resistance"%string <->
    OrderBook.bidSum book < (67 # 100) * OrderBook.askSum book)).
Proof.
  intros r book. subst r. unfold analyzeVolumeAtPrice.
  cbn [AtPrice.supportLevels AtPrice.resistanceLevels
       AtPrice.volumeWallClassification].
  fold book.
  split; [|split].
  - split; [unfold slice; rewrite length_firstn; lia|].
    apply Forall_slice. apply volumeLevels_spec; [|constructor].
    intros order volume Hin Hvol. cbn [VolumeLevel.volume VolumeLevel.price].
    split; [exact Hvol | exists order; auto].
  - split; [unfold slice; rewrite length_firstn; lia|].
    apply Forall_slice. apply volumeLevels_spec; [|constructor].
    intros order volume Hin Hvol. cbn [VolumeLevel.volume VolumeLevel.price].
    split; [exact Hvol | exists order; auto].
  - intros Hask.
    set (bid := OrderBook.bidSum book). set (ask := OrderBook.askSum book) in *.
    assert (Hup : forall t, t < bid / ask <-> t * ask < bid).
    { intros t. split; intros H.
      - apply (Qmult_lt_compat_r _ _ ask) in H; [|exact Hask].
        assert (E : bid / ask * ask == bid) by (field; lra). lra.
      - apply Qlt_shift_div_l; assumption. }
    assert (Hdown : forall t, bid / ask < t <-> bid < t * ask).
    { intros t. split; intros H.
      - apply (Qmult_lt_compat_r _ _ ask) in H; [|exact Hask].
        assert (E : bid / ask * ask == bid) by (field; lra). lra.
      - apply Qlt_shift_div_r; assumption. }
    destruct (gtb (bid / ask) (15 # 10)) eqn:E1.
    + apply gtb_true_iff, Hup in E1.
      split; split; intros H; try reflexivity; try discriminate; try exact E1.
      lra.
    + apply gtb_false_iff in E1.
      assert (H15 : ~ (15 # 10) * ask < bid).
      { intros H. apply Hup in H. lra. }
      destruct (ltb (bid / ask) (67 # 100)) eqn:E2.
      * apply ltb_true_iff, Hdown in E2.
        split; split; intros H; try reflexivity; try discriminate;
          try exact E2; contradiction.
      * apply ltb_false_iff in E2.
        assert (H67 : ~ bid < (67 # 100) * ask).
        { intros H. apply Hdown in H. lra. }
        split; split; intros H; try discriminate; contradiction.
Qed.

(** * Indicators of the other exchanges *)

Import Exchanges.

(** X21.  [calculateMomentum] returns one entry per price, [null] below
    index [period]; on positive prices every later entry is a positive
    number, above 1 exactly when the price is above the price [period]
    steps earlier, and equal to 1 exactly when the two prices are equal. *)
Theorem momentum_compares_prices (prices : list Q) (period : nat) :
  Forall (fun p => 0 < p) prices ->
  List.length (calculateMomentum prices period) = List.length prices /\
  forall i, (i < List.length prices)%nat ->
    if (i <? period)%nat
    then nth_error (calculateMomentum prices period) i = Some None
    else exists v,
        nth_error (calculateMomentum prices period) i = Some (Some v) /\
        0 < v /\
        (1 < v <-> nth (i - period) prices 0 < nth i prices 0) /\
        (v == 1 <-> nth (i - period) prices 0 == nth i prices 0).
Proof.
  intros Hpos. unfold calculateMomentum. split.
  - rewrite length_map, length_seq. reflexivity.
  - intros i Hi. rewrite nth_error_map_seq by exact Hi.
    destruct (Nat.ltb_spec i period) as [Hlt|Hge]; [reflexivity|].
    eexists. split; [reflexivity|].
    rewrite Forall_forall in Hpos.
    assert (Hnow : 0 < nth i prices 0) by (apply Hpos, nth_In; lia).
    assert (Hthen : 0 < nth (i - period) prices 0) by (apply Hpos, nth_In; lia).
    set (now := nth i prices 0) in *. set (before := nth (i - period) prices 0) in *.
    assert (E : now / before * before == now) by (field; lra).
    split; [apply Qlt_shift_div_l; lra|]. split; split; intros H.
    + apply (Qmult_lt_compat_r _ _ before) in H; [lra | exact Hthen].
    + apply Qlt_shift_div_l; lra.
    + rewrite H in E. lra.
    + rewrite <- H. field. lra.
Qed.

Lemma momentum_compares_prices_witness :
  List.length (calculateMomentum [10; 11; 12] 2) = 3%nat.
Proof.
  refine (proj1 (@momentum_compares_prices [10; 11; 12] 2%nat _)).
  repeat constructor.
Defined.

Lemma trueRangesAfter_spec (klines : list Candle) :
  forall previous,
    Forall2 (fun k tr => high k - low k <= tr /\ 0 <= tr)
            klines (trueRangesAfter previous klines).
Proof.
  induction klines as [|k rest IH]; intros previous; cbn [trueRangesAfter];
    constructor.
  - unfold Math_abs, Math_max. cbn [fold_left].
    pose proof (Qabs_nonneg (high k - close previous)) as H1.
    pose proof (Q.le_max_l (Qmax (high k - low k) (Qabs (high k - close previous)))
                           (Qabs (low k - close previous))) as H2.
    pose proof (Q.le_max_l (high k - low k) (Qabs (high k - close previous))) as H3.
    pose proof (Q.le_max_r (high k - low k) (Qabs (high k - close previous))) as H4.
    split; lra.
  - apply IH.
Qed.

Lemma trueRangesOf_spec (klines : list Candle) :
  Forall (fun k => low k <= high k) klines ->
  Forall2 (fun k tr => high k - low k <= tr /\ 0 <= tr) klines (trueRangesOf klines).
Proof.
  intros H. destruct klines as [|k rest]; simpl; constructor.
  - inversion H; subst. split; lra.
  - apply trueRangesAfter_spec.
Qed.

Lemma Forall2_skipn {A B} (R : A -> B -> Prop) (n : nat) (l1 : list A) (l2 : list B) :
  Forall2 R l1 l2 -> Forall2 R (skipn n l1) (skipn n l2).
Proof.
  intros H. revert n. induction H as [|x y l1 l2 Hxy Hl IH]; intros [|n]; simpl;
    try constructor; auto.
Qed.

Lemma Forall2_firstn {A B} (R : A -> B -> Prop) (n : nat) (l1 : list A) (l2 : list B) :
  Forall2 R l1 l2 -> Forall2 R (firstn n l1) (firstn n l2).
Proof.
  intros H. revert n. induction H as [|x y l1 l2 Hxy Hl IH]; intros [|n]; simpl;
    try constructor; auto.
Qed.

Lemma sum_ranges (klines : list Candle) (ranges : list Q) :
  Forall2 (fun k tr => high k - low k <= tr /\ 0 <= tr) klines ranges ->
  sum (map (fun k => high k - low k) klines) <= sum ranges /\ 0 <= sum ranges.
Proof.
  induction 1 as [|k tr klines ranges [H1 H2] Hrest [IH1 IH2]].
  - unfold sum. simpl. lra.
  - cbn [map]. rewrite !sum_cons. lra.
Qed.

(** X22.  For a period of at least 1 and candles whose high is not below
    their low, [calculateATR] returns one entry per candle, [null] below
    index [period - 1]; every later entry is a non-negative number, at
    least the mean high-low range of the same [period] candles. *)
Theorem atr_dominates_mean_range (klines : list Candle) (period : nat) :
  (1 <= period)%nat ->
  Forall (fun k => low k <= high k) klines ->
  List.length (calculateATR klines period) = List.length klines /\
  forall i, (i < List.length klines)%nat ->
    if (i <? period - 1)%nat
    then nth_error (calculateATR klines period) i = Some None
    else exists v,
        nth_error (calculateATR klines period) i = Some (Some v) /\
        0 <= v /\
        sum (slice (i + 1 - period) (i + 1) (map (fun k => high k - low k) klines))
          / num period <= v.
Proof.
  intros Hp Hk. unfold calculateATR. cbv zeta.
  pose proof (trueRangesOf_spec Hk) as Hranges.
  assert (Hlen : List.length (trueRangesOf klines) = List.length klines)
    by (symmetry; apply (Forall2_length Hranges)).
  rewrite Hlen. split; [rewrite length_map, length_seq; reflexivity|].
  intros i Hi. rewrite nth_error_map_seq by exact Hi.
  destruct (Nat.ltb_spec i (period - 1)) as [Hlt|Hge]; [reflexivity|].
  eexists. split; [reflexivity|].
  assert (Hwindow : Forall2 (fun k tr => high k - low k <= tr /\ 0 <= tr)
                      (slice (i + 1 - period) (i + 1) klines)
                      (slice (i + 1 - period) (i + 1) (trueRangesOf klines)))
    by (unfold slice; apply Forall2_firstn, Forall2_skipn, Hranges).
  destruct (sum_ranges Hwindow) as [Hsum Hnonneg].
  assert (Hmap : slice (i + 1 - period) (i + 1) (map (fun k => high k - low k) klines)
                 = map (fun k => high k - low k)
                       (slice (i + 1 - period) (i + 1) klines)).
  { unfold slice. rewrite skipn_map, firstn_map. reflexivity. }
  rewrite Hmap.
  pose proof (num_period_ge_1 Hp) as Hnum.
  split.
  - apply Qle_shift_div_l; lra.
  - apply Qle_shift_div_l; [lra|].
    assert (E : sum (map (fun k => high k - low k)
                         (slice (i + 1 - period) (i + 1) klines))
                / num period * num period
                == sum (map (fun k => high k - low k)
                            (slice (i + 1 - period) (i + 1) klines)))
      by (field; lra).
    lra.
Qed.

Lemma atr_dominates_mean_range_witness :
  List.length (calculateATR [mkCandle 10 12 9 11 1; mkCandle 11 15 11 14 1] 2)
  = 2%nat.
Proof.
  refine (proj1 (@atr_dominates_mean_range
                   [mkCandle 10 12 9 11 1; mkCandle 11 15 11 14 1] 2%nat _ _)).
  - lia.
  - repeat constructor; discriminate.
Defined.

(** * Sentiment analysis *)

Import Sentiment.

Lemma string_length_append (a b : string) :
  String.length (a ++ b) = (String.length a + String.length b)%nat.
Proof.
  induction a as [|c a IH]; simpl; [reflexivity | rewrite IH; reflexivity].
Qed.

Lemma string_append_assoc (a b c : string) :
  ((a ++ b) ++ c = a ++ (b ++ c))%string.
Proof.
  induction a as [|x a IH]; simpl; [reflexivity | rewrite IH; reflexivity].
Qed.

Lemma substring_whole (s : string) : substring 0 (String.length s) s = s.
Proof.
  induction s as [|c s IH]; simpl; [reflexivity | rewrite IH; reflexivity].
Qed.

Lemma substring_append_skip (a b : string) (m : nat) :
  substring (String.length a) m (a ++ b) = substring 0 m b.
Proof.
  induction a as [|c a IH]; simpl; [reflexivity | exact IH].
Qed.

Lemma substring_append_take (a b : string) :
  substring 0 (String.length a) (a ++ b) = a.
Proof.
  induction a as [|c a IH]; simpl.
  - destruct b; reflexivity.
  - rewrite IH. reflexivity.
Qed.

Lemma substring_split (s : string) (k : nat) :
  (k <= String.length s)%nat ->
  (substring 0 k s ++ substring k (String.length s - k) s)%string = s.
Proof.
  revert k. induction s as [|c s IH]; intros [|k] Hk; simpl in *; try lia.
  - reflexivity.
  - rewrite substring_whole. reflexivity.
  - rewrite IH by lia. reflexivity.
Qed.

Lemma endsWith_iff (s suffix : string) :
  endsWith s suffix = true <-> exists front, s = (front ++ suffix)%string.
Proof.
  unfold endsWith. split.
  - destruct (Nat.leb_spec (String.length suffix) (String.length s)) as [Hle|_];
      [|discriminate].
    intros E. apply String.eqb_eq in E.
    exists (substring 0 (String.length s - String.length suffix) s).
    pose proof (@substring_split s (String.length s - String.length suffix)%nat) as Hs.
    replace (String.length s - (String.length s - String.length suffix))%nat
      with (String.length suffix) in Hs by lia.
    rewrite E in Hs. symmetry. apply Hs. lia.
  - intros [front ->]. rewrite string_length_append.
    destruct (Nat.leb_spec (String.length suffix)
                           (String.length front + String.length suffix)); [|lia].
    replace (String.length front + String.length suffix - String.length suffix)%nat
      with (String.length front) by lia.
    rewrite substring_append_skip, substring_whole. apply String.eqb_refl.
Qed.

Lemma list_of_append (a b : string) :
  list_ascii_of_string (a ++ b)
  = (list_ascii_of_string a ++ list_ascii_of_string b)%list.
Proof.
  induction a as [|c a IH]; simpl; [reflexivity | rewrite IH; reflexivity].
Qed.

(** A symbol that ends with one quote currency and is tested against
    another one: the test is decided by the last characters. *)
Ltac decide_suffix :=
  match goal with
  | |- match (if endsWith ?s ?other then _ else _) with
       | Some _ => _
       | None => _
       end = _ =>
      let E := fresh "E" in
      let front := fresh "front" in
      destruct (endsWith s other) eqn:E;
      [apply endsWith_iff in E; destruct E as [front E];
       apply (f_equal list_ascii_of_string) in E;
       rewrite !list_of_append in E;
       apply (f_equal (@List.rev Ascii.ascii)) in E;
       rewrite !rev_app_distr in E; simpl in E;
       try discriminate E
      | cbv iota]
  end.

Lemma base_before_quote (base quote : string) :
  substring 0 (String.length (base ++ quote) - String.length quote) (base ++ quote)
  = base.
Proof.
  rewrite string_length_append.
  replace (String.length base + String.length quote - String.length quote)%nat
    with (String.length base) by lia.
  apply substring_append_take.
Qed.

Lemma endsWith_own_quote (base quote : string) :
  endsWith (base ++ quote) quote = true.
Proof. apply endsWith_iff. exists base. reflexivity. Qed.

(** X23.  [extractBaseCurrency] gives back the base currency of a symbol
    formed with the quote USDT, USD, USDC, BTC or ETH, whatever the base;
    but the quote BUSD is never recognised, because USD is tried first:
    for a symbol formed with BUSD the result is the base followed by
    the letter B. *)
Theorem base_currency_round_trip (base : string) :
  extractBaseCurrency (base ++ "USDT") = base /\
  extractBaseCurrency (base ++ "USD") = base /\
  extractBaseCurrency (base ++ "USDC") = base /\
  extractBaseCurrency (base ++ "BTC") = base /\
  extractBaseCurrency (base ++ "ETH") = base /\
  extractBaseCurrency (base ++ "BUSD") = (base ++ "B")%string.
Proof.
  unfold extractBaseCurrency, quoteCurrencies. repeat split.
  - cbn [extractLoop]. rewrite endsWith_own_quote. apply base_before_quote.
  - cbn [extractLoop]. decide_suffix.
    rewrite endsWith_own_quote. apply base_before_quote.
  - cbn [extractLoop]. do 3 decide_suffix.
    rewrite endsWith_own_quote. apply base_before_quote.
  - cbn [extractLoop]. do 4 decide_suffix.
    rewrite endsWith_own_quote. apply base_before_quote.
  - cbn [extractLoop]. do 5 decide_suffix.
    rewrite endsWith_own_quote. apply base_before_quote.
  - cbn [extractLoop]. decide_suffix.
    change (base ++ "BUSD")%string with (base ++ ("B" ++ "USD"))%string.
    rewrite <- string_append_assoc.
    rewrite endsWith_own_quote. apply base_before_quote.
Qed.

Lemma roundTo2_close (x : Q) :
  Qabs (roundTo2 x - x) <= 1 # 200 /\
  exists n : Z, roundTo2 x == inject_Z n / 100.
Proof.
  unfold roundTo2. cbv zeta.
  set (y := Qabs x * 100 + (1 # 2)).
  pose proof (Qfloor_le y) as Hlow.
  pose proof (Qlt_floor y) as Hhigh.
  rewrite inject_Z_plus in Hhigh. change (inject_Z 1) with 1 in Hhigh.
  set (n := inject_Z (Qfloor y)) in *.
  assert (Hdiv : n / 100 * 100 == n) by (field; lra).
  destruct (ltb x 0) eqn:E.
  - apply ltb_true_iff in E.
    assert (Hx : Qabs x == - x) by (apply Qabs_neg; lra).
    split.
    + apply Qabs_Qle_condition. unfold y in *. rewrite Hx in *. split; lra.
    + exists (- Qfloor y)%Z. rewrite inject_Z_opp. fold n. field.
  - apply ltb_false_iff in E.
    assert (Hx : Qabs x == x) by (apply Qabs_pos; exact E).
    split.
    + apply Qabs_Qle_condition. unfold y in *. rewrite Hx in *. split; lra.
    + exists (Qfloor y). reflexivity.
Qed.

(** X24.  The classification of [calculateOverallSentiment] follows the
    weighted score in five bands: "very bullish" above 0.5, "bullish"
    above 0.2 up to 0.5, "neutral" from -0.2 to 0.2, "bearish" from -0.5
    to below -0.2, "very bearish" below -0.5.  The reported score is a
    multiple of 0.01 within 0.005 of the weighted score; and for social
    and news scores in [-1, 1], a fear and greed value in [0, 100] and an
    average funding rate in [-0.01, 0.01] the weighted score lies in
    [-1, 1]. *)
Theorem overall_sentiment_bands (sentimentData : SentimentData.t) :
  let w := weightedScoreOf sentimentData in
  let r := calculateOverallSentiment sentimentData in
  (OverallSentiment.classification r = "very bullish"%string <-> 5 # 10 < w) /\
  (OverallSentiment.classification r = "bullish"%string <->
   2 # 10 < w /\ w <= 5 # 10) /\
  (OverallSentiment.classification r = "neutral"%string <->
   - (2 # 10) <= w /\ w <= 2 # 10) /\
  (OverallSentiment.classification r = "bearish"%string <->
   - (5 # 10) <= w /\ w < - (2 # 10)) /\
  (OverallSentiment.classification r = "very bearish"%string <->
   w < - (5 # 10)) /\
  Qabs (OverallSentiment.score r - w) <= 1 # 200 /\
  (exists n : Z, OverallSentiment.score r == inject_Z n / 100) /\
  (Qabs (SentimentData.socialScore sentimentData) <= 1 ->
   Qabs (SentimentData.newsScore sentimentData) <= 1 ->
   0 <= SentimentData.fearGreedValue sentimentData <= 100 ->
   Qabs (SentimentData.fundingAverage sentimentData) <= 1 # 100 ->
   - (1) <= w /\ w <= 1).
Proof.
  intros w r. unfold r, calculateOverallSentiment. fold w.
  cbn [OverallSentiment.classification OverallSentiment.score].
  destruct (roundTo2_close w) as [Hclose Hmultiple].
  assert (Hbands :
    (classifyScore w = "very bullish"%string <-> 5 # 10 < w) /\
    (classifyScore w = "bullish"%string <-> 2 # 10 < w /\ w <= 5 # 10) /\
    (classifyScore w = "neutral"%string <-> - (2 # 10) <= w /\ w <= 2 # 10) /\
    (classifyScore w = "bearish"%string <-> - (5 # 10) <= w /\ w < - (2 # 10)) /\
    (classifyScore w = "very bearish"%string <-> w < - (5 # 10))).
  { unfold classifyScore. cbv zeta.
    destruct (gtb w (2 # 10)) eqn:E1;
      [apply gtb_true_iff in E1 | apply gtb_false_iff in E1];
      (destruct (gtb w (5 # 10)) eqn:E2;
       [apply gtb_true_iff in E2 | apply gtb_false_iff in E2]);
      (destruct (ltb w (- (2 # 10))) eqn:E3;
       [apply ltb_true_iff in E3 | apply ltb_false_iff in E3]);
      (destruct (ltb w (- (5 # 10))) eqn:E4;
       [apply ltb_true_iff in E4 | apply ltb_false_iff in E4]);
      try lra;
      repeat split; intros; try discriminate; try reflexivity;
      intuition lra. }
  destruct Hbands as (B1 & B2 & B3 & B4 & B5).
  repeat (split; [assumption|]).
  intros Hs Hn [Hf0 Hf1] Hr. unfold w, weightedScoreOf. cbv zeta.
  apply Qabs_Qle_condition in Hs. apply Qabs_Qle_condition in Hn.
  apply Qabs_Qle_condition in Hr.
  set (s := SentimentData.socialScore sentimentData) in *.
  set (n := SentimentData.newsScore sentimentData) in *.
  set (f := SentimentData.fearGreedValue sentimentData) in *.
  set (a := SentimentData.fundingAverage sentimentData) in *.
  assert (E : (f - 50) / 50 * (3 # 10) == (f - 50) * (3 # 500)) by field.
  rewrite E. split; lra.
Qed.

(** * Prices and percentages of a plan *)

(** X25.  In every branch of [determineTakeProfitTargets] and
    [determineStopLoss], for a current price other than 0, the
    percentage stored with a target or with the stop loss agrees with
    its price: a target lies its percentage gain above the current price
    for "long" and below it for "short", whether it comes from a level,
    from the projection or from the fixed ladder, and the stop loss lies
    its percentage loss on the other side. *)
Theorem percentages_match_prices
        (ta : TA) (direction : string) (currentPrice : Q)
        (entries : list Entry.t) :
  direction = "long"%string \/ direction = "short"%string ->
  Trade.currentPrice ta = Ok currentPrice ->
  ~ currentPrice == 0 ->
  (forall targets,
      determineTakeProfitTargets ta direction = Ok targets ->
      Forall (gainMatchesPrice direction currentPrice) targets) /\
  (forall stop,
      determineStopLoss ta direction entries = Ok (Some stop) ->
      lossMatchesPrice direction currentPrice stop).
Proof.
  intros Hdir Hprice Hnz. split.
  - intros targets H. unfold determineTakeProfitTargets in H.
    rewrite Hprice in H. cbn [bind] in H.
    destruct Hdir as [-> | ->];
      match type of H with
      | (if ?c then _ else _) = _ => change c with true in H
      | (if ?c then _ else if ?d then _ else _) = _ =>
          change c with false in H; change d with true in H
      end; cbv match in H;
      apply bind_Ok in H; destruct H as (levels & _ & H);
      unfold pushIf, push, ret in H;
      destruct levels as [|? [|? [|? ?]]];
      simpl in H; injection H as <-;
      repeat constructor; unfold gainMatchesPrice;
      cbn [streq String.eqb Ascii.eqb Bool.eqb TakeProfit.price
           TakeProfit.percentageGain item nth];
      field; exact Hnz.
  - intros stop H. unfold determineStopLoss in H.
    rewrite Hprice in H. cbn [bind] in H.
    destruct Hdir as [-> | ->];
      match type of H with
      | (if ?c then _ else _) = _ => change c with true in H
      | (if ?c then _ else if ?d then _ else _) = _ =>
          change c with false in H; change d with true in H
      end; cbv match in H;
      apply bind_Ok in H; destruct H as (nearest & _ & H);
      destruct (truthy nearest); injection H as <-;
      unfold lossMatchesPrice;
      cbn [streq String.eqb Ascii.eqb Bool.eqb StopLoss.price
           StopLoss.percentageLoss];
      field; exact Hnz.
Qed.

Lemma percentages_match_prices_witness :
  match determineTakeProfitTargets (Some sampleAnalysed) "long" with
  | Ok targets => Forall (gainMatchesPrice "long" 100) targets
  | Throw _ => True
  end.
Proof.
  destruct (determineTakeProfitTargets (Some sampleAnalysed) "long")
    as [targets|e] eqn:E; [|exact I].
  refine (proj1 (@percentages_match_prices (Some sampleAnalysed) "long" 100 []
                   (or_introl eq_refl) eq_refl _) targets E).
  discriminate.
Defined.

(** * Trend direction *)

Lemma fold_scaled (f g : nat -> Q) (b : Q) (l : list nat) :
  (forall i, In i l -> f i == b * g i) ->
  forall accF accG, accF == b * accG ->
    fold_left (fun acc i => acc + f i) l accF
    == b * fold_left (fun acc i => acc + g i) l accG.
Proof.
  induction l as [|i l IH]; intros H accF accG Hacc; simpl; [exact Hacc|].
  apply IH.
  - intros j Hj. apply H. right. exact Hj.
  - rewrite Hacc, (H i (or_introl eq_refl)). ring.
Qed.

Lemma fold_grows (g : nat -> Q) (l : list nat) :
  (forall i, 0 <= g i) ->
  forall acc, acc <= fold_left (fun acc i => acc + g i) l acc.
Proof.
  intros Hg. induction l as [|i l IH]; intros acc; simpl; [lra|].
  specialize (IH (acc + g i)). specialize (Hg i). lra.
Qed.

Lemma sum_map_line (a b : Q) (l : list nat) :
  sum (map (fun i => a + b * num i) l)
  == num (List.length l) * a + b * sum (map num l).
Proof.
  induction l as [|i l IH].
  - unfold sum. simpl. change (num 0) with 0. ring.
  - cbn [map List.length]. rewrite !sum_cons, num_S, IH. ring.
Qed.

Lemma nth_map_seq (f : nat -> Q) (n i : nat) :
  (i < n)%nat -> nth i (map f (seq 0 n)) 0 = f i.
Proof.
  intros Hi. apply nth_error_nth. apply nth_error_map_seq. exact Hi.
Qed.

Lemma square_nonneg (x : Q) : 0 <= x * x.
Proof. nra. Qed.

(** The regression of the points of a line. *)
Lemma regression_of_line (a b : Q) (n : nat) :
  (2 <= n)%nat ->
  Regression.slope (calculateLinearRegression (lineThrough a b n)) == b /\
  Regression.intercept (calculateLinearRegression (lineThrough a b n)) == a.
Proof.
  intros Hn. unfold calculateLinearRegression, lineThrough.
  rewrite length_map, length_seq.
  cbn [Regression.slope Regression.intercept]. cbv zeta.
  set (x := map num (seq 0 n)).
  set (values := map (fun i => a + b * num i) (seq 0 n)).
  set (meanX := sum x / num n).
  assert (Hnum : 0 < num n) by (apply num_pos; lia).
  assert (HmeanY : sum values / num n == a + b * meanX).
  { unfold values, meanX, x. rewrite sum_map_line, length_seq. field. lra. }
  set (meanY := sum values / num n) in *.
  set (D := fold_left (fun denominator i =>
                         denominator + (nth i x 0 - meanX) * (nth i x 0 - meanX))
                      (seq 0 n) 0).
  assert (Hnumerator :
            fold_left (fun numerator i =>
                         numerator + (nth i x 0 - meanX) * (nth i values 0 - meanY))
                      (seq 0 n) 0 == b * D).
  { unfold D.
    apply (fold_scaled
             (fun i => (nth i x 0 - meanX) * (nth i values 0 - meanY))
             (fun i => (nth i x 0 - meanX) * (nth i x 0 - meanX))).
    - intros i Hi. apply in_seq in Hi.
      unfold x, values. rewrite !nth_map_seq by lia. rewrite HmeanY. ring.
    - ring. }
  assert (HmeanX : 0 < meanX).
  { unfold meanX. apply Qlt_shift_div_l; [exact Hnum|].
    unfold x. destruct n as [|[|m]]; try lia.
    cbn [seq map]. rewrite !sum_cons.
    assert (Hrest : 0 <= sum (map num (seq 2 m))).
    { apply sum_nonneg. apply Forall_map, Forall_forall. intros i _.
      apply num_nonneg. }
    change (num 0) with 0. change (num 1) with 1. lra. }
  assert (HD : 0 < D).
  { unfold D.
    replace (seq 0 n) with (0%nat :: seq 1 (n - 1))
      by (destruct n; [lia | simpl; rewrite Nat.sub_0_r; reflexivity]).
    cbn [fold_left].
    pose proof (fold_grows
                  (fun i => (nth i x 0 - meanX) * (nth i x 0 - meanX))
                  (seq 1 (n - 1))
                  (fun i => square_nonneg (nth i x 0 - meanX))
                  (0 + (nth 0 x 0 - meanX) * (nth 0 x 0 - meanX))) as Hgrow.
    cbv beta in Hgrow.
    assert (Hfirst : nth 0 x 0 == 0).
    { unfold x. rewrite nth_map_seq by lia. reflexivity. }
    assert (Hsq : 0 < (nth 0 x 0 - meanX) * (nth 0 x 0 - meanX)).
    { rewrite Hfirst. nra. }
    lra. }
  rewrite Hnumerator.
  assert (Hslope : b * D / D == b) by (field; lra).
  split; [exact Hslope|]. rewrite Hslope, HmeanY. ring.
Qed.

(** X26.  When the closes of 2 to 30 daily candles lie on a line
    [a + b * i], the regression that [analyzeTrendStrength] returns has
    slope [b] and intercept [a], and the trend direction is "bullish"
    exactly when [b] exceeds 0.001, "bearish" exactly when [b] is below
    -0.001, and "neutral" in between. *)
Theorem trend_of_linear_closes (data : MarketData.t) (a b : Q) (n : nat) :
  (2 <= n)%nat -> (n <= 30)%nat ->
  map close (MarketData.daily data) = lineThrough a b n ->
  Regression.slope (TrendAnalysis.regression (analyzeTrendStrength data)) == b /\
  Regression.intercept (TrendAnalysis.regression (analyzeTrendStrength data)) == a /\
  (TrendAnalysis.direction (analyzeTrendStrength data) = "bullish"%string <->
   1 # 1000 < b) /\
  (TrendAnalysis.direction (analyzeTrendStrength data) = "bearish"%string <->
   b < - (1 # 1000)) /\
  (TrendAnalysis.direction (analyzeTrendStrength data) = "neutral"%string <->
   - (1 # 1000) <= b /\ b <= 1 # 1000).
Proof.
  intros Hn Hmax Hcloses. unfold analyzeTrendStrength.
  cbn [TrendAnalysis.regression TrendAnalysis.direction]. cbv zeta.
  assert (Hrecent : sliceLast 30 (map close (MarketData.daily data))
                    = lineThrough a b n).
  { unfold sliceLast. cbn [Nat.eqb]. rewrite Hcloses.
    unfold lineThrough at 1. rewrite length_map, length_seq.
    replace (n - 30)%nat with 0%nat by lia. reflexivity. }
  rewrite Hrecent.
  destruct (regression_of_line a b Hn) as [Hslope Hintercept].
  set (slope := Regression.slope (calculateLinearRegression (lineThrough a b n))) in *.
  split; [exact Hslope|]. split; [exact Hintercept|].
  destruct (gtb slope (1 # 1000)) eqn:E1;
    [apply gtb_true_iff in E1 | apply gtb_false_iff in E1];
    [|destruct (ltb slope (- (1 # 1000))) eqn:E2;
      [apply ltb_true_iff in E2 | apply ltb_false_iff in E2]];
    rewrite Hslope in *;
    repeat split; intros; try discriminate; try reflexivity;
    intuition lra.
Qed.

Lemma trend_of_linear_closes_witness :
  TrendAnalysis.direction
    (analyzeTrendStrength
       (MarketData.mk
          [mkCandle 1 2 1 1 1; mkCandle 1 3 1 2 1; mkCandle 2 4 2 3 1]
          (IndicatorSet.mk (SmaLast.mk Null Null Null) Null
             (MacdLast.mk Null Null Null) (LevelLists.mk [] []))))
  = "bullish"%string.
Proof.
  refine (proj2 (proj1 (proj2 (proj2
    (@trend_of_linear_closes
       (MarketData.mk
          [mkCandle 1 2 1 1 1; mkCandle 1 3 1 2 1; mkCandle 2 4 2 3 1]
          (IndicatorSet.mk (SmaLast.mk Null Null Null) Null
             (MacdLast.mk Null Null Null) (LevelLists.mk [] [])))
       1 1 3%nat _ _ _)))) _).
  - lia.
  - lia.
  - vm_compute. reflexivity.
  - reflexivity.
Defined.

(** * Volume spikes *)

Lemma spikes_weigh (t : Q) (l : list Q) :
  0 <= t -> Forall (fun x => 0 <= x) l ->
  num (List.length (filter (fun x => gtb x t) l)) * t <= sum l /\
  ((0 < List.length (filter (fun x => gtb x t) l))%nat ->
   num (List.length (filter (fun x => gtb x t) l)) * t < sum l).
Proof.
  intros Ht. induction 1 as [|x l Hx Hl [IH1 IH2]].
  - unfold sum. simpl. change (num 0) with 0. split; [lra | lia].
  - cbn [filter]. rewrite sum_cons.
    destruct (gtb x t) eqn:E.
    + apply gtb_true_iff in E. cbn [List.length]. rewrite num_S.
      split; [lra|]. intros _. lra.
    + split; [lra|]. intros Hc. specialize (IH2 Hc). lra.
Qed.

Lemma existsb_filter {A} (f : A -> bool) (l recent : list A) :
  (forall x, In x recent -> In x l) ->
  existsb f recent = true -> (0 < List.length (filter f l))%nat.
Proof.
  intros Hsub H. apply existsb_exists in H. destruct H as (x & Hx & Hfx).
  assert (Hin : In x (filter f l)) by (apply filter_In; auto).
  destruct (filter f l); [destruct Hin | simpl; lia].
Qed.

Lemma sliceLast_incl {A} (n : nat) (l : list A) (x : A) :
  In x (sliceLast n l) -> In x l.
Proof.
  unfold sliceLast. destruct (n =? 0)%nat; [auto|].
  intros H. rewrite <- (firstn_skipn (List.length l - n) l).
  apply in_or_app. right. exact H.
Qed.

(** X27.  For at least one candle and non-negative volumes, in exact
    arithmetic the spikes that [detectVolumeSpikes] counts (volumes
    above twice the average) are always a minority: twice their number
    is below the number of candles and the reported percentage is below
    50.  (On doubles the average can be rounded down and exactly half of
    the volumes counted, see [half_of_the_volumes_spike_on_doubles].)
    A recent spike is among those counted. *)
Theorem volume_spikes_are_a_minority (klines : list Candle) :
  klines <> [] ->
  Forall (fun k => 0 <= volume k) klines ->
  (2 * Spikes.count (detectVolumeSpikes klines) < List.length klines)%nat /\
  0 <= Spikes.percentage (detectVolumeSpikes klines) /\
  Spikes.percentage (detectVolumeSpikes klines) < 50 /\
  (Spikes.recent (detectVolumeSpikes klines) = true ->
   (1 <= Spikes.count (detectVolumeSpikes klines))%nat).
Proof.
  intros Hne Hvol. unfold detectVolumeSpikes.
  cbn [Spikes.count Spikes.percentage Spikes.recent]. cbv zeta.
  rewrite length_map.
  set (volumes := map volume klines).
  assert (Hlen : (1 <= List.length klines)%nat)
    by (destruct klines; [congruence | simpl; lia]).
  assert (Hnum : 0 < num (List.length klines)) by (apply num_pos; lia).
  assert (Hnonneg : Forall (fun x => 0 <= x) volumes).
  { unfold volumes. apply Forall_map. exact Hvol. }
  pose proof (sum_nonneg Hnonneg) as Hsum.
  set (avg := sum volumes / num (List.length klines)) in *.
  assert (Havg : avg * num (List.length klines) == sum volumes)
    by (unfold avg; field; lra).
  assert (Havg0 : 0 <= avg) by (unfold avg; apply Qle_shift_div_l; lra).
  destruct (@spikes_weigh (avg * 2) volumes) as [Hweigh Hstrict];
    [lra | exact Hnonneg |].
  set (count := List.length (filter (fun vol => gtb vol (avg * 2)) volumes)) in *.
  assert (Hminor : 2 * num count < num (List.length klines)).
  { destruct (Nat.eq_dec count 0) as [E|E].
    - rewrite E. change (num 0) with 0. lra.
    - specialize (Hstrict ltac:(lia)).
      assert (Hpos : 0 < avg).
      { destruct (Qlt_le_dec 0 avg) as [H|H]; [exact H|].
        assert (Hz : avg == 0) by lra. rewrite Hz in Hstrict, Havg. lra. }
      assert (Hscaled : 2 * num count * avg < num (List.length klines) * avg)
        by lra.
      apply Qmult_lt_r in Hscaled; [exact Hscaled | exact Hpos]. }
  split.
  - unfold num in Hminor.
    change 2 with (inject_Z 2) in Hminor.
    rewrite <- inject_Z_mult, <- Zlt_Qlt in Hminor. lia.
  - assert (Hc : 0 <= num count) by apply num_nonneg.
    split; [|split].
    + assert (0 <= num count / num (List.length klines))
        by (apply Qle_shift_div_l; lra).
      lra.
    + assert (num count / num (List.length klines) < 1 # 2)
        by (apply Qlt_shift_div_r; lra).
      lra.
    + intros Hrecent.
      apply (existsb_filter _ volumes) in Hrecent; [exact Hrecent|].
      intros x. apply sliceLast_incl.
Qed.

(** On doubles the average of 0.7, 0.7, 0.7, 0, 0, 0 is rounded to
    0.3499999999999999, twice which is below 0.7: three of the six
    volumes are counted as spikes and the percentage is 50. *)
Lemma half_of_the_volumes_spike_on_doubles :
  Binary64.detectVolumeSpikes threeOfSix
  = Binary64.mkSpikes false 3 (Binary64.ofZ 50).
Proof. vm_compute. reflexivity. Qed.

Lemma volume_spikes_are_a_minority_witness :
  (2 * Spikes.count
         (detectVolumeSpikes
            [mkCandle 1 1 1 1 1; mkCandle 1 1 1 1 1; mkCandle 1 1 1 1 10])
   < 3)%nat.
Proof.
  refine (proj1 (@volume_spikes_are_a_minority
                   [mkCandle 1 1 1 1 1; mkCandle 1 1 1 1 1; mkCandle 1 1 1 1 10]
                   _ _)).
  - discriminate.
  - repeat constructor; discriminate.
Defined.

(** * Oscillators *)

Lemma sliceLast_length {A} (n : nat) (l : list A) :
  (1 <= n)%nat -> List.length (sliceLast n l) = Nat.min n (List.length l).
Proof.
  intros Hn. unfold sliceLast.
  destruct (Nat.eqb_spec n 0) as [E|_]; [lia|].
  rewrite length_skipn. lia.
Qed.

Lemma Forall_sliceLast {A} (P : A -> Prop) (n : nat) (l : list A) :
  Forall P l -> Forall P (sliceLast n l).
Proof.
  intros H. apply Forall_forall. intros x Hx.
  rewrite Forall_forall in H. apply H. eapply sliceLast_incl. exact Hx.
Qed.

Lemma percentK_range (recentKlines : list Candle) (kPeriod i : nat) :
  Forall properCandle recentKlines ->
  (1 <= kPeriod)%nat -> (i < List.length recentKlines)%nat ->
  0 <= percentK recentKlines kPeriod i /\ percentK recentKlines kPeriod i <= 100.
Proof.
  intros Hproper Hk Hi. unfold percentK. cbv zeta.
  set (window := slice (i + 1 - kPeriod) (i + 1) recentKlines).
  destruct (nth_error recentKlines i) as [c|] eqn:Ec;
    [|apply nth_error_None in Ec; lia].
  assert (Hclose : nth i (map close recentKlines) 0 = close c).
  { apply nth_error_nth. rewrite nth_error_map, Ec. reflexivity. }
  rewrite Hclose.
  assert (Hin : In c window).
  { unfold window. apply In_slice. exists i. split; [lia | exact Ec]. }
  assert (Hc : properCandle c).
  { rewrite Forall_forall in Hproper. apply Hproper.
    eapply nth_error_In. exact Ec. }
  destruct Hc as (Hrange & Hlow & Hhigh).
  assert (Hmin : Math_min (map low window) <= low c)
    by (apply Math_min_lower, in_map, Hin).
  assert (Hmax : high c <= Math_max (map high window))
    by (apply Math_max_upper, in_map, Hin).
  set (lowestLow := Math_min (map low window)) in *.
  set (highestHigh := Math_max (map high window)) in *.
  assert (Hratio : 0 <= (close c - lowestLow) / (highestHigh - lowestLow) /\
                   (close c - lowestLow) / (highestHigh - lowestLow) <= 1).
  { split; [apply Qle_shift_div_l | apply Qle_shift_div_r]; lra. }
  lra.
Qed.

Lemma lastNumber_in (P : Q -> Prop) (arr : list Q) :
  arr <> [] -> Forall P arr -> exists v, lastNumber arr = Num v /\ P v.
Proof.
  intros Hne Hall. destruct arr as [|x arr]; [congruence|].
  exists (List.last (x :: arr) 0). split; [reflexivity|].
  rewrite Forall_forall in Hall. apply Hall. apply last_in_list. discriminate.
Qed.

(** X28.  With at least 14 candles, each with a proper range that
    contains its close, [calculateStochastic] returns a %K between 0 and
    100; %D is [undefined] with 14 or 15 candles, where fewer than three
    %K values exist, and a number between 0 and 100 from 16 candles on. *)
Theorem stochastic_range (klines : list Candle) :
  (14 <= List.length klines)%nat ->
  Forall properCandle klines ->
  (exists k, Stochastic.k (calculateStochastic klines 14 3) = Num k /\
             0 <= k /\ k <= 100) /\
  (if (List.length klines <? 16)%nat
   then Stochastic.d (calculateStochastic klines 14 3) = Undefined
   else exists d, Stochastic.d (calculateStochastic klines 14 3) = Num d /\
                  0 <= d /\ d <= 100).
Proof.
  intros Hlen Hproper. unfold calculateStochastic.
  destruct (Nat.ltb_spec (List.length klines) 14) as [Hlt|_]; [lia|].
  cbv zeta. cbn [Stochastic.k Stochastic.d].
  change (14 + 3)%nat with 17%nat. change (14 - 1)%nat with 13%nat.
  change (3 - 1)%nat with 2%nat.
  set (recent := sliceLast 17 klines).
  assert (Hrecent : List.length recent = Nat.min 17 (List.length klines))
    by (apply sliceLast_length; lia).
  assert (Hsane : Forall properCandle recent)
    by (apply Forall_sliceLast; exact Hproper).
  set (kValues := map (percentK recent 14) (seq 13 (List.length recent - 13))).
  assert (Hklen : List.length kValues = (List.length recent - 13)%nat)
    by (unfold kValues; rewrite length_map, length_seq; reflexivity).
  assert (Hk : Forall (fun v => 0 <= v /\ v <= 100) kValues).
  { unfold kValues. apply Forall_map, Forall_forall. intros i Hi.
    apply in_seq in Hi. apply percentK_range; [exact Hsane | lia | lia]. }
  split.
  - destruct (@lastNumber_in (fun v => 0 <= v /\ v <= 100) kValues)
      as (k & Ek & Hk0 & Hk1); [|exact Hk|].
    + intros E. rewrite E in Hklen. simpl in Hklen. lia.
    + exists k. auto.
  - set (dValues :=
           map (fun i => sum (slice (i + 1 - 3) (i + 1) kValues) / num 3)
               (seq 2 (List.length kValues - 2))).
    assert (Hdlen : List.length dValues = (List.length kValues - 2)%nat)
      by (unfold dValues; rewrite length_map, length_seq; reflexivity).
    destruct (Nat.ltb_spec (List.length klines) 16) as [Hshort|Hlong].
    + destruct dValues as [|d rest]; [reflexivity|].
      simpl in Hdlen. lia.
    + assert (Hd : Forall (fun v => 0 <= v /\ v <= 100) dValues).
      { unfold dValues. apply Forall_map, Forall_forall. intros i Hi.
        apply in_seq in Hi.
        set (w := slice (i + 1 - 3) (i + 1) kValues).
        assert (Hw : List.length w = 3%nat)
          by (unfold w; rewrite slice_length by lia; lia).
        rewrite <- Hw. apply mean_bounds.
        - intros E. rewrite E in Hw. discriminate.
        - apply Forall_slice. exact Hk. }
      destruct (@lastNumber_in (fun v => 0 <= v /\ v <= 100) dValues)
        as (d & Ed & Hd0 & Hd1); [|exact Hd|].
      * intros E. rewrite E in Hdlen. simpl in Hdlen. lia.
      * exists d. auto.
Qed.

Lemma stochastic_range_witness :
  exists k,
    Stochastic.k (calculateStochastic (repeat (mkCandle 10 12 8 11 1) 14) 14 3)
    = Num k /\ 0 <= k /\ k <= 100.
Proof.
  refine (proj1 (@stochastic_range (repeat (mkCandle 10 12 8 11 1) 14) _ _)).
  - simpl. lia.
  - repeat constructor; discriminate.
Defined.

Lemma stochastic_of_short_history (klines : list Candle) :
  ((List.length klines < 14)%nat ->
   calculateStochastic klines 14 3 = Stochastic.mk Null Null) /\
  ((14 <= List.length klines < 16)%nat ->
   Stochastic.d (calculateStochastic klines 14 3) = Undefined).
Proof.
  unfold calculateStochastic. split; intros Hlen.
  - destruct (Nat.ltb_spec (List.length klines) 14); [reflexivity | lia].
  - destruct (Nat.ltb_spec (List.length klines) 14) as [Hlt|_]; [lia|].
    cbv zeta. cbn [Stochastic.d].
    change (14 + 3)%nat with 17%nat. change (14 - 1)%nat with 13%nat.
    change (3 - 1)%nat with 2%nat.
    rewrite length_map, length_seq, sliceLast_length by lia.
    replace (Nat.min 17 (List.length klines) - 13 - 2)%nat with 0%nat by lia.
    reflexivity.
Qed.

(** X29.  With 9 to 14 daily candles [analyzeOscillators] reports a
    "bullish" consensus whatever the prices: the RSI is [null], which
    counts as below 30; the CCI is [null] and neutral; and the stochastic
    values are [null] with fewer than 14 candles, which counts as below
    20 and "oversold", while with exactly 14 candles %D is [undefined]
    and the stochastic condition is "neutral". *)
Theorem oscillators_of_short_history (dailyKlines : list Candle) :
  (9 <= List.length dailyKlines)%nat -> (List.length dailyKlines <= 14)%nat ->
  exists ind,
    calculateIndicators dailyKlines = Ok ind /\
    OscillatorAnalysis.rsiCondition
      (analyzeOscillators (MarketData.mk dailyKlines ind)) = "oversold"%string /\
    OscillatorAnalysis.cciCondition
      (analyzeOscillators (MarketData.mk dailyKlines ind)) = "neutral"%string /\
    OscillatorAnalysis.stochasticCondition
      (analyzeOscillators (MarketData.mk dailyKlines ind))
    = (if (List.length dailyKlines <? 14)%nat then "oversold" else "neutral")%string /\
    OscillatorAnalysis.consensus
      (analyzeOscillators (MarketData.mk dailyKlines ind)) = "bullish"%string.
Proof.
  intros Hlong Hshort.
  destruct (indicators_of_history dailyKlines Hlong)
    as (ind & Hrun & _ & _ & _ & Hrsi & _).
  exists ind. split; [exact Hrun|].
  unfold definedFrom in Hrsi.
  destruct (Nat.ltb_spec (List.length dailyKlines) 15) as [_|Hge]; [|lia].
  unfold analyzeOscillators.
  cbn [MarketData.indicators MarketData.daily OscillatorAnalysis.rsiCondition
       OscillatorAnalysis.cciCondition OscillatorAnalysis.stochasticCondition
       OscillatorAnalysis.consensus].
  rewrite Hrsi.
  assert (Hcci : calculateCCI dailyKlines 20 = Null).
  { unfold calculateCCI.
    destruct (Nat.ltb_spec (List.length dailyKlines) 20); [reflexivity | lia]. }
  rewrite Hcci.
  destruct (stochastic_of_short_history dailyKlines) as [Hnull Hundefined].
  destruct (Nat.ltb_spec (List.length dailyKlines) 14) as [Hlt|Hge].
  - rewrite (Hnull Hlt). repeat split; reflexivity.
  - specialize (Hundefined ltac:(lia)).
    destruct (calculateStochastic dailyKlines 14 3) as [k d].
    cbn [Stochastic.d Stochastic.k] in *. subst d.
    assert (Hneutral :
              (if vgt k (Num 80) && vgt Undefined (Num 80) then "overbought"
               else if vlt k (Num 20) && vlt Undefined (Num 20) then "oversold"
               else "neutral")%string = "neutral"%string).
    { change (vgt Undefined (Num 80)) with false.
      change (vlt Undefined (Num 20)) with false.
      rewrite !andb_false_r. reflexivity. }
    rewrite Hneutral. repeat split; reflexivity.
Qed.

Lemma oscillators_of_short_history_witness :
  exists ind,
    calculateIndicators (repeat (mkCandle 10 11 9 10 1) 9) = Ok ind /\
    OscillatorAnalysis.consensus
      (analyzeOscillators (MarketData.mk (repeat (mkCandle 10 11 9 10 1) 9) ind))
    = "bullish"%string.
Proof.
  destruct (@oscillators_of_short_history (repeat (mkCandle 10 11 9 10 1) 9))
    as (ind & Hrun & _ & _ & _ & H); [simpl; lia | simpl; lia |].
  exists ind. split; [exact Hrun | exact H].
Defined.

(** * Price patterns *)

Lemma div_lt_iff (a b c : Q) : 0 < c -> (a / c < b <-> a < b * c).
Proof.
  intros Hc. rewrite <- (Qmult_lt_r (a / c) b c Hc).
  assert (E : a / c * c == a) by (field; lra).
  rewrite E. reflexivity.
Qed.

Lemma lt_div_iff (a b c : Q) : 0 < c -> (b < a / c <-> b * c < a).
Proof.
  intros Hc. rewrite <- (Qmult_lt_r b (a / c) c Hc).
  assert (E : a / c * c == a) by (field; lra).
  rewrite E. reflexivity.
Qed.

(** The elements of [l.slice(a, b)] are the elements at the indices from
    [a] on and before [b]. *)
Lemma In_slice_nth (l : list Q) (a b : nat) (x : Q) :
  (b <= List.length l)%nat ->
  (In x (slice a b l) <-> exists k, (a <= k < b)%nat /\ nth k l 0 = x).
Proof.
  intros Hb. unfold slice. split.
  - intros H. apply In_nth_error in H. destruct H as [n Hn].
    rewrite nth_error_firstn in Hn.
    destruct (Nat.ltb_spec n (b - a)) as [Hlt|]; [|discriminate].
    rewrite nth_error_skipn in Hn.
    exists (a + n)%nat. split; [lia|]. apply nth_error_nth. exact Hn.
  - intros (k & Hk & <-). apply nth_error_In with (n := (k - a)%nat).
    rewrite nth_error_firstn.
    destruct (Nat.ltb_spec (k - a) (b - a)) as [_|]; [|lia].
    rewrite nth_error_skipn.
    replace (a + (k - a))%nat with k by lia.
    apply nth_error_nth'. lia.
Qed.

(** The move of the pair search is the largest move of a close between
    the two peaks. *)
Lemma extreme_move (top : bool) (v : Q) (closes : list Q) (i j : nat) :
  (i < j)%nat -> (j <= List.length closes)%nat ->
  exists k, (i <= k < j)%nat /\
    (forall k', (i <= k' < j)%nat ->
       moveFrom top v closes k' <= moveFrom top v closes k) /\
    (if top then v - Math_min (slice i j closes)
     else Math_max (slice i j closes) - v) = moveFrom top v closes k.
Proof.
  intros Hij Hj.
  assert (Hin : In (nth i closes 0) (slice i j closes)).
  { apply In_slice_nth; [exact Hj|]. exists i. split; [lia | reflexivity]. }
  assert (Hne : slice i j closes <> []).
  { intros E. rewrite E in Hin. destruct Hin. }
  destruct top; unfold moveFrom.
  - pose proof (Math_min_in Hne) as Hm.
    apply In_slice_nth in Hm; [|exact Hj]. destruct Hm as (k & Hk & Ek).
    exists k. split; [exact Hk|]. split; [|rewrite Ek; reflexivity].
    intros k' Hk'. rewrite Ek.
    assert (Math_min (slice i j closes) <= nth k' closes 0).
    { apply Math_min_lower. apply In_slice_nth; [exact Hj|]. exists k'. auto. }
    lra.
  - pose proof (Math_max_in Hne) as Hm.
    apply In_slice_nth in Hm; [|exact Hj]. destruct Hm as (k & Hk & Ek).
    exists k. split; [exact Hk|]. split; [|rewrite Ek; reflexivity].
    intros k' Hk'. rewrite Ek.
    assert (nth k' closes 0 <= Math_max (slice i j closes)).
    { apply Math_max_upper. apply In_slice_nth; [exact Hj|]. exists k'. auto. }
    lra.
Qed.

(** The first loop collects the strict local peaks, in index order. *)
Lemma peakTest_iff (top : bool) (values : list Q) (i : nat) :
  beyondOf top (nth i values 0) (nth (i - 1) values 0) &&
  beyondOf top (nth i values 0) (nth (i - 2) values 0) &&
  beyondOf top (nth i values 0) (nth (i + 1) values 0) &&
  beyondOf top (nth i values 0) (nth (i + 2) values 0) = true <->
  (forall j, (j = i - 2 \/ j = i - 1 \/ j = i + 1 \/ j = i + 2)%nat ->
     if top then nth j values 0 < nth i values 0
     else nth i values 0 < nth j values 0).
Proof.
  rewrite !andb_true_iff.
  destruct top; cbn [beyondOf]; rewrite ?gtb_true_iff, ?ltb_true_iff; split.
  - intros [[[H1 H2] H3] H4] j [->|[->|[->| ->]]]; assumption.
  - intros H. repeat split; apply H; auto.
  - intros [[[H1 H2] H3] H4] j [->|[->|[->| ->]]]; assumption.
  - intros H. repeat split; apply H; auto.
Qed.

Lemma localPeaks_iff (top : bool) (values : list Q) (p : Peak.t) :
  In p (localPeaks (beyondOf top) values) <->
  strictPeak top values (Peak.index p) /\
  Peak.value p = nth (Peak.index p) values 0.
Proof.
  unfold localPeaks. rewrite in_flat_map. split.
  - intros (i & Hi & Hp). apply in_seq in Hi. cbv zeta in Hp.
    destruct (_ && _) eqn:E in Hp; [|destruct Hp].
    destruct Hp as [<-|[]]. cbn [Peak.index Peak.value].
    split; [|reflexivity]. unfold strictPeak.
    split; [lia|]. split; [lia|]. apply peakTest_iff. exact E.
  - intros [(H1 & H2 & H3) Hv]. exists (Peak.index p).
    split; [apply in_seq; lia|]. cbv zeta.
    apply peakTest_iff in H3. rewrite H3. left.
    destruct p as [i v]. cbn [Peak.index Peak.value] in *. subst v. reflexivity.
Qed.

Lemma flat_peaks_sorted (c : nat -> bool) (v : nat -> Q) (count : nat) :
  forall start,
    StronglySorted byPeakIndex
      (flat_map (fun i => if c i then [Peak.mk i (v i)] else [])
                (seq start count)).
Proof.
  induction count as [|count IH]; intros start; simpl; [constructor|].
  destruct (c start); simpl; [|apply IH].
  constructor; [apply IH|].
  apply Forall_forall. intros x Hx. apply in_flat_map in Hx.
  destruct Hx as (i & Hi & Hx). apply in_seq in Hi.
  destruct (c i); [|destruct Hx]. destruct Hx as [<-|[]].
  unfold byPeakIndex. cbn [Peak.index]. lia.
Qed.

Lemma localPeaks_sorted (beyond : Q -> Q -> bool) (values : list Q) :
  StronglySorted byPeakIndex (localPeaks beyond values).
Proof.
  unfold localPeaks. cbv zeta.
  apply (flat_peaks_sorted
           (fun i =>
              beyond (nth i values 0) (nth (i - 1) values 0) &&
              beyond (nth i values 0) (nth (i - 2) values 0) &&
              beyond (nth i values 0) (nth (i + 1) values 0) &&
              beyond (nth i values 0) (nth (i + 2) values 0))
           (fun i => nth i values 0)).
Qed.

(** The pair search returns the first pair, in loop order, that passes
    the test, and finds one whenever some pair passes it. *)
Lemma scanSecond_found (move : Peak.t -> Peak.t -> Q) (first : Peak.t)
      (later : list Peak.t) (found : Peak.t * Peak.t * Q) :
  scanSecond move first later = Some found ->
  exists second,
    found = (first, second, move first second) /\ In second later /\
    pairPasses move first second = true.
Proof.
  induction later as [|second rest IH]; cbn [scanSecond]; [discriminate|].
  destruct (ltb _ (2 # 100) && _) eqn:E1.
  - destruct (gtb (move first second) (3 # 100)) eqn:E2.
    + intros H. injection H as <-. exists second.
      split; [reflexivity|]. split; [left; reflexivity|].
      unfold pairPasses. rewrite E1, E2. reflexivity.
    + intros H. destruct (IH H) as (q & H1 & H2 & H3).
      exists q. split; [exact H1|]. split; [right; exact H2 | exact H3].
  - intros H. destruct (IH H) as (q & H1 & H2 & H3).
    exists q. split; [exact H1|]. split; [right; exact H2 | exact H3].
Qed.

Lemma scanSecond_complete (move : Peak.t -> Peak.t -> Q) (first : Peak.t)
      (later : list Peak.t) (second : Peak.t) :
  In second later -> pairPasses move first second = true ->
  scanSecond move first later <> None.
Proof.
  induction later as [|q rest IH]; intros Hin Hpass; [destruct Hin|].
  cbn [scanSecond]. destruct Hin as [->|Hin].
  - unfold pairPasses in Hpass. apply andb_true_iff in Hpass.
    destruct Hpass as [E1 E2]. rewrite E1, E2. discriminate.
  - destruct (ltb _ (2 # 100) && _); [|apply IH; assumption].
    destruct (gtb (move first q) (3 # 100)); [discriminate|].
    apply IH; assumption.
Qed.

Lemma scanFirst_found (move : Peak.t -> Peak.t -> Q) (peaks : list Peak.t)
      (found : Peak.t * Peak.t * Q) :
  StronglySorted byPeakIndex peaks ->
  scanFirst move peaks = Some found ->
  exists first second,
    found = (first, second, move first second) /\
    In first peaks /\ In second peaks /\ byPeakIndex first second /\
    pairPasses move first second = true.
Proof.
  induction 1 as [|first rest Hrest IH Hfirst]; simpl; [discriminate|].
  destruct (scanSecond move first rest) as [pair|] eqn:E.
  - intros H. injection H as ->.
    apply scanSecond_found in E. destruct E as (second & -> & Hin & Hpass).
    exists first, second. rewrite Forall_forall in Hfirst.
    split; [reflexivity|]. split; [left; reflexivity|].
    split; [right; exact Hin|]. split; [apply Hfirst; exact Hin | exact Hpass].
  - intros H. destruct (IH H) as (p & q & H1 & H2 & H3 & H4 & H5).
    exists p, q. split; [exact H1|]. split; [right; exact H2|].
    split; [right; exact H3|]. split; assumption.
Qed.

Lemma scanFirst_complete (move : Peak.t -> Peak.t -> Q) (peaks : list Peak.t)
      (first second : Peak.t) :
  StronglySorted byPeakIndex peaks ->
  In first peaks -> In second peaks -> byPeakIndex first second ->
  pairPasses move first second = true ->
  scanFirst move peaks <> None.
Proof.
  unfold byPeakIndex.
  induction 1 as [|p rest Hrest IH Hp]; intros Hf Hs Hlt Hpass; [destruct Hf|].
  simpl. rewrite Forall_forall in Hp. unfold byPeakIndex in Hp.
  assert (Hsecond : In second rest).
  { destruct Hs as [->|Hs]; [|exact Hs]. exfalso.
    destruct Hf as [->|Hf]; [lia|]. apply Hp in Hf. lia. }
  destruct (scanSecond move p rest) eqn:E; [discriminate|].
  destruct Hf as [->|Hf].
  - exfalso. revert E. apply scanSecond_complete with (second := second);
      assumption.
  - apply IH; assumption.
Qed.

Lemma scanFirst_short (move : Peak.t -> Peak.t -> Q) (peaks : list Peak.t) :
  (List.length peaks < 2)%nat -> scanFirst move peaks = None.
Proof.
  destruct peaks as [|p [|q rest]]; simpl; intros H; try reflexivity; lia.
Qed.

Lemma detectDoubleTop_scan (klines : list Candle) :
  detectDoubleTop klines
  = scanFirst (moveOf true (map close klines))
              (localPeaks (beyondOf true) (map high klines)).
Proof.
  unfold detectDoubleTop. cbv zeta.
  destruct (Nat.ltb_spec (List.length (localPeaks gtb (map high klines))) 2)
    as [H|H]; [|reflexivity].
  symmetry. apply scanFirst_short. exact H.
Qed.

Lemma detectDoubleBottom_scan (klines : list Candle) :
  detectDoubleBottom klines
  = scanFirst (moveOf false (map close klines))
              (localPeaks (beyondOf false) (map low klines)).
Proof.
  unfold detectDoubleBottom. cbv zeta.
  destruct (Nat.ltb_spec (List.length (localPeaks ltb (map low klines))) 2)
    as [H|H]; [|reflexivity].
  symmetry. apply scanFirst_short. exact H.
Qed.

(** For two peaks of a positive series, the earlier one first, the test
    of the pair search is the condition of a double peak. *)
Lemma pairPasses_iff (top : bool) (values closes : list Q) (first second : Peak.t) :
  List.length closes = List.length values ->
  Forall (fun v => 0 < v) values ->
  strictPeak top values (Peak.index first) ->
  strictPeak top values (Peak.index second) ->
  Peak.value first = nth (Peak.index first) values 0 ->
  Peak.value second = nth (Peak.index second) values 0 ->
  byPeakIndex first second ->
  (pairPasses (moveOf top closes) first second = true <->
   doublePeak top values closes (Peak.index first) (Peak.index second)).
Proof.
  intros Hlen Hpos Hp Hq Ev Ew Hlt. unfold byPeakIndex in Hlt.
  set (i := Peak.index first) in *. set (j := Peak.index second) in *.
  assert (Hv : 0 < nth i values 0).
  { rewrite Forall_forall in Hpos. apply Hpos. apply nth_In.
    destruct Hp as (_ & H & _). lia. }
  assert (Hj : (j <= List.length closes)%nat).
  { destruct Hq as (_ & H & _). lia. }
  destruct (@extreme_move top (nth i values 0) closes i j Hlt Hj)
    as (k & Hk & Hmax & Emove).
  assert (Hmove : moveOf top closes first second
                  == moveFrom top (nth i values 0) closes k / nth i values 0).
  { unfold moveOf. fold i j. rewrite Ev, <- Emove. destruct top; reflexivity. }
  unfold pairPasses, doublePeak. fold i j. rewrite Ev, Ew.
  rewrite !andb_true_iff, ltb_true_iff, gtb_true_iff, Nat.ltb_lt, Hmove.
  unfold Math_abs, indexDistance.
  rewrite (div_lt_iff _ _ Hv), (lt_div_iff _ _ Hv). split.
  - intros [[H1 H2] H3]. split; [exact Hp|]. split; [exact Hq|].
    split; [lia|]. split; [exact H1|]. exists k. split; [exact Hk | exact H3].
  - intros (_ & _ & H2 & H1 & k' & Hk' & H3). split; [split; [exact H1 | lia]|].
    specialize (Hmax k' Hk'). lra.
Qed.

Lemma double_reported (top : bool) (values closes : list Q)
      (found : Peak.t * Peak.t * Q) :
  List.length closes = List.length values ->
  Forall (fun v => 0 < v) values ->
  scanFirst (moveOf top closes) (localPeaks (beyondOf top) values) = Some found ->
  reportedDouble top values closes found.
Proof.
  intros Hlen Hpos H.
  apply scanFirst_found in H; [|apply localPeaks_sorted].
  destruct H as (first & second & -> & Hp & Hq & Hlt & Hpass).
  apply localPeaks_iff in Hp. destruct Hp as [Hp Ev].
  apply localPeaks_iff in Hq. destruct Hq as [Hq Ew].
  pose proof (proj1 (pairPasses_iff closes Hlen Hpos Hp Hq Ev Ew Hlt) Hpass)
    as Hdouble.
  unfold reportedDouble. cbv zeta.
  split; [exact Hdouble|]. split; [exact Ev|]. split; [exact Ew|].
  unfold pairPasses in Hpass. apply andb_true_iff in Hpass.
  destruct Hpass as [_ Hmove]. apply gtb_true_iff in Hmove.
  split; [exact Hmove|].
  unfold byPeakIndex in Hlt.
  set (i := Peak.index first) in *. set (j := Peak.index second) in *.
  assert (Hv : 0 < nth i values 0).
  { rewrite Forall_forall in Hpos. apply Hpos. apply nth_In.
    destruct Hp as (_ & H & _). lia. }
  assert (Hj : (j <= List.length closes)%nat).
  { destruct Hq as (_ & H & _). lia. }
  destruct (@extreme_move top (nth i values 0) closes i j Hlt Hj)
    as (k & Hk & Hmax & Emove).
  exists k. split; [exact Hk|]. split; [exact Hmax|].
  rewrite <- Emove. unfold moveOf. fold i j. rewrite Ev.
  destruct top; field; lra.
Qed.

Lemma double_detected_iff (top : bool) (values closes : list Q) :
  List.length closes = List.length values ->
  Forall (fun v => 0 < v) values ->
  (detectedIn (scanFirst (moveOf top closes) (localPeaks (beyondOf top) values))
   = true <->
   exists i j, doublePeak top values closes i j).
Proof.
  intros Hlen Hpos. split.
  - destruct (scanFirst _ _) as [[[first second] move]|] eqn:E; [|discriminate].
    intros _. apply double_reported in E; [|assumption|assumption].
    exists (Peak.index first), (Peak.index second). apply E.
  - intros (i & j & Hd).
    assert (Hscan : scanFirst (moveOf top closes)
                              (localPeaks (beyondOf top) values) <> None).
    { pose proof Hd as (Hp & Hq & Hij & _).
      apply scanFirst_complete
        with (first := Peak.mk i (nth i values 0))
             (second := Peak.mk j (nth j values 0)).
      - apply localPeaks_sorted.
      - apply localPeaks_iff. split; [exact Hp | reflexivity].
      - apply localPeaks_iff. split; [exact Hq | reflexivity].
      - unfold byPeakIndex. cbn [Peak.index]. lia.
      - apply (pairPasses_iff (first := Peak.mk i (nth i values 0))
                 (second := Peak.mk j (nth j values 0)) closes Hlen Hpos);
          cbn [Peak.index Peak.value]; try assumption; try reflexivity.
        unfold byPeakIndex. cbn [Peak.index]. lia. }
    destruct (scanFirst _ _); [reflexivity | congruence].
Qed.

Lemma doublePeak_needs_history (top : bool) (values closes : list Q) (i j : nat) :
  doublePeak top values closes i j -> (11 <= List.length values)%nat.
Proof.
  intros ((Hi & _) & (_ & Hj & _) & Hij & _). lia.
Qed.

(** X30.  For daily candles with positive highs and lows, in exact
    arithmetic: [analyzePricePatterns] never throws and never reports a
    head and shoulders pattern.  Over the last 30 daily candles, its
    signal is "bullish" exactly when a double bottom is detected or one
    of the last four candle pairs is a bullish engulfing, and "bearish"
    exactly when that is not so and a double top is detected or one of
    the last four pairs is a bearish engulfing.  A double top is
    detected exactly when the highs have two strict local peaks (each
    above its two neighbours on either side) more than five candles
    apart, the second within 2% of the first, with a close between them
    more than 3% of the first peak below it; the reported drop is the
    largest such fall relative to the first peak.  A double bottom is
    the same on the lows, with a close above the first bottom.  So none
    is detected with fewer than 11 candles. *)
Theorem price_pattern_signal (data : MarketData.t) :
  Forall (fun k => 0 < low k /\ 0 < high k) (MarketData.daily data) ->
  let recent := sliceLast 30 (MarketData.daily data) in
  exists r,
    analyzePricePatterns data = Ok r /\
    PricePatterns.headAndShoulders r = Some (Pattern.mk false) /\
    PricePatterns.inverseHeadAndShoulders r = Some (Pattern.mk false) /\
    PricePatterns.doubleTop r = Some (Pattern.mk (detectedIn (detectDoubleTop recent))) /\
    PricePatterns.doubleBottom r
      = Some (Pattern.mk (detectedIn (detectDoubleBottom recent))) /\
    (PricePatterns.patternSignal r = "bullish"%string <->
     detectedIn (detectDoubleBottom recent) = true \/
     somePairAmongLast 4 bullishEngulfing recent) /\
    (PricePatterns.patternSignal r = "bearish"%string <->
     ~ (detectedIn (detectDoubleBottom recent) = true \/
        somePairAmongLast 4 bullishEngulfing recent) /\
     (detectedIn (detectDoubleTop recent) = true \/
      somePairAmongLast 4 bearishEngulfing recent)) /\
    (detectedIn (detectDoubleTop recent) = true <->
     exists i j, doublePeak true (map high recent) (map close recent) i j) /\
    (detectedIn (detectDoubleBottom recent) = true <->
     exists i j, doublePeak false (map low recent) (map close recent) i j) /\
    (forall found, detectDoubleTop recent = Some found ->
       reportedDouble true (map high recent) (map close recent) found) /\
    (forall found, detectDoubleBottom recent = Some found ->
       reportedDouble false (map low recent) (map close recent) found) /\
    ((List.length recent < 11)%nat ->
     detectDoubleTop recent = None /\ detectDoubleBottom recent = None).
Proof.
  intros Hpos recent. unfold analyzePricePatterns. fold recent.
  assert (Hrecent : Forall (fun k => 0 < low k /\ 0 < high k) recent).
  { apply Forall_forall. intros k Hk. apply sliceLast_incl in Hk.
    rewrite Forall_forall in Hpos. apply Hpos. exact Hk. }
  assert (Hhighs : Forall (fun v => 0 < v) (map high recent)).
  { apply Forall_map. eapply Forall_impl; [|exact Hrecent]. intros k [_ H]; exact H. }
  assert (Hlows : Forall (fun v => 0 < v) (map low recent)).
  { apply Forall_map. eapply Forall_impl; [|exact Hrecent]. intros k [H _]; exact H. }
  assert (Hlh : List.length (map close recent) = List.length (map high recent))
    by (rewrite !length_map; reflexivity).
  assert (Hll : List.length (map close recent) = List.length (map low recent))
    by (rewrite !length_map; reflexivity).
  assert (Hengulf :
            detectEngulfingPatterns recent =
            Ok (existsb (pairTest recent isBullishEngulfing)
                        (seq 1 (Nat.min 5 (List.length recent) - 1)),
                existsb (pairTest recent isBearishEngulfing)
                        (seq 1 (Nat.min 5 (List.length recent) - 1)))).
  { unfold detectEngulfingPatterns. rewrite engulfingLoop_spec; [reflexivity|].
    apply Forall_forall. intros i Hi. apply in_seq in Hi. lia. }
  rewrite Hengulf. cbn [bind ret fst snd]. eexists. split; [reflexivity|].
  cbn [PricePatterns.headAndShoulders PricePatterns.inverseHeadAndShoulders
       PricePatterns.doubleTop PricePatterns.doubleBottom
       PricePatterns.patternSignal].
  unfold detectHeadAndShoulders, detectInverseHeadAndShoulders.
  pose proof (@pairTest_some recent isBullishEngulfing bullishEngulfing 4
                isBullishEngulfing_iff (Nat.le_refl 4)) as Hbull.
  pose proof (@pairTest_some recent isBearishEngulfing bearishEngulfing 4
                isBearishEngulfing_iff (Nat.le_refl 4)) as Hbear.
  set (bull := existsb (pairTest recent isBullishEngulfing)
                       (seq 1 (Nat.min 5 (List.length recent) - 1))) in *.
  set (bear := existsb (pairTest recent isBearishEngulfing)
                       (seq 1 (Nat.min 5 (List.length recent) - 1))) in *.
  assert (Htop : detectedIn (detectDoubleTop recent) = true <->
                 exists i j, doublePeak true (map high recent)
                                        (map close recent) i j).
  { rewrite detectDoubleTop_scan. apply double_detected_iff; assumption. }
  assert (Hbottom : detectedIn (detectDoubleBottom recent) = true <->
                    exists i j, doublePeak false (map low recent)
                                           (map close recent) i j).
  { rewrite detectDoubleBottom_scan. apply double_detected_iff; assumption. }
  do 4 (split; [reflexivity|]).
  split; [|split; [|split; [exact Htop | split; [exact Hbottom|]]]].
  - rewrite <- Hbull.
    destruct (detectedIn (detectDoubleBottom recent)), bull,
             (detectedIn (detectDoubleTop recent)), bear; cbn;
      split; intros H; try discriminate; try reflexivity; auto;
      destruct H; discriminate.
  - rewrite <- Hbull, <- Hbear.
    destruct (detectedIn (detectDoubleBottom recent)), bull,
             (detectedIn (detectDoubleTop recent)), bear; cbn;
      split; intros H; try discriminate; try reflexivity;
      try (split; [intros [H1|H1]; discriminate | auto]);
      try (destruct H as [H1 H2]; exfalso; apply H1; auto);
      try (destruct H as [_ [H2|H2]]; discriminate).
  - split; [|split].
    + intros found H. rewrite detectDoubleTop_scan in H.
      apply double_reported; assumption.
    + intros found H. rewrite detectDoubleBottom_scan in H.
      apply double_reported; assumption.
    + intros Hshort. split.
      * destruct (detectDoubleTop recent) as [found|]; [|reflexivity].
        destruct (proj1 Htop eq_refl) as (i & j & Hd).
        apply doublePeak_needs_history in Hd.
        rewrite length_map in Hd. lia.
      * destruct (detectDoubleBottom recent) as [found|]; [|reflexivity].
        destruct (proj1 Hbottom eq_refl) as (i & j & Hd).
        apply doublePeak_needs_history in Hd.
        rewrite length_map in Hd. lia.
Qed.

Lemma price_pattern_signal_witness :
  exists r,
    analyzePricePatterns doubleTopMarket = Ok r /\
    PricePatterns.doubleTop r = Some (Pattern.mk true) /\
    PricePatterns.patternSignal r = "bearish"%string /\
    exists i j,
      doublePeak true (map high (MarketData.daily doubleTopMarket))
                 (map close (MarketData.daily doubleTopMarket)) i j.
Proof.
  destruct (@price_pattern_signal doubleTopMarket)
    as (r & Hrun & _ & _ & Htop & _ & _ & Hbear & Hiff & _).
  - repeat (constructor; [split; reflexivity|]). constructor.
  - exists r. split; [exact Hrun|]. split; [rewrite Htop; vm_compute; reflexivity|].
    split.
    + vm_compute in Hrun. injection Hrun as <-. reflexivity.
    + apply Hiff. vm_compute. reflexivity.
Defined.
